(** * zigpy general clusters: OTA negotiation and Green Power proxy frames

    A shallow embedding of the two stateful parts of
    [zigpy/zcl/clusters/general.py]:

    - [Ota._handle_query_next_image] and [Ota._handle_image_block];
    - [GreenPowerProxy.create_device], [handle_notification],
      [handle_message], [calcul_mic], [setKey] and [permit].

    Python objects are mutated in place and exceptions leave earlier
    mutations behind, so every operation is a function from a store to an
    outcome (a value or a raised exception) together with the store it
    leaves. *)

From Stdlib Require Import ZArith QArith Qround List String Lia.
From Stdlib Require Import Floats.SpecFloat.
From stdpp Require Import base option list gmap strings.

Local Close Scope Q_scope.
Local Open Scope Z_scope.

(** ** Python values, exceptions and the store-passing monad *)

Inductive exn :=
| KeyError
| IndexError
| AttributeError
| ValueError
| TypeError
| OverflowError
| AssertionError
| ZeroDivisionError
| DeliveryError.

Inductive result (A : Type) :=
| Ok (a : A)
| Raise (e : exn).

Arguments Ok {A} a.
Arguments Raise {A} e.

Definition M (S A : Type) : Type := S -> result A * S.

Definition ret {S A} (a : A) : M S A := fun s => (Ok a, s).
Definition raise {S A} (e : exn) : M S A := fun s => (Raise e, s).
Definition bind {S A B} (m : M S A) (k : A -> M S B) : M S B :=
  fun s => match m s with
           | (Ok a, s') => k a s'
           | (Raise e, s') => (Raise e, s')
           end.
Definition get {S} : M S S := fun s => (Ok s, s).
Definition lift {S A} (r : result A) : M S A := fun s => (r, s).

Notation "'do' x <- c ; k" := (bind c (fun x => k))
  (at level 10, x name, c at level 100, k at level 200).
Notation "'run' c ; k" := (bind c (fun _ => k))
  (at level 10, c at level 100, k at level 200).

(** A byte string is a list of integers in [0, 256). *)
Definition bytes := list Z.

(** Values held by an attribute cache: Python ints, [bytes] and [str]. *)
Inductive value :=
| VInt (z : Z)
| VBytes (b : bytes)
| VStr (s : string).

#[global] Instance value_eq_dec : EqDecision value.
Proof. solve_decision. Defined.

(** ** Python integer and slice primitives *)

Module Py.

(** [n.to_bytes(len, "little")]: [OverflowError] for a negative [n] or one
    that does not fit. *)
Fixpoint le_digits (len : nat) (n : Z) : bytes :=
  match len with
  | O => []
  | S len' => (n mod 256) :: le_digits len' (n / 256)
  end.

Definition to_bytes_little (n : Z) (len : nat) : result bytes :=
  if (n <? 0) || (256 ^ Z.of_nat len <=? n) then Raise OverflowError
  else Ok (le_digits len n).

Definition to_bytes_big (n : Z) (len : nat) : result bytes :=
  match to_bytes_little n len with
  | Ok b => Ok (rev b)
  | Raise e => Raise e
  end.

(** [int.from_bytes(b, byteorder="little")]. *)
Fixpoint from_bytes_little (b : bytes) : Z :=
  match b with
  | [] => 0
  | x :: rest => x + 256 * from_bytes_little rest
  end.

Definition from_bytes_big (b : bytes) : Z := from_bytes_little (rev b).

(** [data[i:j]] for non-negative bounds, [data[i:-k]] and [data[-k:]]. *)
Definition slice {A} (l : list A) (i j : nat) : list A :=
  take (j - i) (drop i l).

Definition slice_to_end_minus {A} (l : list A) (i k : nat) : list A :=
  slice l i (length l - k).

Definition last_n {A} (l : list A) (k : nat) : list A :=
  drop (length l - k) l.

(** [data[i]] for a non-negative index. *)
Definition index {S} (l : bytes) (i : nat) : M S Z :=
  match l !! i with
  | Some x => ret x
  | None => raise IndexError
  end.

(** [b"\x00" * n]: empty for [n <= 0]. *)
Definition zeros (n : Z) : bytes := replicate (Z.to_nat n) 0.

End Py.

(** ** AES (FIPS-197), as used through [Crypto.Cipher.AES] *)

Module AES.

Definition sbox_table : list Z :=
  [ 99; 124; 119; 123; 242; 107; 111; 197;  48;   1; 103;  43; 254; 215; 171; 118;
   202; 130; 201; 125; 250;  89;  71; 240; 173; 212; 162; 175; 156; 164; 114; 192;
   183; 253; 147;  38;  54;  63; 247; 204;  52; 165; 229; 241; 113; 216;  49;  21;
     4; 199;  35; 195;  24; 150;   5; 154;   7;  18; 128; 226; 235;  39; 178; 117;
     9; 131;  44;  26;  27; 110;  90; 160;  82;  59; 214; 179;  41; 227;  47; 132;
    83; 209;   0; 237;  32; 252; 177;  91; 106; 203; 190;  57;  74;  76;  88; 207;
   208; 239; 170; 251;  67;  77;  51; 133;  69; 249;   2; 127;  80;  60; 159; 168;
    81; 163;  64; 143; 146; 157;  56; 245; 188; 182; 218;  33;  16; 255; 243; 210;
   205;  12;  19; 236;  95; 151;  68;  23; 196; 167; 126;  61; 100;  93;  25; 115;
    96; 129;  79; 220;  34;  42; 144; 136;  70; 238; 184;  20; 222;  94;  11; 219;
   224;  50;  58;  10;  73;   6;  36;  92; 194; 211; 172;  98; 145; 149; 228; 121;
   231; 200;  55; 109; 141; 213;  78; 169; 108;  86; 244; 234; 101; 122; 174;   8;
   186; 120;  37;  46;  28; 166; 180; 198; 232; 221; 116;  31;  75; 189; 139; 138;
   112;  62; 181; 102;  72;   3; 246;  14;  97;  53;  87; 185; 134; 193;  29; 158;
   225; 248; 152;  17; 105; 217; 142; 148; 155;  30; 135; 233; 206;  85;  40; 223;
   140; 161; 137;  13; 191; 230;  66; 104;  65; 153;  45;  15; 176;  84; 187;  22].

Definition SubByte (b : Z) : Z := nth (Z.to_nat b) sbox_table 0.

Definition xor_bytes (a b : bytes) : bytes := zip_with Z.lxor a b.

(** Multiplication by [x] in GF(2^8) modulo [x^8 + x^4 + x^3 + x + 1]. *)
Definition xtime (a : Z) : Z :=
  Z.lxor (Z.land (Z.shiftl a 1) 255) (if Z.testbit a 7 then 27 else 0).

Definition SubBytes (s : bytes) : bytes := map SubByte s.

(** The state is held column by column, as the input block is. *)
Definition ShiftRows (s : bytes) : bytes :=
  map (fun i => nth i s 0)
      [0; 5; 10; 15; 4; 9; 14; 3; 8; 13; 2; 7; 12; 1; 6; 11]%nat.

Definition mix_column (b0 b1 b2 b3 : Z) : bytes :=
  let m3 x := Z.lxor (xtime x) x in
  [ Z.lxor (Z.lxor (xtime b0) (m3 b1)) (Z.lxor b2 b3);
    Z.lxor (Z.lxor b0 (xtime b1)) (Z.lxor (m3 b2) b3);
    Z.lxor (Z.lxor b0 b1) (Z.lxor (xtime b2) (m3 b3));
    Z.lxor (Z.lxor (m3 b0) b1) (Z.lxor b2 (xtime b3)) ].

Fixpoint MixColumns (s : bytes) : bytes :=
  match s with
  | b0 :: b1 :: b2 :: b3 :: rest => mix_column b0 b1 b2 b3 ++ MixColumns rest
  | _ => []
  end.

Definition RotWord (w : bytes) : bytes :=
  match w with
  | a :: rest => rest ++ [a]
  | [] => []
  end.

Fixpoint chunks (fuel size : nat) (b : bytes) : list bytes :=
  match fuel with
  | O => []
  | S fuel' =>
      match b with
      | [] => []
      | _ => take size b :: chunks fuel' size (drop size b)
      end
  end.

(** Key expansion for [Nk] in 4, 6, 8: word [i] from words [i-1] and
    [i-Nk]. *)
Fixpoint expand_words (n Nk i : nat) (rc : Z) (w : list bytes) : list bytes :=
  match n with
  | O => w
  | S n' =>
      let prev := nth (i - 1) w [] in
      let at_key := (i mod Nk =? 0)%nat in
      let temp :=
        if at_key then xor_bytes (SubBytes (RotWord prev)) [rc; 0; 0; 0]
        else if (6 <? Nk)%nat && (i mod Nk =? 4)%nat then SubBytes prev
        else prev in
      expand_words n' Nk (S i) (if at_key then xtime rc else rc)
                   (w ++ [xor_bytes (nth (i - Nk) w []) temp])
  end.

Definition round_keys (key : bytes) : list bytes :=
  let Nk := (length key / 4)%nat in
  let total := (4 * (Nk + 7))%nat in
  let w := expand_words (total - Nk) Nk Nk 1 (chunks Nk 4 key) in
  chunks (Nk + 7) 16 (concat w).

Fixpoint rounds (rks : list bytes) (s : bytes) : bytes :=
  match rks with
  | [] => s
  | [rk] => xor_bytes (ShiftRows (SubBytes s)) rk
  | rk :: rest =>
      rounds rest (xor_bytes (MixColumns (ShiftRows (SubBytes s))) rk)
  end.

(** The forward cipher on one 16-byte block. *)
Definition encrypt_block (key block : bytes) : bytes :=
  match round_keys key with
  | rk0 :: rest => rounds rest (xor_bytes block rk0)
  | [] => block
  end.

Definition valid_key_length (key : bytes) : bool :=
  let n := length key in ((n =? 16) || (n =? 24) || (n =? 32))%nat.

(** [AES.new(key, AES.MODE_CBC, iv).encrypt(data)] for a single block:
    [ValueError] for a key of a wrong length, an IV that is not 16 bytes
    or data that is not block aligned. *)
Definition cbc_encrypt_block (key iv data : bytes) : result bytes :=
  if negb (valid_key_length key) then Raise ValueError
  else if negb (length iv =? 16)%nat then Raise ValueError
  else if negb (length data =? 16)%nat then Raise ValueError
  else Ok (encrypt_block key (xor_bytes data iv)).

(** [AES.new(key, AES.MODE_CTR, counter=Counter.new(128,
    initial_value=v)).encrypt(data)] for at most one block of data: the
    key stream is the encryption of the 128-bit big-endian counter block
    holding [v]. *)
Definition ctr_encrypt_first (key : bytes) (initial_value : Z) (data : bytes)
  : result bytes :=
  if negb (valid_key_length key) then Raise ValueError
  else match Py.to_bytes_big initial_value 16 with
       | Raise _ => Raise ValueError
       | Ok block => Ok (xor_bytes data (encrypt_block key block))
       end.

End AES.

(** ** Devices, endpoints and clusters *)

(** Modelled from the spec: the attribute cache of a cluster. Class
    [Cluster] (zigpy/zcl/__init__.py) is not in src; the spec calls the
    cache "an untyped generic key-value cache" and the source uses it with
    [in], indexing, item assignment and [del], that is as a dict from
    attribute id to value. *)
Record Cluster := mkCluster { _attr_cache : gmap Z value }.

(** Modelled from the spec: [Cluster._update_attribute(attrid, value)]
    (not in src) records the value in the cluster's attribute cache; it is
    the call by which [setKey] provisions the key and [create_device]
    labels the device. *)
Definition _update_attribute (attrid : Z) (v : value) (c : Cluster) : Cluster :=
  mkCluster (<[attrid := v]> (_attr_cache c)).

Inductive EndpointStatus := Endpoint_NEW | Endpoint_ZDO_INIT.
Inductive DeviceStatus := Device_NEW | Device_ENDPOINTS_INIT.
Inductive DeviceType := GREEN_POWER.

Record Endpoint := mkEndpoint {
  ep_status : EndpointStatus;
  profile_id : option Z;
  device_type : option DeviceType;
  in_clusters : gmap Z Cluster;
  out_clusters : gmap Z Cluster
}.

Record Device := mkDevice {
  nwk : Z;
  status : DeviceStatus;
  _skip_configuration : bool;
  endpoints : gmap Z Endpoint
}.

Record ZCLHeader := mkZCLHeader {
  hdr_tsn : Z;
  hdr_command_id : option Z;
  disable_default_response : bool
}.

Record BroadcastRequest := mkBroadcast {
  bc_profile : Z;
  bc_cluster : Z;
  bc_src_ep : Z;
  bc_dst_ep : Z;
  bc_grpid : option Z;
  bc_radius : Z;
  bc_sequence : Z;
  bc_header : ZCLHeader;
  bc_payload : bytes
}.

(** What the handlers hand to their collaborators, in the order they do. *)
Inductive Event :=
| device_initialized (ieee : bytes)
| cluster_handle_message (ieee : bytes) (endpoint cluster : Z)
                         (hdr : ZCLHeader) (args : list (option Z))
| broadcast (req : BroadcastRequest).

Record Application := mkApplication {
  devices : gmap bytes Device;
  _send_sequence : Z;
  events : list Event
}.

(** [self]: the handling cluster with its own attribute cache (which holds
    the commissioning-window expiry under 0x9997) and the application it
    reaches through [self.endpoint.device.application]. *)
Record GreenPowerProxy := mkProxy {
  self_cluster : Cluster;
  application : Application
}.

Definition cluster_id : Z := 0x0021.
Definition endpoint_id : Z := 242.
Definition zha_PROFILE_ID : Z := 260.
Definition Basic_cluster_id : Z := 0x0000.

(** [d[k]] on a dict: [KeyError] for a missing key. *)
Definition getitem `{Countable K} {V} (d : gmap K V) (k : K) : result V :=
  match d !! k with
  | Some v => Ok v
  | None => Raise KeyError
  end.

(** A dict has no attribute [_update_attribute]: calling it on the cache
    object itself, instead of on the cluster that owns the cache, raises
    [AttributeError] before anything is stored. *)
Definition dict_update_attribute {S} (attributes : gmap Z value)
    (attrid : Z) (v : value) : M S unit :=
  raise AttributeError.

Definition new_cluster : Cluster := mkCluster ∅.

Definition new_endpoint : Endpoint :=
  mkEndpoint Endpoint_NEW None None ∅ ∅.

(** Modelled from the spec: the device registry contract
    ([add_input_cluster] / [add_output_cluster] capability mutators,
    [create_device], [device_initialized]); zigpy.endpoint, zigpy.device
    and zigpy.application are not in src. A cluster that is already
    present is kept. *)
Definition add_input_cluster (cid : Z) (ep : Endpoint) : Endpoint :=
  match in_clusters ep !! cid with
  | Some _ => ep
  | None => mkEndpoint (ep_status ep) (profile_id ep) (device_type ep)
                       (<[cid := new_cluster]> (in_clusters ep)) (out_clusters ep)
  end.

Definition add_output_cluster (cid : Z) (ep : Endpoint) : Endpoint :=
  match out_clusters ep !! cid with
  | Some _ => ep
  | None => mkEndpoint (ep_status ep) (profile_id ep) (device_type ep)
                       (in_clusters ep) (<[cid := new_cluster]> (out_clusters ep))
  end.

Definition set_in_cluster (cid : Z) (c : Cluster) (ep : Endpoint) : Endpoint :=
  mkEndpoint (ep_status ep) (profile_id ep) (device_type ep)
             (<[cid := c]> (in_clusters ep)) (out_clusters ep).

Definition set_endpoint (id : Z) (ep : Endpoint) (dev : Device) : Device :=
  mkDevice (nwk dev) (status dev) (_skip_configuration dev)
           (<[id := ep]> (endpoints dev)).

Definition set_device (ieee : bytes) (dev : Device) : M GreenPowerProxy unit :=
  fun self =>
    let app := application self in
    (Ok tt, mkProxy (self_cluster self)
              (mkApplication (<[ieee := dev]> (devices app))
                             (_send_sequence app) (events app))).

Definition emit (e : Event) : M GreenPowerProxy unit :=
  fun self =>
    let app := application self in
    (Ok tt, mkProxy (self_cluster self)
              (mkApplication (devices app) (_send_sequence app)
                             (events app ++ [e]))).

(** Modelled from the spec: [application.get_sequence()] (not in src), the
    next 8-bit transaction sequence number. *)
Definition get_sequence : M GreenPowerProxy Z :=
  fun self =>
    let app := application self in
    let n := (_send_sequence app + 1) mod 256 in
    (Ok n, mkProxy (self_cluster self)
             (mkApplication (devices app) n (events app))).

(** ** Clock readings *)

(** [time.time()] returns a float. Where a reading is only compared with
    a cached int ([create_device]), which Python does on the exact values,
    it is modelled as the rational number the float denotes. [int(x)]
    truncates towards zero. *)
Definition Qltb (x y : Q) : bool := negb (Qle_bool y x).

Definition py_int (x : Q) : Z :=
  if Qle_bool (inject_Z 0) x then Qfloor x else Qceiling x.

(** Where a reading enters float arithmetic ([permit]) it is the double
    itself: a binary64 value [(-1)^s * m * 2^e], a zero, an infinity or a
    NaN. [x + n] for a float [x] and an int [n] converts [n] to a double
    and adds as IEEE 754 does, rounding the exact sum to the nearest
    double, ties to the even mantissa. *)
Definition float_prec : Z := 53.
Definition float_emax : Z := 1024.

Definition float_of_int (n : Z) : spec_float :=
  binary_normalize float_prec float_emax n 0 false.

Definition float_add (x y : spec_float) : spec_float :=
  SFadd float_prec float_emax x y.

(** The number a finite double denotes. *)
Definition float_value (x : spec_float) : Q :=
  match x with
  | S754_finite s m e =>
      let z := if s then Z.neg m else Z.pos m in
      if 0 <=? e then inject_Z (z * 2 ^ e)
      else Qmake z (Pos.pow 2 (Z.to_pos (- e)))
  | _ => inject_Z 0
  end.

(** [int(x)] for a float: the value truncated towards zero; an infinity
    raises [OverflowError], a NaN [ValueError]. *)
Definition float_int (x : spec_float) : result Z :=
  match x with
  | S754_nan => Raise ValueError
  | S754_infinity _ => Raise OverflowError
  | _ => Ok (py_int (float_value x))
  end.

(** [v < time.time()] and [v >= counter] for a cached value [v]: ordering
    an int against [bytes] or [str] raises [TypeError]. *)
Definition value_lt_time (v : value) (now : Q) : result bool :=
  match v with
  | VInt e => Ok (Qltb (inject_Z e) now)
  | _ => Raise TypeError
  end.

Definition value_ge (v : value) (n : Z) : result bool :=
  match v with
  | VInt z => Ok (n <=? z)
  | _ => Raise TypeError
  end.

(** ** The translation and device-type tables *)

Inductive ztype :=
| uint8_t
| uint16_t
| Optional (t : ztype).

Record TranslationEntry := entry {
  entry_name : string;
  entry_type : string;
  entry_schema : list ztype;
  entry_cluster_id : option Z;
  entry_zcl_command_id : option Z;
  entry_value : list Z
}.

Definition cc : string := "CLUSTER_COMMAND".

Definition command_table : list (Z * TranslationEntry) :=
  [ (0x00, entry "Identify" cc [] None None []);
    (0x10, entry "Scene 0" cc [] (Some 0x0005) (Some 0x0001) [0; 0]);
    (0x11, entry "Scene 1" cc [] (Some 0x0005) (Some 0x0001) [0; 1]);
    (0x12, entry "Scene 2" cc [] (Some 0x0005) (Some 0x0001) [0; 2]);
    (0x13, entry "Scene 3" cc [] (Some 0x0005) (Some 0x0001) [0; 3]);
    (0x14, entry "Scene 4" cc [] (Some 0x0005) (Some 0x0001) [0; 4]);
    (0x15, entry "Scene 5" cc [] (Some 0x0005) (Some 0x0001) [0; 5]);
    (0x17, entry "Scene 7" cc [] (Some 0x0005) (Some 0x0001) [0; 6]);
    (0x16, entry "Scene 6" cc [] (Some 0x0005) (Some 0x0001) [0; 7]);
    (0x18, entry "Scene 8" cc [] (Some 0x0005) (Some 0x0001) [0; 8]);
    (0x19, entry "Scene 9" cc [] (Some 0x0005) (Some 0x0001) [0; 9]);
    (0x1A, entry "Scene 10" cc [] (Some 0x0005) (Some 0x0001) [0; 10]);
    (0x1B, entry "Scene 11" cc [] (Some 0x0005) (Some 0x0001) [0; 11]);
    (0x1C, entry "Scene 12" cc [] (Some 0x0005) (Some 0x0001) [0; 12]);
    (0x1D, entry "Scene 13" cc [] (Some 0x0005) (Some 0x0001) [0; 13]);
    (0x1E, entry "Scene 14" cc [] (Some 0x0005) (Some 0x0001) [0; 14]);
    (0x1F, entry "Scene 15" cc [] (Some 0x0005) (Some 0x0001) [0; 15]);
    (0x20, entry "Off" cc [] (Some 0x0006) (Some 0x0000) []);
    (0x21, entry "On" cc [] (Some 0x0006) (Some 0x0001) []);
    (0x22, entry "Toggle" cc [] (Some 0x0006) (Some 0x0002) []);
    (0x23, entry "Release" cc [] None None []);
    (0x30, entry "Move Up" cc [uint8_t] (Some 0x0008) (Some 0x0001) [1]);
    (0x31, entry "Move Down" cc [uint8_t] (Some 0x0008) (Some 0x0000) [0]);
    (0x32, entry "Step Up" cc [uint8_t; Optional uint16_t]
                 (Some 0x0008) (Some 0x0002) [1]);
    (0x33, entry "Step Down" cc [uint8_t; Optional uint16_t]
                 (Some 0x0008) (Some 0x0002) [0]);
    (0x34, entry "Level Control/Stop" cc [] (Some 0x0008) (Some 0x0007) []);
    (0x35, entry "Move Up (with On/Off)" cc [uint8_t]
                 (Some 0x0008) (Some 0x0005) [1]);
    (0x36, entry "Move Down (with On/Off)" cc [uint8_t]
                 (Some 0x0008) (Some 0x0005) [0]);
    (0x37, entry "Step Up (with On/Off)" cc [uint8_t; Optional uint16_t]
                 (Some 0x0008) (Some 0x0006) [1]);
    (0x38, entry "Step Down (with On/Off)" cc [uint8_t; Optional uint16_t]
                 (Some 0x0008) (Some 0x0006) [0]);
    (0x40, entry "Move Hue Stop" cc [] (Some 0x0300) (Some 0x0047) []);
    (0x41, entry "Move Hue Up Color" cc [uint8_t]
                 (Some 0x0300) (Some 0x0001) [1]);
    (0x42, entry "Move Hue Down Color" cc [uint8_t]
                 (Some 0x0300) (Some 0x0001) [0]);
    (0x43, entry "Step Hue Up Color" cc [uint8_t; Optional uint16_t]
                 (Some 0x0300) (Some 0x0002) [1]);
    (0x44, entry "Step Hue Down Color" cc [uint8_t; Optional uint16_t]
                 (Some 0x0300) (Some 0x0002) [0]);
    (0x46, entry "Move Saturation Up" cc [uint8_t]
                 (Some 0x0300) (Some 0x0004) [1]);
    (0x47, entry "Move Saturation Down" cc [uint8_t]
                 (Some 0x0300) (Some 0x0004) [0]);
    (0x48, entry "Step Saturation Up" cc [uint8_t]
                 (Some 0x0300) (Some 0x0005) [1]);
    (0x49, entry "Step Saturation Down" cc [uint8_t]
                 (Some 0x0300) (Some 0x0005) [0]);
    (0x4A, entry "Move Color" cc [uint16_t; uint16_t]
                 (Some 0x0300) (Some 0x0008) []);
    (0x4B, entry "Step Color" cc [uint16_t; uint16_t; Optional uint16_t]
                 (Some 0x0300) (Some 0x0009) []);
    (0x45, entry "Move Saturation Stop" cc [] (Some 0x0300) (Some 0x0047) []);
    (0x50, entry "Lock Door" cc [] (Some 0x0101) (Some 0x0000) []);
    (0x51, entry "Unlock Door" cc [] (Some 0x0101) (Some 0x0001) []);
    (0x60, entry "Press 1 of 1" cc [] None None []);
    (0x61, entry "Release 1 of 1" cc [] None None []);
    (0x62, entry "Press 1 of 2" cc [] None None []);
    (0x63, entry "Release 1 of 2" cc [] None None []);
    (0x64, entry "Press 2 of 2" cc [] None None []);
    (0x65, entry "Release 2 of 2" cc [] None None []);
    (0x66, entry "Short press 1 of 1" cc [] None None []);
    (0x67, entry "Short press 1 of 2" cc [] None None []);
    (0x68, entry "Short press 2 of 2" cc [] None None []);
    (0x69, entry "Press" cc [uint8_t] (Some 0x0005) (Some 0x0001) [0]);
    (0x6A, entry "Release" cc [uint8_t] None None []) ].

(** The class body assigns [device] twice; the second dict is the one in
    force. *)
Definition device_table : list (Z * (string * list Z * list Z)) :=
  [ (0x00, ("Simple Generic 1-state Switch", [], [0x0006]));
    (0x01, ("Simple Generic 2-state Switch", [], [0x0006]));
    (0x02, ("On/Off Switch", [], [0x0005; 0x0006]));
    (0x03, ("Level Control Switch", [], [0x0008]));
    (0x04, ("Simple Sensor", [], []));
    (0x05, ("Advanced Generic 1-state Switch", [], [0x0005; 0x0006]));
    (0x06, ("Advanced Generic 2-state Switch", [], [0x0005; 0x0006]));
    (0x07, ("On/Off Switch", [], [0x0005; 0x0006]));
    (0x10, ("Color Dimmer Switch", [], [0x0300]));
    (0x11, ("Light Sensor", [0x0400], []));
    (0x12, ("Occupancy Sensor", [0x0406], []));
    (0x20, ("Door Lock Controller", [], [0x0101]));
    (0x30, ("Temperature Sensor", [0x0402], []));
    (0x31, ("Pressure Sensor", [0x0403], []));
    (0x32, ("Flow Sensor", [0x0404], []));
    (0x33, ("Indoor Environment Sensor", [], [])) ].

Fixpoint assoc {V} (k : Z) (l : list (Z * V)) : option V :=
  match l with
  | [] => None
  | (k', v) :: rest => if k =? k' then Some v else assoc k rest
  end.

Definition command (command_id : Z) : option TranslationEntry :=
  assoc command_id command_table.

Definition device (type : Z) : option (string * list Z * list Z) :=
  assoc type device_table.

(** Modelled from the spec: [zigpy.types.deserialize] (not in src). The
    payload is read field by field per the entry's schema, "an explicit
    ordered list of required fields followed by an explicit list of
    optional fields, deserialized greedily while bytes remain": a required
    field that does not fit fails with [ValueError], an optional one that
    does not fit yields no value and consumes the rest. *)
Definition deserialize_int (size : nat) (data : bytes) : result (option Z * bytes) :=
  if (length data <? size)%nat then Raise ValueError
  else Ok (Some (Py.from_bytes_little (take size data)), drop size data).

Fixpoint deserialize_type (t : ztype) (data : bytes) : result (option Z * bytes) :=
  match t with
  | uint8_t => deserialize_int 1 data
  | uint16_t => deserialize_int 2 data
  | Optional t' =>
      match deserialize_type t' data with
      | Raise ValueError => Ok (None, [])
      | r => r
      end
  end.

Fixpoint deserialize (data : bytes) (schema : list ztype)
  : result (list (option Z) * bytes) :=
  match schema with
  | [] => Ok ([], data)
  | t :: schema' =>
      match deserialize_type t data with
      | Raise e => Raise e
      | Ok (v, data') =>
          match deserialize data' schema' with
          | Raise e => Raise e
          | Ok (vs, rest) => Ok (v :: vs, rest)
          end
      end
  end.

(** ** GreenPowerProxy.calcul_mic *)

(** The two authentication blocks and the counter block built from the
    frame fields: [B0 = 0x49 ‖ nonce ‖ pad], [B1 = La ‖ a ‖ pad] and
    [A0 = 0x01 ‖ nonce ‖ 0x0000] with
    [nonce = src_id ‖ src_id ‖ counter ‖ 0x05] and
    [a = header ‖ src_id ‖ counter ‖ payload]. *)
Definition nonce (src_id counter : bytes) : bytes :=
  src_id ++ src_id ++ counter ++ [0x05].

Definition block_B0 (src_id counter : bytes) : bytes :=
  let B0 := [0x49] ++ nonce src_id counter in
  B0 ++ Py.zeros (16 - Z.of_nat (length B0)).

Definition block_B1 (header src_id counter payload : bytes) : result bytes :=
  let header := header ++ src_id ++ counter in
  let a := header ++ payload in
  match Py.to_bytes_big (Z.of_nat (length a)) 2 with
  | Raise e => Raise e
  | Ok La =>
      let AddAuthData := La ++ a in
      Ok (AddAuthData ++ Py.zeros (16 - Z.of_nat (length AddAuthData)))
  end.

Definition block_A0 (src_id counter : bytes) : bytes :=
  [0x01] ++ nonce src_id counter ++ [0x00; 0x00].

(** The tag for a key held in the cache: two chained single-block CBC
    encryptions, then the first four bytes of the result encrypted in
    counter mode and read as a little-endian integer. A cached key that is
    not [bytes] is refused by [AES.new] with [TypeError]. *)
Definition ccm_mic (key : value) (src_id header counter payload : bytes)
  : result Z :=
  match key with
  | VBytes key =>
      match block_B1 header src_id counter payload with
      | Raise e => Raise e
      | Ok B1 =>
          let B0 := block_B0 src_id counter in
          let X0 := Py.zeros 16 in
          match AES.cbc_encrypt_block key B0 X0 with
          | Raise e => Raise e
          | Ok X1 =>
              match AES.cbc_encrypt_block key B1 X1 with
              | Raise e => Raise e
              | Ok X2 =>
                  let A0 := block_A0 src_id counter in
                  match AES.ctr_encrypt_first key (Py.from_bytes_big A0)
                                              (take 4 X2) with
                  | Raise e => Raise e
                  | Ok c => Ok (Py.from_bytes_little c)
                  end
              end
          end
      end
  | _ => Raise TypeError
  end.

(** [calcul_mic] as [handle_notification] calls it: [header] an int,
    [counter] an int or [None], [payload] already [bytes]. It returns
    [None] when the device is unknown or holds no key. *)
Definition calcul_mic (ieee : bytes) (header : Z) (counter : option Z)
    (payload : bytes) (payload_length : nat) : M GreenPowerProxy (option Z) :=
  do self <- get;
  match devices (application self) !! ieee with
  | None => ret None
  | Some dev =>
      do ep <- lift (getitem (endpoints dev) endpoint_id);
      do cl <- lift (getitem (in_clusters ep) cluster_id);
      match _attr_cache cl !! 0x9998 with
      | None => ret None
      | Some key =>
          let src_id := take 4 ieee in
          do header <- lift (Py.to_bytes_little header 2);
          do counter <- match counter with
                        | Some c => lift (Py.to_bytes_little c 4)
                        | None => raise AttributeError
                        end;
          do m <- lift (ccm_mic key src_id header counter payload);
          ret (Some m)
      end
  end.

(** ** GreenPowerProxy.handle_notification *)

(** Lines 1647-1656: the redispatch to the primary endpoint, adding the
    output cluster first when the device does not have it yet. *)
Definition dispatch (ieee : bytes) (dev : Device) (cid : Z)
    (zcl_command_id : option Z) (args : list (option Z))
  : M GreenPowerProxy unit :=
  do ep1 <- lift (getitem (endpoints dev) 1);
  run match out_clusters ep1 !! cid with
      | Some _ => ret tt
      | None =>
          run set_device ieee (set_endpoint 1 (add_output_cluster cid ep1) dev);
          emit (device_initialized ieee)
      end;
  do tsn <- get_sequence;
  emit (cluster_handle_message ieee 1 cid
          (mkZCLHeader tsn zcl_command_id false) args).

(** Lines 1639-1646: [true] when the frame may go on to the dispatch. The
    counter is compared against the device's cached 0x9999; a fresh counter
    is then "stored" by calling [_update_attribute] on the cache dict. *)
Definition replay_guard (dev : Device) (counter : option Z)
  : M GreenPowerProxy bool :=
  match counter with
  | None => ret true
  | Some c =>
      do ep <- lift (getitem (endpoints dev) endpoint_id);
      do cl <- lift (getitem (in_clusters ep) cluster_id);
      let attributes := _attr_cache cl in
      do seen <- match attributes !! 0x9999 with
                 | Some v => lift (value_ge v c)
                 | None => ret false
                 end;
      if (seen : bool) then ret false
      else run dict_update_attribute attributes 0x9999 (VInt c); ret true
  end.

(** Lines 1621-1656: everything after the MIC comparison. *)
Definition translate_and_dispatch (ieee : bytes) (counter : option Z)
    (command_id payload : Z) (payload_length : nat) : M GreenPowerProxy unit :=
  do e <- lift (match command command_id with
                | Some e => Ok e
                | None => Raise KeyError
                end);
  do data <- lift (Py.to_bytes_little payload payload_length);
  do parsed <- lift (deserialize data (entry_schema e));
  let value := map Some (entry_value e) ++ fst parsed in
  do self <- get;
  do dev <- lift (getitem (devices (application self)) ieee);
  do fresh <- replay_guard dev counter;
  if (fresh : bool) then
    match entry_cluster_id e with
    | Some cid =>
        if String.eqb (entry_type e) "CLUSTER_COMMAND"
        then dispatch ieee dev cid (entry_zcl_command_id e) value
        else ret tt
    | None => ret tt
    end
  else ret tt.

Definition handle_notification (ieee : bytes) (header : Z)
    (counter : option Z) (command_id payload : Z) (payload_length : nat)
    (mic : Z) : M GreenPowerProxy unit :=
  do self <- get;
  match devices (application self) !! ieee with
  | None => ret tt
  | Some _ =>
      match command command_id with
      | None => ret tt
      | Some _ =>
          do cb <- lift (Py.to_bytes_little command_id 1);
          do pb <- lift (Py.to_bytes_little payload payload_length);
          do calcul <- calcul_mic ieee header counter (cb ++ pb)
                                  (payload_length + 1);
          match calcul with
          | Some m =>
              if m =? mic
              then translate_and_dispatch ieee counter command_id payload
                                          payload_length
              else ret tt
          | None =>
              translate_and_dispatch ieee counter command_id payload
                                     payload_length
          end
      end
  end.

(** ** GreenPowerProxy.create_device *)

(** Modelled from the spec: [application.add_device(ieee, nwk)] and
    [dev.add_endpoint(id)] (not in src) put a new device under its identity
    and a new endpoint under its id. The objects are shared with the
    registry, so later assignments through [dev] and [ep] are updates of
    the registry entry. *)
Definition add_device (ieee : bytes) (nwk : Z) : M GreenPowerProxy unit :=
  set_device ieee (mkDevice nwk Device_NEW false ∅).

Definition modify_device (ieee : bytes) (f : Device -> Device)
  : M GreenPowerProxy unit :=
  do self <- get;
  do dev <- lift (getitem (devices (application self)) ieee);
  set_device ieee (f dev).

Definition modify_endpoint (ieee : bytes) (id : Z) (f : Endpoint -> Endpoint)
  : M GreenPowerProxy unit :=
  do self <- get;
  do dev <- lift (getitem (devices (application self)) ieee);
  do ep <- lift (getitem (endpoints dev) id);
  set_device ieee (set_endpoint id (f ep) dev).

Definition modify_in_cluster (ieee : bytes) (id cid : Z)
    (f : Cluster -> Cluster) : M GreenPowerProxy unit :=
  do self <- get;
  do dev <- lift (getitem (devices (application self)) ieee);
  do ep <- lift (getitem (endpoints dev) id);
  do cl <- lift (getitem (in_clusters ep) cid);
  set_device ieee (set_endpoint id (set_in_cluster cid (f cl) ep) dev).

(** [ep.status], [ep.profile_id] and [ep.device_type] as both endpoints
    get them. *)
Definition green_power_endpoint (ep : Endpoint) : Endpoint :=
  mkEndpoint Endpoint_ZDO_INIT (Some zha_PROFILE_ID) (Some GREEN_POWER)
             (in_clusters ep) (out_clusters ep).

Fixpoint for_each {S A} (l : list A) (body : A -> M S unit) : M S unit :=
  match l with
  | [] => ret tt
  | x :: rest => run body x; for_each rest body
  end.

(** The gate of lines 1557-1559: [true] when the creation is refused. The
    clock is read only when an expiry is cached and no override is given. *)
Definition joining_refused (self : GreenPowerProxy)
    (remoteCommissioning : bool) (now : Q) : result bool :=
  if remoteCommissioning then Ok false
  else match _attr_cache (self_cluster self) !! 0x9997 with
       | None => Ok true
       | Some v => value_lt_time v now
       end.

Definition create_device (ieee : bytes) (type : option Z)
    (remoteCommissioning : bool) (now : Q)
  : M GreenPowerProxy (option Device) :=
  do self <- get;
  match devices (application self) !! ieee with
  | Some dev => ret (Some dev)
  | None =>
      do refused <- lift (joining_refused self remoteCommissioning now);
      if (refused : bool) then ret None
      else
        run add_device ieee 32766;
        run modify_device ieee
              (fun d => mkDevice (nwk d) Device_ENDPOINTS_INIT true (endpoints d));
        run modify_device ieee (set_endpoint 1 new_endpoint);
        run modify_endpoint ieee 1 green_power_endpoint;
        run modify_endpoint ieee 1 (add_input_cluster Basic_cluster_id);
        run modify_in_cluster ieee 1 Basic_cluster_id
              (_update_attribute 0x0004 (VStr "GreenPower"));
        run match type ≫= device with
            | Some (name, ins, outs) =>
                run modify_in_cluster ieee 1 Basic_cluster_id
                      (_update_attribute 0x0005 (VStr name));
                run for_each ins
                      (fun cid => modify_endpoint ieee 1 (add_input_cluster cid));
                for_each outs
                  (fun cid => modify_endpoint ieee 1 (add_output_cluster cid))
            | None =>
                modify_in_cluster ieee 1 Basic_cluster_id
                  (_update_attribute 0x0005 (VStr "GreenPowerDevice"))
            end;
        run modify_device ieee (set_endpoint endpoint_id new_endpoint);
        run modify_endpoint ieee endpoint_id green_power_endpoint;
        run modify_endpoint ieee endpoint_id (add_input_cluster cluster_id);
        run emit (device_initialized ieee);
        do self' <- get;
        do dev <- lift (getitem (devices (application self')) ieee);
        ret (Some dev)
  end.

(** ** GreenPowerProxy.handle_message *)

Definition is_commissioning_frame (data : bytes) : M GreenPowerProxy bool :=
  do d0 <- Py.index data 0;
  if d0 =? 12 then do d5 <- Py.index data 5; ret (d5 =? 224)
  else ret false.

Definition handle_message (args : list bytes) (now : Q)
  : M GreenPowerProxy unit :=
  do data <- match args !! 0%nat with
             | Some d => ret d
             | None => raise IndexError
             end;
  do commissioning <- is_commissioning_frame data;
  if (commissioning : bool) then
    let ieee := Py.slice data 1 5 ++ Py.slice data 1 5 in
    do type <- Py.index data 6;
    run create_device ieee (Some type) false now;
    ret tt
  else
    let ieee := Py.slice data 2 6 ++ Py.slice data 2 6 in
    let counter := Py.from_bytes_little (Py.slice data 6 10) in
    do command_id <- Py.index data 10;
    let payload_length := length (Py.slice_to_end_minus data 11 4) in
    let payload := Py.from_bytes_little (Py.slice_to_end_minus data 11 4) in
    let mic := Py.from_bytes_little (Py.last_n data 4) in
    let header := Py.from_bytes_little (Py.slice data 0 2) in
    handle_notification ieee header (Some counter) command_id payload
                        payload_length mic.

(** ** GreenPowerProxy.setKey *)

Inductive key_arg :=
| KeyInt (z : Z)
| KeyBytes (b : bytes).

(** [del d[k]]: [KeyError] when the key is not there. *)
Definition delitem (k : Z) : M Cluster unit :=
  fun self =>
    match _attr_cache self !! k with
    | Some _ => (Ok tt, mkCluster (delete k (_attr_cache self)))
    | None => (Raise KeyError, self)
    end.

Definition setKey (key : option key_arg) : M Cluster unit :=
  match key with
  | None => delitem 0x9998
  | Some k =>
      do key <- match k with
                | KeyBytes b => ret b
                | KeyInt z => lift (Py.to_bytes_big z 16)
                end;
      fun self => (Ok tt, _update_attribute 0x9998 (VBytes key) self)
  end.

(** ** GreenPowerProxy.permit *)

Definition set_self_attribute (attrid : Z) (v : value)
  : M GreenPowerProxy unit :=
  fun self =>
    (Ok tt, mkProxy (mkCluster (<[attrid := v]> (_attr_cache (self_cluster self))))
                    (application self)).

(** [deliver] is the transport behind [application.broadcast]: what it
    returns, or the exception it raises, is what [permit] returns or
    raises. *)
Definition permit (time_s : Z) (now : spec_float)
    (deliver : BroadcastRequest -> result Z) : M GreenPowerProxy Z :=
  if negb ((0 <=? time_s) && (time_s <=? 254)) then raise AssertionError
  else
    do expiry <- lift (float_int (float_add now (float_of_int time_s)));
    run set_self_attribute 0x9997 (VInt expiry);
    do tsn <- get_sequence;
    let hdr := mkZCLHeader tsn (Some 2) true in
    let data := [0x0B] ++ Py.le_digits 2 time_s in
    let req := mkBroadcast zha_PROFILE_ID cluster_id endpoint_id endpoint_id
                           None 30 tsn hdr data in
    run emit (broadcast req);
    lift (deliver req).

(** ** Ota: query_next_image and image_block *)

Inductive Status :=
| SUCCESS
| ABORT
| MALFORMED_COMMAND
| NO_IMAGE_AVAILABLE.

(** What the handlers read of an image: its key, version and header size,
    and its two methods. [get_image_block] fails with an exception,
    [ValueError] for a range it refuses. *)
Record OTAImage := mkImage {
  key_manufacturer_id : Z;
  key_image_type : Z;
  version : Z;
  header_image_size : Z;
  should_update : Z -> Z -> Z -> option Z -> bool;
  get_image_block : Z -> Z -> result bytes
}.

Inductive OtaCommand :=
| query_next_image_response (status : Status)
    (image : option (Z * Z * Z * Z)) (tsn : option Z)
| image_block_response (status : Status)
    (block : option (Z * Z * Z * Z * bytes)) (tsn : option Z).

(** The Ota cluster: its attribute cache and the responses it has sent. *)
Record Ota := mkOta {
  ota_cluster : Cluster;
  ota_sent : list OtaCommand
}.

Definition send (c : OtaCommand) : M Ota unit :=
  fun self => (Ok tt, mkOta (ota_cluster self) (ota_sent self ++ [c])).

(** Modelled from the spec: the Image Provider's extraction
    ([OTAImage.get_image_block], zigpy.ota.image is not in src), which
    "fails explicitly if the range is out of bounds": the range
    [[offset, offset + size)] is invalid when the offset is at or after the
    end of the image or the length is negative; otherwise the bytes of the
    range that exist are returned. It is the extraction of the sample
    images; the handler takes whatever extraction the image brings. *)
Definition image_extract (content : bytes) (offset size : Z) : result bytes :=
  if (offset <? 0) || (Z.of_nat (length content) <=? offset) || (size <? 0)
  then Raise ValueError
  else Ok (take (Z.to_nat size) (drop (Z.to_nat offset) content)).

Section OtaHandlers.

(** [self.endpoint.device.application.ota.get_ota_image]: the Image
    Provider's lookup by (manufacturer id, image type). *)
Variable get_ota_image : Z -> Z -> option OTAImage.

Definition _handle_query_next_image (field_ctrl manufacturer_id image_type
    current_file_version : Z) (hardware_version : option Z) (tsn : option Z)
  : M Ota unit :=
  match get_ota_image manufacturer_id image_type with
  | Some img =>
      if should_update img manufacturer_id image_type current_file_version
                       hardware_version
      then send (query_next_image_response SUCCESS
                   (Some (key_manufacturer_id img, key_image_type img,
                          version img, header_image_size img)) tsn)
      else send (query_next_image_response NO_IMAGE_AVAILABLE None tsn)
  | None => send (query_next_image_response NO_IMAGE_AVAILABLE None tsn)
  end.

(** The progress figure [100.0 * file_offset / img.header.image_size] is
    computed for the log before the block is read: an image whose header
    size is 0 stops the handler there with [ZeroDivisionError]. *)
Definition _handle_image_block (field_ctr manufacturer_id image_type
    file_version file_offset max_data_size : Z)
    (request_node_addr block_request_delay : option Z) (tsn : option Z)
  : M Ota unit :=
  match get_ota_image manufacturer_id image_type with
  | None => send (image_block_response ABORT None tsn)
  | Some img =>
      if negb (version img =? file_version)
      then send (image_block_response ABORT None tsn)
      else if header_image_size img =? 0 then raise ZeroDivisionError
      else match get_image_block img file_offset max_data_size with
           | Ok data =>
               send (image_block_response SUCCESS
                       (Some (key_manufacturer_id img, key_image_type img,
                              version img, file_offset, data)) tsn)
           | Raise ValueError =>
               send (image_block_response MALFORMED_COMMAND None tsn)
           | Raise e => raise e
           end
  end.

End OtaHandlers.

(** * Predicates and sample stores used by the statements *)

Definition hexkey (n : nat) : bytes := map Z.of_nat (seq 0 n).

(** A computation that reads the store but leaves it as it found it. *)
Definition read_only {S A} (m : M S A) : Prop := forall s, snd (m s) = s.

(** The commissioning window as [create_device] tests it: an expiry is
    cached under 0x9997 and it is not before the clock reading. *)
Definition window_open (self : GreenPowerProxy) (now : Q) : Prop :=
  exists e, _attr_cache (self_cluster self) !! 0x9997 = Some (VInt e)
            /\ Qle now (inject_Z e).

(** The window as the specification words it: open iff the current time is
    strictly before the expiry. *)
Definition window_open_strict (self : GreenPowerProxy) (now : Q) : Prop :=
  exists e, _attr_cache (self_cluster self) !! 0x9997 = Some (VInt e)
            /\ Qlt now (inject_Z e).

(** A proxy cluster on an empty registry, optionally with a cached
    commissioning-window expiry. *)
Definition empty_proxy : GreenPowerProxy :=
  mkProxy new_cluster (mkApplication ∅ 0 []).

Definition window_until (e : Z) : GreenPowerProxy :=
  mkProxy (mkCluster {[ 0x9997 := VInt e ]}) (mkApplication ∅ 0 []).

(** The store after an "On/Off Switch" (type 2) with identity 01020304 has
    been commissioned through the override path. *)
Definition sample_ieee : bytes := [1; 2; 3; 4; 1; 2; 3; 4].

Definition commissioned : GreenPowerProxy :=
  snd (create_device sample_ieee (Some 2) true (inject_Z 0) empty_proxy).

Definition sample_device : Device :=
  default (mkDevice 0 Device_NEW false ∅)
          (devices (application commissioned) !! sample_ieee).

(** The store [permit] leaves behind when the duration is accepted: the
    expiry is cached, the sequence number advanced and the announcement
    handed to the transport. *)
Definition permit_request (self : GreenPowerProxy) (time_s : Z)
  : BroadcastRequest :=
  let tsn := (_send_sequence (application self) + 1) mod 256 in
  mkBroadcast zha_PROFILE_ID cluster_id endpoint_id endpoint_id None 30 tsn
              (mkZCLHeader tsn (Some 2) true)
              ([0x0B] ++ Py.le_digits 2 time_s).

Definition permitted (self : GreenPowerProxy) (time_s expiry : Z)
  : GreenPowerProxy :=
  let app := application self in
  mkProxy
    (mkCluster (<[0x9997 := VInt expiry]> (_attr_cache (self_cluster self))))
    (mkApplication (devices app) ((_send_sequence app + 1) mod 256)
                   (events app ++ [broadcast (permit_request self time_s)])).

(** A clock reading with a fractional part: the double 1700000000.5. *)
Definition half_past : spec_float :=
  S754_finite false 7130316802097152 (-22).

(** The last double below 2^31 s: 2^31 - 2^-22. *)
Definition before_2038 : spec_float :=
  S754_finite false 9007199254740991 (-22).

Definition deliver_ok (req : BroadcastRequest) : result Z := Ok 0.
Definition deliver_fails (req : BroadcastRequest) : result Z :=
  Raise DeliveryError.

(** An Image Provider holding one ten-byte image, version 5, offered to
    devices that run an older version. *)
Definition sample_content : bytes := [10; 11; 12; 13; 14; 15; 16; 17; 18; 19].

Definition sample_image : OTAImage :=
  mkImage 0x1234 1 5 10
          (fun _ _ current _ => current <? 5)
          (image_extract sample_content).

Definition sample_provider (manufacturer_id image_type : Z) : option OTAImage :=
  if (manufacturer_id =? 0x1234) && (image_type =? 1) then Some sample_image
  else None.

Definition new_ota : Ota := mkOta new_cluster [].

(** The Ota cluster after one more response. *)
Definition replied (self : Ota) (c : OtaCommand) : Ota :=
  mkOta (ota_cluster self) (ota_sent self ++ [c]).

(** "Passing MIC verification": the frame fields convert to bytes and the
    computed MIC is either absent (no key) or equal to the received one. *)
Definition mic_verified (self : GreenPowerProxy) (ieee : bytes) (header : Z)
    (counter : option Z) (command_id payload : Z) (payload_length : nat)
    (mic : Z) : Prop :=
  exists cb pb calcul,
    Py.to_bytes_little command_id 1 = Ok cb /\
    Py.to_bytes_little payload payload_length = Ok pb /\
    fst (calcul_mic ieee header counter (cb ++ pb) (payload_length + 1) self)
    = Ok calcul /\
    (calcul = None \/ calcul = Some mic).

(** The frame counter is new for the cluster: no counter is cached, or the
    cached one is smaller. *)
Definition fresh_counter (cl : Cluster) (c : Z) : Prop :=
  match _attr_cache cl !! 0x9999 with
  | None => True
  | Some (VInt C) => C < c
  | Some _ => False
  end.

(** The device's green power cluster, where its key (0x9998) and its last
    accepted counter (0x9999) are cached. *)
Definition security_cluster (self : GreenPowerProxy) (ieee : bytes)
  : option Cluster :=
  dev ← devices (application self) !! ieee;
  ep ← endpoints dev !! endpoint_id;
  in_clusters ep !! cluster_id.

Definition stored_counter (self : GreenPowerProxy) (ieee : bytes)
  : option value :=
  cl ← security_cluster self ieee; _attr_cache cl !! 0x9999.

Definition stored_key (self : GreenPowerProxy) (ieee : bytes)
  : option value :=
  cl ← security_cluster self ieee; _attr_cache cl !! 0x9998.

(** An update of the device's green power cluster, as an operator call on
    that cluster or a restored attribute cache makes it. *)
Definition on_security_cluster (ieee : bytes) (f : Cluster -> Cluster)
    (self : GreenPowerProxy) : GreenPowerProxy :=
  snd (modify_in_cluster ieee endpoint_id cluster_id f self).

(** The sample device after [setKey] with the key 000102...0f, and with 10
    cached as its last accepted counter. *)
Definition keyed : GreenPowerProxy :=
  on_security_cluster sample_ieee (_update_attribute 0x9999 (VInt 10))
    (on_security_cluster sample_ieee
       (fun cl => snd (setKey (Some (KeyBytes (hexkey 16))) cl))
       commissioned).

(** A computation that keeps a property of the store. *)
Definition preserves {S A} (P : S -> Prop) (m : M S A) : Prop :=
  forall s, P s -> P (snd (m s)).

(** What the registry holds under an identity. *)
Definition registered_as (ieee : bytes) (o : option Device)
    (s : GreenPowerProxy) : Prop :=
  devices (application s) !! ieee = o.

(** A computation that, started in a store satisfying [P], returns
    normally, with a result and a store related by [Q]. *)
Definition succeeds {S A} (P : S -> Prop) (m : M S A) (Q : A -> S -> Prop)
  : Prop :=
  forall s, P s -> exists a s', m s = (Ok a, s') /\ Q a s'.

(** The registry holds a device with property [R] under the identity. *)
Definition device_is (ieee : bytes) (R : Device -> Prop)
    (s : GreenPowerProxy) : Prop :=
  exists dev, devices (application s) !! ieee = Some dev /\ R dev.

(** Frames handled one after the other; whatever a frame raises is caught
    and logged by the caller, and the next frame finds the store the
    previous one left. Each frame comes with the clock reading of its
    arrival. *)
Fixpoint handle_messages (frames : list (list bytes * Q))
    (self : GreenPowerProxy) : GreenPowerProxy :=
  match frames with
  | [] => self
  | (args, now) :: rest =>
      handle_messages rest (snd (handle_message args now self))
  end.


(** Endpoint 1 of the device exists and has the Basic cluster. *)
Definition labelled (d : Device) : Prop :=
  exists ep, endpoints d !! 1 = Some ep /\
             is_Some (in_clusters ep !! Basic_cluster_id).

(** The proxy endpoint of the device exists, with the given input
    clusters. *)
Definition proxy_endpoint (ins : gmap Z Cluster) (d : Device) : Prop :=
  exists ep, endpoints d !! endpoint_id = Some ep /\ in_clusters ep = ins.

(** * Further definitions: frame layout and the states further properties
      speak about *)

(** A data frame laid out as [handle_message] reads it: header (2 bytes),
    identity (4), counter (4), command id (1), payload, MIC (4). *)
Definition data_frame (header src_id counter : bytes) (command_id : Z)
    (payload mic : bytes) : bytes :=
  header ++ src_id ++ counter ++ [command_id] ++ payload ++ mic.

(** Every element is a byte value. *)
Definition all_bytes (b : bytes) : Prop := Forall (fun x => 0 <= x < 256) b.

(** The store with [dev] registered under [ieee], everything else as in
    [self]. *)
Definition with_device (self : GreenPowerProxy) (ieee : bytes) (dev : Device)
  : GreenPowerProxy :=
  let app := application self in
  mkProxy (self_cluster self)
          (mkApplication (<[ieee := dev]> (devices app))
                         (_send_sequence app) (events app)).

(** The store with one more event. *)
Definition with_event (self : GreenPowerProxy) (e : Event) : GreenPowerProxy :=
  let app := application self in
  mkProxy (self_cluster self)
          (mkApplication (devices app) (_send_sequence app)
                         (events app ++ [e])).

(** Label and extra clusters [create_device] takes for a type hint: the
    table entry, or the generic label with no extra cluster. *)
Definition device_profile (type : option Z) : string * list Z * list Z :=
  default ("GreenPowerDevice"%string, [], []) (type ≫= device).

(** The device [create_device] builds for a type hint: the primary
    endpoint 1 with the labelled Basic cluster and the clusters of the
    type, and the proxy endpoint with the green power cluster. *)
Definition basic_labelled (name : string) : Cluster :=
  mkCluster (<[0x0005 := VStr name]> (<[0x0004 := VStr "GreenPower"]> ∅)).

Definition primary_endpoint (type : option Z) : Endpoint :=
  let '(name, ins, outs) := device_profile type in
  foldl (fun ep cid => add_output_cluster cid ep)
    (foldl (fun ep cid => add_input_cluster cid ep)
       (mkEndpoint Endpoint_ZDO_INIT (Some zha_PROFILE_ID) (Some GREEN_POWER)
                   {[ Basic_cluster_id := basic_labelled name ]} ∅)
       ins)
    outs.

Definition proxy_side_endpoint : Endpoint :=
  mkEndpoint Endpoint_ZDO_INIT (Some zha_PROFILE_ID) (Some GREEN_POWER)
             {[ cluster_id := new_cluster ]} ∅.

Definition proxy_device (type : option Z) : Device :=
  mkDevice 32766 Device_ENDPOINTS_INIT true
           (<[endpoint_id := proxy_side_endpoint]>
              (<[1 := primary_endpoint type]> ∅)).

(** The store after a successful creation. *)
Definition commissioned_with (self : GreenPowerProxy) (ieee : bytes)
    (type : option Z) : GreenPowerProxy :=
  with_event (with_device self ieee (proxy_device type))
             (device_initialized ieee).

(** The store and the message of a redispatch: the sequence number taken
    for the header and the events appended. *)
Definition dispatched_message (self : GreenPowerProxy) (ieee : bytes)
    (e : TranslationEntry) (cid : Z) (args : list (option Z)) : Event :=
  cluster_handle_message ieee 1 cid
    (mkZCLHeader ((_send_sequence (application self) + 1) mod 256)
                 (entry_zcl_command_id e) false)
    (map Some (entry_value e) ++ args).

Definition after_dispatch (self : GreenPowerProxy)
    (devs : gmap bytes Device) (new_events : list Event) : GreenPowerProxy :=
  mkProxy (self_cluster self)
          (mkApplication devs
                         ((_send_sequence (application self) + 1) mod 256)
                         (events (application self) ++ new_events)).

(** ** Time.handle_cluster_general_request *)

(** What the Time cluster answers for an attribute: a number of seconds
    (a float, modelled as the rational it denotes) or an int. *)
Inductive time_value :=
| Seconds (q : Q)
| Int (z : Z).

(** [collections.OrderedDict]: item assignment replaces the value of a key
    that is present, where it stands, and appends a new key. *)
Fixpoint od_set {V} (k : Z) (v : V) (d : list (Z * V)) : list (Z * V) :=
  match d with
  | [] => [(k, v)]
  | (k', v') :: rest =>
      if k =? k' then (k, v) :: rest else (k', v') :: od_set k v rest
  end.

(** The Time cluster: the responses it has scheduled, each the ordered
    attribute data with the sequence number echoed. *)
Record TimeCluster := mkTime {
  time_rsp : list (list (Z * option time_value) * Z)
}.

Definition read_attributes_rsp (data : list (Z * option time_value)) (tsn : Z)
  : M TimeCluster unit :=
  fun self => (Ok tt, mkTime (time_rsp self ++ [(data, tsn)])).

Section TimeHandler.

(** [foundation.Command.Read_Attributes], a constant of zigpy.zcl.foundation
    (not in src). *)
Variable Read_Attributes : Z.

(** The clock as the loop reads it: in iteration [i],
    [(datetime.utcnow() - epoch).total_seconds()],
    [(datetime.now() - epoch).total_seconds()] and
    [(datetime.fromtimestamp(86400) - datetime.utcfromtimestamp(86400))
    .total_seconds()], with [epoch] the first of January 2000. *)
Variables utc_seconds local_seconds zone_seconds : nat -> Q.

Definition time_attribute (i : nat) (attr : Z) : option time_value :=
  if attr =? 0 then Some (Seconds (utc_seconds i))
  else if attr =? 1 then Some (Int 7)
  else if attr =? 2 then Some (Seconds (zone_seconds i))
  else if attr =? 7 then Some (Seconds (local_seconds i))
  else None.

(** The loop over the requested attribute ids, from iteration [i] on. *)
Fixpoint read_time_attributes (i : nat) (attrs : list Z)
    (data : list (Z * option time_value)) : list (Z * option time_value) :=
  match attrs with
  | [] => data
  | attr :: rest =>
      read_time_attributes (S i) rest (od_set attr (time_attribute i attr) data)
  end.

(** [args] are the positional arguments after the header; [args[0][0]] is
    the list of attribute ids of a Read_Attributes request. *)
Definition handle_cluster_general_request (hdr : ZCLHeader)
    (args : list (list (list Z))) : M TimeCluster unit :=
  if decide (hdr_command_id hdr = Some Read_Attributes) then
    do a0 <- match args !! 0%nat with
             | Some a => ret a
             | None => raise IndexError
             end;
    do attrs <- match a0 !! 0%nat with
                | Some l => ret l
                | None => raise IndexError
                end;
    read_attributes_rsp (read_time_attributes 0 attrs []) (hdr_tsn hdr)
  else ret tt.

End TimeHandler.

(** The ids of a request in the order of their first occurrence. *)
Fixpoint first_occurrences (l : list Z) : list Z :=
  match l with
  | [] => []
  | x :: rest => x :: filter (fun y => y <> x) (first_occurrences rest)
  end.

(** A sample clock: one second per iteration, local time an hour ahead. *)
Definition sample_utc (i : nat) : Q := inject_Z (Z.of_nat i).
Definition sample_local (i : nat) : Q := (inject_Z (Z.of_nat i) + 3600)%Q.
Definition sample_zone (i : nat) : Q := 3600%Q.

(** An image whose header announces no bytes. *)
Definition empty_image : OTAImage :=
  mkImage 0x1234 1 5 0 (fun _ _ current _ => current <? 5) (image_extract []).

Definition empty_provider (manufacturer_id image_type : Z) : option OTAImage :=
  Some empty_image.

(** * Properties *)

(** ** AES known answers (FIPS-197, appendix C) *)

Example aes128_fips197 :
  AES.encrypt_block (hexkey 16)
    [0x00; 0x11; 0x22; 0x33; 0x44; 0x55; 0x66; 0x77;
     0x88; 0x99; 0xaa; 0xbb; 0xcc; 0xdd; 0xee; 0xff]
  = [0x69; 0xc4; 0xe0; 0xd8; 0x6a; 0x7b; 0x04; 0x30;
     0xd8; 0xcd; 0xb7; 0x80; 0x70; 0xb4; 0xc5; 0x5a].
Proof. vm_compute. reflexivity. Qed.

Example aes192_fips197 :
  AES.encrypt_block (hexkey 24)
    [0x00; 0x11; 0x22; 0x33; 0x44; 0x55; 0x66; 0x77;
     0x88; 0x99; 0xaa; 0xbb; 0xcc; 0xdd; 0xee; 0xff]
  = [0xdd; 0xa9; 0x7c; 0xa4; 0x86; 0x4c; 0xdf; 0xe0;
     0x6e; 0xaf; 0x70; 0xa0; 0xec; 0x0d; 0x71; 0x91].
Proof. vm_compute. reflexivity. Qed.

Example aes256_fips197 :
  AES.encrypt_block (hexkey 32)
    [0x00; 0x11; 0x22; 0x33; 0x44; 0x55; 0x66; 0x77;
     0x88; 0x99; 0xaa; 0xbb; 0xcc; 0xdd; 0xee; 0xff]
  = [0x8e; 0xa2; 0xb7; 0xca; 0x51; 0x67; 0x45; 0xbf;
     0xea; 0xfc; 0x49; 0x90; 0x4b; 0x49; 0x60; 0x89].
Proof. vm_compute. reflexivity. Qed.

(** ** Generic facts about the store-passing monad *)

Lemma bind_Ok {S A B} (m : M S A) (k : A -> M S B) s a s' :
  m s = (Ok a, s') -> bind m k s = k a s'.
Proof. intros Hm. unfold bind. rewrite Hm. reflexivity. Qed.

Lemma bind_Raise {S A B} (m : M S A) (k : A -> M S B) s e s' :
  m s = (Raise e, s') -> bind m k s = (Raise e, s').
Proof. intros Hm. unfold bind. rewrite Hm. reflexivity. Qed.

Lemma bind_lift {S A B} (r : result A) (k : A -> M S B) s :
  bind (lift r) k s = match r with Ok a => k a s | Raise e => (Raise e, s) end.
Proof. destruct r; reflexivity. Qed.

Lemma read_only_bind {S A B} (m : M S A) (k : A -> M S B) :
  read_only m -> (forall a, read_only (k a)) -> read_only (bind m k).
Proof.
  intros Hm Hk s. unfold bind. specialize (Hm s).
  destruct (m s) as [[a|e] s']; simpl in *; subst; [apply Hk | reflexivity].
Qed.

Lemma read_only_ret {S A} (a : A) : read_only (@ret S A a).
Proof. intros s. reflexivity. Qed.

Lemma read_only_raise {S A} (e : exn) : read_only (@raise S A e).
Proof. intros s. reflexivity. Qed.

Lemma read_only_lift {S A} (r : result A) : read_only (@lift S A r).
Proof. intros s. reflexivity. Qed.

Lemma read_only_get {S} : read_only (@get S).
Proof. intros s. reflexivity. Qed.

Create HintDb read_only.

#[local] Hint Resolve read_only_ret read_only_raise read_only_lift
  read_only_get : read_only.

(** ** setKey *)

Lemma setKey_bytes_stores (self : Cluster) (k : bytes) :
  setKey (Some (KeyBytes k)) self
  = (Ok tt, mkCluster (<[0x9998 := VBytes k]> (_attr_cache self))).
Proof. reflexivity. Qed.

Lemma setKey_None_removes (self : Cluster) (v : value) :
  _attr_cache self !! 0x9998 = Some v ->
  setKey None self = (Ok tt, mkCluster (delete 0x9998 (_attr_cache self))).
Proof. intros Hk. unfold setKey, delitem. rewrite Hk. reflexivity. Qed.

(** C2. [setKey(None)] on a cluster that holds no key is not a no-op: the
    unguarded [del self._attr_cache[0x9998]] raises [KeyError] (the cache
    itself is left as it was). With a key of 16 bytes the key is stored
    under 0x9998 and read back, and [setKey(None)] on a cluster that holds
    a key removes it. *)
Theorem setKey_behaviour (self : Cluster) :
  (_attr_cache self !! 0x9998 = None ->
   setKey None self = (Raise KeyError, self)) /\
  (forall k : bytes, length k = 16%nat ->
   exists self', setKey (Some (KeyBytes k)) self = (Ok tt, self') /\
                 _attr_cache self' !! 0x9998 = Some (VBytes k)) /\
  (is_Some (_attr_cache self !! 0x9998) ->
   exists self', setKey None self = (Ok tt, self') /\
                 _attr_cache self' !! 0x9998 = None).
Proof.
  split; [|split].
  - intros Hk. unfold setKey, delitem. rewrite Hk. reflexivity.
  - intros k _. eexists. split; [apply setKey_bytes_stores|].
    simpl. apply lookup_insert_eq.
  - intros [v Hv]. eexists. split; [apply (setKey_None_removes _ v Hv)|].
    simpl. apply lookup_delete_eq.
Qed.

Lemma setKey_behaviour_witness :
  setKey None new_cluster = (Raise KeyError, new_cluster).
Proof.
  apply (proj1 (setKey_behaviour new_cluster)). reflexivity.
Defined.

(** ** create_device *)

Lemma Qltb_false_iff (x y : Q) : Qltb x y = false <-> Qle y x.
Proof.
  unfold Qltb. rewrite negb_false_iff. apply Qle_bool_iff.
Qed.

Lemma joining_refused_spec self remote now :
  joining_refused self remote now = Ok false ->
  remote = true \/ window_open self now.
Proof.
  unfold joining_refused, window_open. destruct remote; [now left|].
  destruct (_attr_cache (self_cluster self) !! 0x9997) as [[e|b|str]|] eqn:Hc;
    simpl; try discriminate.
  intros [= Hlt]. right. exists e. split; [reflexivity|].
  now apply Qltb_false_iff.
Qed.

Lemma create_device_refused self ieee type remote now r :
  devices (application self) !! ieee = None ->
  joining_refused self remote now = r ->
  r <> Ok false ->
  snd (create_device ieee type remote now self) = self /\
  forall dev, fst (create_device ieee type remote now self) <> Ok (Some dev).
Proof.
  intros Hnew Hr Hne. unfold create_device, bind, get. rewrite Hnew.
  unfold lift. rewrite Hr. destruct r as [[|]|e]; simpl.
  - split; [reflexivity | discriminate].
  - congruence.
  - split; [reflexivity | discriminate].
Qed.

(** C7. For an identity the registry already knows, [create_device]
    returns the registered device and leaves the whole store as it was (no
    device, endpoint or cluster is added, nothing is announced), whatever
    the type hint, the override flag, the cached expiry and the clock; a
    commissioning frame carrying that identity is handled the same way. *)
Theorem create_device_known_idempotent (self : GreenPowerProxy)
    (ieee : bytes) (dev : Device) :
  devices (application self) !! ieee = Some dev ->
  (forall type remoteCommissioning now,
     create_device ieee type remoteCommissioning now self
     = (Ok (Some dev), self)) /\
  (forall (data : bytes) (type : Z) now,
     data !! 0%nat = Some 12 -> data !! 5%nat = Some 224 ->
     data !! 6%nat = Some type ->
     Py.slice data 1 5 ++ Py.slice data 1 5 = ieee ->
     handle_message [data] now self = (Ok tt, self)).
Proof.
  intros Hknown.
  assert (Hc : forall type remote now,
             create_device ieee type remote now self = (Ok (Some dev), self)).
  { intros. unfold create_device, bind, get. rewrite Hknown. reflexivity. }
  split; [exact Hc|].
  intros data type now H0 H5 H6 Hid.
  unfold handle_message, is_commissioning_frame, Py.index, bind, ret. simpl.
  rewrite H0. simpl. rewrite H5. simpl. rewrite H6. simpl.
  rewrite Hid. unfold bind in Hc |- *. rewrite Hc. reflexivity.
Qed.

Lemma create_device_known_idempotent_witness :
  create_device sample_ieee (Some 7) false (inject_Z 5) commissioned
  = (Ok (Some sample_device), commissioned) /\
  handle_message [[12; 1; 2; 3; 4; 224; 7]] (inject_Z 5) commissioned
  = (Ok tt, commissioned).
Proof.
  destruct (create_device_known_idempotent commissioned sample_ieee
              sample_device) as [Hcreate Hframe].
  - vm_compute. reflexivity.
  - split; [apply Hcreate | apply (Hframe _ 7); reflexivity].
Defined.

(** C6, counterexample. The gate read with a strict comparison fails on
    the boundary: with the
    expiry cached as 1700000060 and the clock reading exactly that, the
    window is not open in the strict sense and yet the device is created. *)
Lemma create_device_strict_window_counterexample :
  ~ (forall self ieee type now,
       devices (application self) !! ieee = None ->
       ~ window_open_strict self now ->
       snd (create_device ieee type false now self) = self).
Proof.
  intros Hclaim.
  set (expiry := 1700000060).
  specialize (Hclaim (window_until expiry) sample_ieee None (inject_Z expiry)).
  assert (Hsame : devices (application
                    (snd (create_device sample_ieee None false
                            (inject_Z expiry) (window_until expiry))))
                    !! sample_ieee
                  = devices (application (window_until expiry)) !! sample_ieee).
  { rewrite Hclaim; [reflexivity | reflexivity |].
    intros [e [He Hlt]]. vm_compute in He. injection He as <-.
    exact (Qlt_irrefl _ Hlt). }
  vm_compute in Hsame. discriminate Hsame.
Qed.

(** C6 (amended). For an identity that is not known yet, [create_device]
    changes the store only if the override flag is set or the window is
    open, where open means that an expiry is cached and the current time
    is not after it (time <= expiry); if neither holds the call returns no
    device and leaves the whole store, registry included, as it was. A
    commissioning frame never carries the override, so outside the window
    it changes nothing. *)
Theorem create_device_gate (self : GreenPowerProxy) (ieee : bytes)
    (type : option Z) (remoteCommissioning : bool) (now : Q) :
  devices (application self) !! ieee = None ->
  (remoteCommissioning = false -> ~ window_open self now ->
   snd (create_device ieee type remoteCommissioning now self) = self /\
   forall dev,
     fst (create_device ieee type remoteCommissioning now self)
     <> Ok (Some dev)) /\
  (snd (create_device ieee type remoteCommissioning now self) <> self ->
   remoteCommissioning = true \/ window_open self now) /\
  (forall (data : bytes) (hint : Z),
     data !! 0%nat = Some 12 -> data !! 5%nat = Some 224 ->
     data !! 6%nat = Some hint ->
     Py.slice data 1 5 ++ Py.slice data 1 5 = ieee ->
     ~ window_open self now ->
     snd (handle_message [data] now self) = self).
Proof.
  intros Hnew.
  assert (Hgate : forall type remote,
            joining_refused self remote now <> Ok false ->
            snd (create_device ieee type remote now self) = self /\
            forall dev,
              fst (create_device ieee type remote now self) <> Ok (Some dev)).
  { intros type0 remote Hne.
    now apply (create_device_refused _ _ _ _ _ _ Hnew eq_refl). }
  assert (Hclosed : forall type remote,
            remote = false -> ~ window_open self now ->
            snd (create_device ieee type remote now self) = self /\
            forall dev,
              fst (create_device ieee type remote now self) <> Ok (Some dev)).
  { intros type0 remote Hremote Hwin. apply Hgate. intros Hok.
    destruct (joining_refused_spec _ _ _ Hok) as [Hr | Ho];
      [congruence | tauto]. }
  split; [|split].
  - apply Hclosed.
  - intros Hchanged.
    destruct (joining_refused self remoteCommissioning now) as [[|]|e] eqn:Hr.
    + exfalso. apply Hchanged, Hgate. rewrite Hr. discriminate.
    + now apply joining_refused_spec.
    + exfalso. apply Hchanged, Hgate. rewrite Hr. discriminate.
  - intros data hint H0 H5 H6 Hid Hwin.
    unfold handle_message, is_commissioning_frame, Py.index, bind, ret. simpl.
    rewrite H0. simpl. rewrite H5. simpl. rewrite H6. simpl. rewrite Hid.
    destruct (Hclosed (Some hint) false eq_refl Hwin) as [Hsame _].
    destruct (create_device ieee (Some hint) false now self) as [[r|e] s'];
      simpl in Hsame; subst s'; reflexivity.
Qed.

Lemma create_device_gate_witness :
  snd (create_device sample_ieee (Some 2) false (inject_Z 1700000061)
         (window_until 1700000060)) = window_until 1700000060 /\
  snd (handle_message [[12; 1; 2; 3; 4; 224; 2]] (inject_Z 1700000061)
         (window_until 1700000060)) = window_until 1700000060.
Proof.
  assert (Hclosed : ~ window_open (window_until 1700000060)
                                  (inject_Z 1700000061)).
  { intros [e [He Hle]]. vm_compute in He. injection He as <-.
    vm_compute in Hle. apply Hle. reflexivity. }
  destruct (create_device_gate (window_until 1700000060) sample_ieee
              (Some 2) false (inject_Z 1700000061) eq_refl)
    as (Hcall & _ & Hframe).
  split.
  - apply Hcall; [reflexivity | exact Hclosed].
  - apply (Hframe _ 2); [reflexivity .. | exact Hclosed].
Defined.

(** ** permit *)

Lemma py_int_nonneg (x : Q) :
  Qle (inject_Z 0) x ->
  Qle (inject_Z (py_int x)) x /\ Qlt x (inject_Z (py_int x + 1)).
Proof.
  intros Hx. unfold py_int.
  rewrite (proj2 (Qle_bool_iff _ _) Hx).
  split; [apply Qfloor_le | apply Qlt_floor].
Qed.

Lemma py_int_whole (n d : Z) :
  py_int (Qplus (inject_Z n) (inject_Z d)) = n + d.
Proof.
  rewrite <- inject_Z_plus. unfold py_int.
  destruct (Qle_bool _ _); [apply Qfloor_Z | apply Qceiling_Z].
Qed.

Lemma py_int_Qeq (x y : Q) : Qeq x y -> py_int x = py_int y.
Proof.
  intros Heq. unfold py_int.
  assert (Hle : Qle_bool (inject_Z 0) x = Qle_bool (inject_Z 0) y).
  { destruct (Qle_bool (inject_Z 0) x) eqn:Hx,
             (Qle_bool (inject_Z 0) y) eqn:Hy; try reflexivity.
    - apply Qle_bool_iff in Hx. rewrite Heq in Hx.
      apply Qle_bool_iff in Hx. congruence.
    - apply Qle_bool_iff in Hy. rewrite <- Heq in Hy.
      apply Qle_bool_iff in Hy. congruence. }
  rewrite Hle. destruct (Qle_bool (inject_Z 0) y).
  - now apply Qfloor_comp.
  - now apply Qceiling_comp.
Qed.

Lemma float_int_Ok (x : spec_float) (n : Z) :
  float_int x = Ok n -> n = py_int (float_value x).
Proof. destruct x; simpl; intros H; now inversion H. Qed.

(** What [permit] does once the duration has passed the assertion and the
    sum has been truncated to [expiry]. *)
Lemma permit_accepted (self : GreenPowerProxy) (time_s : Z)
    (now : spec_float) (deliver : BroadcastRequest -> result Z)
    (expiry : Z) :
  0 <= time_s <= 254 ->
  float_int (float_add now (float_of_int time_s)) = Ok expiry ->
  permit time_s now deliver self
  = (deliver (permit_request self time_s), permitted self time_s expiry).
Proof.
  intros Hin Hsum. unfold permit.
  replace ((0 <=? time_s) && (time_s <=? 254)) with true
    by (symmetry; apply andb_true_iff; rewrite !Z.leb_le; lia).
  cbn [negb]. rewrite Hsum, bind_lift. reflexivity.
Qed.

(** When the double sum is exact, the cached expiry is the exact sum
    truncated. *)
Lemma exact_sum_expiry (now : spec_float) (time_s expiry : Z) :
  float_int (float_add now (float_of_int time_s)) = Ok expiry ->
  Qeq (float_value (float_add now (float_of_int time_s)))
      (Qplus (float_value now) (inject_Z time_s)) ->
  expiry = py_int (Qplus (float_value now) (inject_Z time_s)).
Proof.
  intros Hsum Hexact. rewrite (float_int_Ok _ _ Hsum).
  now apply py_int_Qeq.
Qed.

(** C10, counterexample. The expiry is not [now + duration] when the clock
    reading has a fractional part: [permit(60)] at time 1700000000.5 caches
    1700000060, not 1700000060.5. *)
Lemma permit_expiry_counterexample :
  ~ (forall self time_s now deliver,
       0 <= time_s <= 254 ->
       valid_binary float_prec float_emax now = true ->
       exists e,
         _attr_cache (self_cluster (snd (permit time_s now deliver self)))
           !! 0x9997 = Some (VInt e)
         /\ Qeq (inject_Z e) (Qplus (float_value now) (inject_Z time_s))).
Proof.
  intros Hclaim.
  destruct (Hclaim empty_proxy 60 half_past deliver_ok) as [e [He Heq]];
    [lia|reflexivity|].
  vm_compute in He. injection He as <-.
  vm_compute in Heq. discriminate Heq.
Qed.

(** The sum [time.time() + time_s] is a double sum and is rounded before
    it is truncated: at the last double below 2^31, [permit(60)] caches
    2147483708, one more than the whole seconds of the exact sum
    2147483707.99999976. *)
Example permit_rounds_the_sum :
  _attr_cache (self_cluster
                 (snd (permit 60 before_2038 deliver_ok empty_proxy)))
    !! 0x9997 = Some (VInt 2147483708) /\
  py_int (Qplus (float_value before_2038) (inject_Z 60)) = 2147483707.
Proof. split; vm_compute; reflexivity. Qed.

(** C10 (amended). [permit] with a duration outside [0, 254] fails its
    assertion and leaves the store, the cached expiry included, as it was.
    With a duration in [0, 254] it caches as expiry the whole number of
    seconds [int(now + duration)], the sum being the double sum of the
    clock reading and the duration, then hands the commissioning
    announcement to the transport and returns what the transport returns:
    a failed delivery reaches the caller as that failure and the expiry
    stays cached. (A sum that is not finite makes [int] raise, before
    anything is cached.) Where the double sum is exact, the expiry is, for
    a clock reading that is not negative, the largest integer not above
    [now + duration], and exactly [now + duration] when the reading is
    whole. *)
Theorem permit_behaviour (self : GreenPowerProxy) (time_s : Z)
    (now : spec_float) (deliver : BroadcastRequest -> result Z) :
  (~ 0 <= time_s <= 254 ->
   permit time_s now deliver self = (Raise AssertionError, self)) /\
  (0 <= time_s <= 254 ->
   forall e,
     float_int (float_add now (float_of_int time_s)) = Raise e ->
     permit time_s now deliver self = (Raise e, self)) /\
  (0 <= time_s <= 254 ->
   forall expiry,
     float_int (float_add now (float_of_int time_s)) = Ok expiry ->
     permit time_s now deliver self
     = (deliver (permit_request self time_s), permitted self time_s expiry) /\
     _attr_cache (self_cluster (permitted self time_s expiry)) !! 0x9997
     = Some (VInt expiry) /\
     (Qeq (float_value (float_add now (float_of_int time_s)))
          (Qplus (float_value now) (inject_Z time_s)) ->
      (Qle (inject_Z 0) (float_value now) ->
       Qle (inject_Z expiry) (Qplus (float_value now) (inject_Z time_s)) /\
       Qlt (Qplus (float_value now) (inject_Z time_s))
           (inject_Z (expiry + 1))) /\
      (forall n, Qeq (float_value now) (inject_Z n) ->
       expiry = n + time_s))).
Proof.
  split; [|split].
  - intros Hout. unfold permit.
    replace ((0 <=? time_s) && (time_s <=? 254)) with false; [reflexivity|].
    symmetry. apply andb_false_iff. rewrite !Z.leb_gt. lia.
  - intros Hin e Hsum. unfold permit.
    replace ((0 <=? time_s) && (time_s <=? 254)) with true
      by (symmetry; apply andb_true_iff; rewrite !Z.leb_le; lia).
    cbn [negb]. rewrite Hsum. reflexivity.
  - intros Hin expiry Hsum. split; [|split].
    + now apply permit_accepted.
    + simpl. apply lookup_insert_eq.
    + intros Hexact.
      pose proof (exact_sum_expiry _ _ _ Hsum Hexact) as Hexp.
      split.
      * intros Hnow. rewrite Hexp. apply py_int_nonneg.
        apply Qle_trans with (y := float_value now); [exact Hnow|].
        rewrite <- (Qplus_0_r (float_value now)) at 1.
        apply Qplus_le_r. change 0%Q with (inject_Z 0).
        rewrite <- Zle_Qle. lia.
      * intros n Hn. rewrite Hexp, <- (py_int_whole n time_s).
        apply py_int_Qeq. now rewrite Hn.
Qed.

Lemma permit_behaviour_witness :
  permit 255 half_past deliver_fails empty_proxy
  = (Raise AssertionError, empty_proxy) /\
  permit (-1) half_past deliver_fails empty_proxy
  = (Raise AssertionError, empty_proxy) /\
  permit 60 half_past deliver_fails empty_proxy
  = (Raise DeliveryError, permitted empty_proxy 60 1700000060) /\
  _attr_cache (self_cluster (permitted empty_proxy 60 1700000060)) !! 0x9997
  = Some (VInt 1700000060) /\
  Qle (inject_Z 1700000060) (Qplus (float_value half_past) (inject_Z 60)).
Proof.
  split; [|split; [|split; [|split]]].
  - apply (proj1 (permit_behaviour empty_proxy 255 half_past deliver_fails)).
    lia.
  - apply (proj1 (permit_behaviour empty_proxy (-1) half_past deliver_fails)).
    lia.
  - apply (proj2 (proj2 (permit_behaviour empty_proxy 60 half_past
                           deliver_fails)));
      [lia | reflexivity].
  - apply (proj2 (proj2 (permit_behaviour empty_proxy 60 half_past
                           deliver_fails)));
      [lia | reflexivity].
  - apply (proj2 (proj2 (permit_behaviour empty_proxy 60 half_past
                           deliver_fails)));
      [lia | reflexivity | reflexivity | vm_compute; discriminate].
Defined.

(** ** Ota *)

(** C9. [query_next_image] answers NO_IMAGE_AVAILABLE when the provider has
    no image for (manufacturer id, image type); SUCCESS with exactly the
    image's manufacturer id, image type, version and header size when the
    image's [should_update] accepts the current and hardware versions;
    NO_IMAGE_AVAILABLE when it does not. In each case the handler sends
    that one response and changes nothing else of the cluster. *)
Theorem handle_query_next_image_response
    (get_ota_image : Z -> Z -> option OTAImage) (self : Ota)
    (field_ctrl manufacturer_id image_type current_file_version : Z)
    (hardware_version tsn : option Z) :
  let outcome := _handle_query_next_image get_ota_image field_ctrl manufacturer_id
               image_type current_file_version hardware_version tsn self in
  (get_ota_image manufacturer_id image_type = None ->
   outcome = (Ok tt, replied self
            (query_next_image_response NO_IMAGE_AVAILABLE None tsn))) /\
  (forall img,
     get_ota_image manufacturer_id image_type = Some img ->
     should_update img manufacturer_id image_type current_file_version
                   hardware_version = true ->
     outcome = (Ok tt, replied self
              (query_next_image_response SUCCESS
                 (Some (key_manufacturer_id img, key_image_type img,
                        version img, header_image_size img)) tsn))) /\
  (forall img,
     get_ota_image manufacturer_id image_type = Some img ->
     should_update img manufacturer_id image_type current_file_version
                   hardware_version = false ->
     outcome = (Ok tt, replied self
              (query_next_image_response NO_IMAGE_AVAILABLE None tsn))).
Proof.
  unfold _handle_query_next_image. cbv zeta.
  split; [|split].
  - intros ->. reflexivity.
  - intros img -> ->. reflexivity.
  - intros img -> ->. reflexivity.
Qed.

Lemma handle_query_next_image_response_witness :
  _handle_query_next_image sample_provider 0 0x9999 1 4 None (Some 7) new_ota
  = (Ok tt, replied new_ota
       (query_next_image_response NO_IMAGE_AVAILABLE None (Some 7))) /\
  _handle_query_next_image sample_provider 0 0x1234 1 4 None (Some 7) new_ota
  = (Ok tt, replied new_ota
       (query_next_image_response SUCCESS (Some (0x1234, 1, 5, 10)) (Some 7))) /\
  _handle_query_next_image sample_provider 0 0x1234 1 5 None (Some 7) new_ota
  = (Ok tt, replied new_ota
       (query_next_image_response NO_IMAGE_AVAILABLE None (Some 7))).
Proof.
  split; [|split].
  - apply (handle_query_next_image_response sample_provider new_ota
             0 0x9999 1 4 None (Some 7)). reflexivity.
  - apply (proj1 (proj2 (handle_query_next_image_response sample_provider
             new_ota 0 0x1234 1 4 None (Some 7))) sample_image);
      reflexivity.
  - apply (proj2 (proj2 (handle_query_next_image_response sample_provider
             new_ota 0 0x1234 1 5 None (Some 7))) sample_image);
      reflexivity.
Defined.




(** ** handle_notification: what leaves the store alone *)

Ltac read_only_steps :=
  repeat first
    [ apply read_only_ret | apply read_only_raise | apply read_only_lift
    | apply read_only_get
    | apply read_only_bind; [|intros ?]
    | match goal with
      | |- read_only (match ?x with _ => _ end) => destruct x
      | |- read_only (if ?x then _ else _) => destruct x
      end ].

Lemma calcul_mic_read_only ieee header counter payload payload_length :
  read_only (calcul_mic ieee header counter payload payload_length).
Proof. unfold calcul_mic. read_only_steps. Qed.

(** With a counter in the frame the replay guard never lets the frame
    through: it answers "seen", or raises, and leaves the store alone. *)
Lemma replay_guard_counter (dev : Device) (c : Z) (self : GreenPowerProxy) :
  exists r, replay_guard dev (Some c) self = (r, self) /\ r <> Ok true.
Proof.
  unfold replay_guard, bind, lift, ret, raise, dict_update_attribute.
  destruct (getitem (endpoints dev) endpoint_id) as [ep|e];
    [|eexists; split; [reflexivity | discriminate]].
  destruct (getitem (in_clusters ep) cluster_id) as [cl|e];
    [|eexists; split; [reflexivity | discriminate]].
  destruct (_attr_cache cl !! 0x9999) as [v|];
    [destruct (value_ge v c) as [[|]|e] |];
    eexists; (split; [reflexivity | discriminate]).
Qed.

Lemma translate_and_dispatch_counter_read_only ieee c command_id payload
    payload_length :
  read_only (translate_and_dispatch ieee (Some c) command_id payload
                                    payload_length).
Proof.
  unfold translate_and_dispatch.
  apply read_only_bind; [apply read_only_lift | intros e].
  apply read_only_bind; [apply read_only_lift | intros data].
  apply read_only_bind; [apply read_only_lift | intros parsed].
  apply read_only_bind; [apply read_only_get | intros self].
  apply read_only_bind; [apply read_only_lift | intros dev].
  intros s. unfold bind.
  destruct (replay_guard_counter dev c s) as [r [-> Hr]].
  destruct r as [[|]|err]; [congruence | reflexivity | reflexivity].
Qed.

(** A data frame, which always carries a counter, never changes the store. *)
Lemma handle_notification_counter_read_only ieee header c command_id payload
    payload_length mic :
  read_only (handle_notification ieee header (Some c) command_id payload
                                 payload_length mic).
Proof.
  unfold handle_notification.
  apply read_only_bind; [apply read_only_get | intros self].
  destruct (devices (application self) !! ieee); [|apply read_only_ret].
  destruct (command command_id); [|apply read_only_ret].
  apply read_only_bind; [apply read_only_lift | intros cb].
  apply read_only_bind; [apply read_only_lift | intros pb].
  apply read_only_bind; [apply calcul_mic_read_only | intros calcul].
  destruct calcul as [m|];
    [destruct (m =? mic); [|apply read_only_ret] |];
    apply translate_and_dispatch_counter_read_only.
Qed.

(** ** handle_notification: the replay counter *)

Lemma security_cluster_Some self ieee cl :
  security_cluster self ieee = Some cl ->
  exists dev ep,
    devices (application self) !! ieee = Some dev /\
    endpoints dev !! endpoint_id = Some ep /\
    in_clusters ep !! cluster_id = Some cl.
Proof.
  unfold security_cluster. intros H.
  destruct (devices (application self) !! ieee) as [dev|] eqn:Hdev;
    [|discriminate].
  simpl in H.
  destruct (endpoints dev !! endpoint_id) as [ep|] eqn:Hep; [|discriminate].
  simpl in H. exists dev, ep. auto.
Qed.

(** Past the MIC check, a frame with a fresh counter stops at the call
    [attributes._update_attribute(0x9999, counter)]. *)
Lemma translate_and_dispatch_update_raises self ieee cl e c command_id
    payload payload_length pb parsed :
  security_cluster self ieee = Some cl ->
  command command_id = Some e ->
  Py.to_bytes_little payload payload_length = Ok pb ->
  deserialize pb (entry_schema e) = Ok parsed ->
  fresh_counter cl c ->
  translate_and_dispatch ieee (Some c) command_id payload payload_length self
  = (Raise AttributeError, self).
Proof.
  intros Hsec Hcmd Hpb Hparsed Hfresh.
  destruct (security_cluster_Some _ _ _ Hsec) as (dev & ep & Hdev & Hep & Hcl).
  unfold translate_and_dispatch.
  rewrite Hcmd, bind_lift, Hpb, bind_lift, Hparsed, bind_lift.
  unfold bind at 1. unfold get at 1. unfold getitem. rewrite Hdev.
  rewrite bind_lift.
  unfold bind at 1. unfold replay_guard, getitem. rewrite Hep, bind_lift.
  rewrite Hcl, bind_lift.
  unfold fresh_counter in Hfresh.
  destruct (_attr_cache cl !! 0x9999) as [[C|b|str]|]; try contradiction.
  - unfold value_ge. rewrite bind_lift.
    replace (c <=? C) with false by (symmetry; apply Z.leb_gt; exact Hfresh).
    reflexivity.
  - reflexivity.
Qed.

Lemma handle_notification_update_raises self ieee cl e header c command_id
    payload payload_length mic pb parsed :
  security_cluster self ieee = Some cl ->
  command command_id = Some e ->
  mic_verified self ieee header (Some c) command_id payload payload_length
               mic ->
  Py.to_bytes_little payload payload_length = Ok pb ->
  deserialize pb (entry_schema e) = Ok parsed ->
  fresh_counter cl c ->
  handle_notification ieee header (Some c) command_id payload payload_length
                      mic self
  = (Raise AttributeError, self).
Proof.
  intros Hsec Hcmd (cb & pb' & calcul & Hcb & Hpb' & Hcalc & Hmic) Hpb
         Hparsed Hfresh.
  assert (pb' = pb) as -> by congruence.
  pose proof (translate_and_dispatch_update_raises _ _ _ _ _ _ _ _ _ _
                Hsec Hcmd Hpb Hparsed Hfresh) as Hgo.
  destruct (security_cluster_Some _ _ _ Hsec) as (dev & ep & Hdev & _).
  unfold handle_notification.
  unfold bind at 1. unfold get at 1. rewrite Hdev, Hcmd.
  rewrite Hcb, bind_lift, Hpb, bind_lift.
  unfold bind at 1.
  pose proof (calcul_mic_read_only ieee header (Some c) (cb ++ pb)
                (payload_length + 1) self) as Hro.
  destruct (calcul_mic ieee header (Some c) (cb ++ pb) (payload_length + 1)
              self) as [r s'].
  simpl in Hro, Hcalc. subst s' r.
  destruct Hmic as [-> | ->]; [exact Hgo|].
  rewrite Z.eqb_refl. exact Hgo.
Qed.

Lemma assoc_Some_In {V} (k : Z) (l : list (Z * V)) (v : V) :
  assoc k l = Some v -> In k (map fst l).
Proof.
  induction l as [|[k' v'] l IH]; simpl; [discriminate|].
  destruct (k =? k') eqn:Hk.
  - intros _. left. symmetry. now apply Z.eqb_eq.
  - intros H. right. now apply IH.
Qed.

(** Every command id of the translation table fits one byte. *)
Lemma command_id_is_byte (command_id : Z) (e : TranslationEntry) :
  command command_id = Some e -> 0 <= command_id < 256.
Proof.
  intros H. apply assoc_Some_In in H.
  assert (Hall : forallb (fun k => (0 <=? k) && (k <? 256))
                         (map fst command_table) = true) by reflexivity.
  rewrite forallb_forall in Hall. specialize (Hall _ H).
  apply andb_true_iff in Hall. destruct Hall as [H0 H1].
  apply Z.leb_le in H0. apply Z.ltb_lt in H1. lia.
Qed.

Lemma command_id_to_bytes (command_id : Z) (e : TranslationEntry) :
  command command_id = Some e ->
  exists cb, Py.to_bytes_little command_id 1 = Ok cb.
Proof.
  intros H. apply command_id_is_byte in H. unfold Py.to_bytes_little.
  replace (command_id <? 0) with false by (symmetry; apply Z.ltb_ge; lia).
  replace (256 ^ Z.of_nat 1 <=? command_id) with false
    by (symmetry; apply Z.leb_gt; simpl; lia).
  eexists. reflexivity.
Qed.

(** ** handle_notification: the MIC check *)

Lemma calcul_mic_no_key self ieee cl header counter payload payload_length :
  security_cluster self ieee = Some cl ->
  _attr_cache cl !! 0x9998 = None ->
  calcul_mic ieee header counter payload payload_length self = (Ok None, self).
Proof.
  intros Hsec Hkey.
  destruct (security_cluster_Some _ _ _ Hsec) as (dev & ep & Hdev & Hep & Hcl).
  unfold calcul_mic. unfold bind at 1. unfold get at 1. rewrite Hdev.
  unfold getitem. rewrite Hep, bind_lift, Hcl, bind_lift, Hkey. reflexivity.
Qed.

(** Without a key no MIC is computed and the comparison is skipped: the
    handler goes on with lines 1621-1656 whatever MIC the frame carries. *)
Lemma handle_notification_no_key (self : GreenPowerProxy) (ieee : bytes)
    (cl : Cluster) (e : TranslationEntry) (header : Z) (counter : option Z)
    (command_id payload : Z) (payload_length : nat) (mic : Z) :
  security_cluster self ieee = Some cl ->
  _attr_cache cl !! 0x9998 = None ->
  command command_id = Some e ->
  handle_notification ieee header counter command_id payload payload_length
                      mic self
  = translate_and_dispatch ieee counter command_id payload payload_length
                           self.
Proof.
  intros Hsec Hkey Hcmd.
  destruct (security_cluster_Some _ _ _ Hsec) as (dev & ep & Hdev & _).
  destruct (command_id_to_bytes _ _ Hcmd) as [cb Hcb].
  unfold handle_notification. unfold bind at 1. unfold get at 1.
  rewrite Hdev, Hcmd, Hcb, bind_lift, bind_lift.
  destruct (Py.to_bytes_little payload payload_length) as [pb|err] eqn:Hpb.
  - unfold bind at 1.
    rewrite (calcul_mic_no_key _ _ _ _ _ _ _ Hsec Hkey). reflexivity.
  - unfold translate_and_dispatch. rewrite Hcmd, bind_lift, Hpb, bind_lift.
    reflexivity.
Qed.

(** C1. A data frame for a known device, with a recognized command id, a
    MIC that verifies and a counter above the cached one (or no cached
    counter) does not get its counter stored and is not dispatched:
    [handle_notification] binds [attributes] to the cache dict of the
    device's green power cluster and calls [_update_attribute] on that
    dict, which raises [AttributeError]; the store, cached counter and
    event log included, is left as it was. *)
Theorem handle_notification_fresh_counter (self : GreenPowerProxy)
    (ieee : bytes) (cl : Cluster) (e : TranslationEntry) (header c : Z)
    (command_id payload : Z) (payload_length : nat) (mic : Z)
    (pb : bytes) (parsed : list (option Z) * bytes) :
  security_cluster self ieee = Some cl ->
  command command_id = Some e ->
  mic_verified self ieee header (Some c) command_id payload payload_length
               mic ->
  Py.to_bytes_little payload payload_length = Ok pb ->
  deserialize pb (entry_schema e) = Ok parsed ->
  fresh_counter cl c ->
  let after := handle_notification ieee header (Some c) command_id payload
                                   payload_length mic self in
  after = (Raise AttributeError, self) /\
  stored_counter (snd after) ieee = _attr_cache cl !! 0x9999 /\
  events (application (snd after)) = events (application self).
Proof.
  intros Hsec Hcmd Hmic Hpb Hparsed Hfresh after.
  assert (Hafter : after = (Raise AttributeError, self)).
  { unfold after.
    now apply (handle_notification_update_raises _ _ cl e _ _ _ _ _ _ pb parsed). }
  rewrite Hafter. simpl. split; [reflexivity|]. split; [|reflexivity].
  unfold stored_counter. rewrite Hsec. reflexivity.
Qed.

(** The scenario of the specification: key provisioned, last counter 10, an
    "On" frame with counter 11 and the right MIC. *)
Lemma handle_notification_fresh_counter_witness :
  handle_notification sample_ieee 0x308c (Some 11) 0x21 0 0 0x2c790855 keyed
  = (Raise AttributeError, keyed) /\
  stored_counter keyed sample_ieee = Some (VInt 10).
Proof.
  split; [|vm_compute; reflexivity].
  apply (handle_notification_fresh_counter keyed sample_ieee
           (default new_cluster (security_cluster keyed sample_ieee))
           (entry "On" cc [] (Some 0x0006) (Some 0x0001) [])
           0x308c 11 0x21 0 0 0x2c790855 [] ([], [])).
  - vm_compute. reflexivity.
  - reflexivity.
  - exists [0x21], [], (Some 0x2c790855).
    split; [reflexivity|]. split; [reflexivity|].
    split; [vm_compute; reflexivity | now right].
  - reflexivity.
  - reflexivity.
  - vm_compute. reflexivity.
Defined.

(** ** Frames leave the devices they are not about alone *)

Lemma preserves_bind {S A B} (P : S -> Prop) (m : M S A) (k : A -> M S B) :
  preserves P m -> (forall a, preserves P (k a)) -> preserves P (bind m k).
Proof.
  intros Hm Hk s Hs. unfold bind. specialize (Hm s Hs).
  destruct (m s) as [[a|e] s']; simpl in *; [now apply Hk | exact Hm].
Qed.

Lemma preserves_read_only {S A} (P : S -> Prop) (m : M S A) :
  read_only m -> preserves P m.
Proof. intros Hm s Hs. now rewrite Hm. Qed.

Lemma preserves_for_each {S A} (P : S -> Prop) (l : list A)
    (body : A -> M S unit) :
  (forall x, preserves P (body x)) -> preserves P (for_each l body).
Proof.
  intros Hbody. induction l as [|x l IH]; simpl.
  - apply preserves_read_only, read_only_ret.
  - apply preserves_bind; [apply Hbody | intros _; exact IH].
Qed.

Section OtherDevice.

Variables (ieee ieee' : bytes) (o : option Device).
Hypothesis Hother : ieee' <> ieee.

Lemma set_device_other dev :
  preserves (registered_as ieee o) (set_device ieee' dev).
Proof.
  intros s Hs. unfold registered_as in *. simpl. now rewrite lookup_insert_ne.
Qed.

Lemma emit_other ev : preserves (registered_as ieee o) (emit ev).
Proof. intros s Hs. exact Hs. Qed.

Ltac other_steps :=
  repeat first
    [ apply preserves_read_only; solve [read_only_steps]
    | apply set_device_other
    | apply emit_other
    | apply preserves_bind; [|intros ?]
    | apply preserves_for_each; intros ?
    | match goal with
      | |- preserves _ (match ?x with _ => _ end) => destruct x
      | |- preserves _ (if ?x then _ else _) => destruct x
      end ].

Lemma create_device_other type remoteCommissioning now :
  preserves (registered_as ieee o)
            (create_device ieee' type remoteCommissioning now).
Proof.
  unfold create_device, add_device, modify_device, modify_endpoint,
    modify_in_cluster.
  other_steps.
Qed.

End OtherDevice.

(** A frame never changes a device that is already registered: a data
    frame changes nothing at all, a commissioning frame for a known
    identity neither, and one for a new identity only adds that identity. *)
Lemma handle_message_keeps_device args now ieee dev self :
  devices (application self) !! ieee = Some dev ->
  devices (application (snd (handle_message args now self))) !! ieee
  = Some dev.
Proof.
  intros Hdev. unfold handle_message.
  destruct (args !! 0%nat) as [data|]; [|exact Hdev].
  rewrite (bind_Ok _ _ self data self eq_refl).
  unfold bind at 1.
  assert (Hro : read_only (is_commissioning_frame data)).
  { unfold is_commissioning_frame, Py.index. read_only_steps. }
  specialize (Hro self).
  destruct (is_commissioning_frame data self) as [[[|]|e] s']; simpl in Hro;
    subst s'; [| |exact Hdev].
  - unfold bind at 1. unfold Py.index.
    destruct (data !! 6%nat) as [type|]; [|exact Hdev].
    unfold ret at 1.
    set (ieee' := Py.slice data 1 5 ++ Py.slice data 1 5).
    apply (preserves_bind (registered_as ieee (Some dev)));
      [|intros _; apply preserves_read_only, read_only_ret | exact Hdev].
    destruct (decide (ieee' = ieee)) as [->|Hne].
    + intros s Hs. unfold create_device, bind, get. rewrite Hs. exact Hs.
    + apply create_device_other. exact Hne.
  - unfold bind at 1. unfold Py.index.
    destruct (data !! 10%nat) as [command_id|]; [|exact Hdev].
    unfold ret at 1. rewrite handle_notification_counter_read_only.
    exact Hdev.
Qed.

Lemma handle_messages_keep_device frames ieee dev self :
  devices (application self) !! ieee = Some dev ->
  devices (application (handle_messages frames self)) !! ieee = Some dev.
Proof.
  revert self. induction frames as [|[args now] frames IH]; intros self Hdev.
  - exact Hdev.
  - simpl. apply IH. now apply handle_message_keeps_device.
Qed.

(** Past the MIC check, a frame whose counter is not above the cached one
    is dropped without an error and without any change. *)
Lemma translate_and_dispatch_replayed self ieee cl e C c command_id payload
    payload_length pb parsed :
  security_cluster self ieee = Some cl ->
  command command_id = Some e ->
  Py.to_bytes_little payload payload_length = Ok pb ->
  deserialize pb (entry_schema e) = Ok parsed ->
  _attr_cache cl !! 0x9999 = Some (VInt C) ->
  c <= C ->
  translate_and_dispatch ieee (Some c) command_id payload payload_length self
  = (Ok tt, self).
Proof.
  intros Hsec Hcmd Hpb Hparsed Hstored Hle.
  destruct (security_cluster_Some _ _ _ Hsec) as (dev & ep & Hdev & Hep & Hcl).
  unfold translate_and_dispatch.
  rewrite Hcmd, bind_lift, Hpb, bind_lift, Hparsed, bind_lift.
  unfold bind at 1. unfold get at 1. unfold getitem. rewrite Hdev.
  rewrite bind_lift.
  unfold bind at 1. unfold replay_guard, getitem. rewrite Hep, bind_lift.
  rewrite Hcl, bind_lift, Hstored. unfold value_ge. rewrite bind_lift.
  replace (c <=? C) with true by (symmetry; apply Z.leb_le; exact Hle).
  reflexivity.
Qed.

(** C4. For a known device whose green power cluster caches the counter C:
    a frame with a counter not above C changes nothing in the store (the
    cached counter stays C, no output cluster is added, nothing is
    dispatched), and when it has passed the earlier checks it is dropped
    silently by the replay guard; across any sequence of handled frames the
    cached counter of the device stays what it was, so it never decreases.
    A frame that arrives when no counter is cached passes the comparison
    but does not initialize the counter: the handler stops with
    [AttributeError] at the call that was to store it, and the counter is
    still absent afterwards. *)
Theorem replay_counter_behaviour (self : GreenPowerProxy) (ieee : bytes)
    (cl : Cluster) :
  security_cluster self ieee = Some cl ->
  (forall C c header command_id payload payload_length mic,
     _attr_cache cl !! 0x9999 = Some (VInt C) -> c <= C ->
     snd (handle_notification ieee header (Some c) command_id payload
                              payload_length mic self) = self /\
     forall e pb parsed,
       command command_id = Some e ->
       mic_verified self ieee header (Some c) command_id payload
                    payload_length mic ->
       Py.to_bytes_little payload payload_length = Ok pb ->
       deserialize pb (entry_schema e) = Ok parsed ->
       handle_notification ieee header (Some c) command_id payload
                           payload_length mic self = (Ok tt, self)) /\
  (forall frames,
     stored_counter (handle_messages frames self) ieee
     = stored_counter self ieee /\
     forall C C',
       stored_counter self ieee = Some (VInt C) ->
       stored_counter (handle_messages frames self) ieee = Some (VInt C') ->
       C <= C') /\
  (forall e c header command_id payload payload_length mic pb parsed,
     _attr_cache cl !! 0x9999 = None ->
     command command_id = Some e ->
     mic_verified self ieee header (Some c) command_id payload payload_length
                  mic ->
     Py.to_bytes_little payload payload_length = Ok pb ->
     deserialize pb (entry_schema e) = Ok parsed ->
     handle_notification ieee header (Some c) command_id payload
                         payload_length mic self
     = (Raise AttributeError, self) /\
     stored_counter self ieee = None).
Proof.
  intros Hsec.
  destruct (security_cluster_Some _ _ _ Hsec) as (dev & ep & Hdev & Hep & Hcl).
  assert (Hkeep : forall frames,
            stored_counter (handle_messages frames self) ieee
            = stored_counter self ieee).
  { intros frames. unfold stored_counter, security_cluster.
    now rewrite (handle_messages_keep_device frames _ _ _ Hdev), Hdev. }
  split; [|split].
  - intros C c header command_id payload payload_length mic Hstored Hle.
    split; [apply handle_notification_counter_read_only|].
    intros e pb parsed Hcmd (cb & pb' & calcul & Hcb & Hpb' & Hcalc & Hmic)
           Hpb Hparsed.
    assert (pb' = pb) as -> by congruence.
    pose proof (translate_and_dispatch_replayed _ _ _ _ _ _ _ _ _ _ _
                  Hsec Hcmd Hpb Hparsed Hstored Hle) as Hgo.
    unfold handle_notification.
    unfold bind at 1. unfold get at 1. rewrite Hdev, Hcmd.
    rewrite Hcb, bind_lift, Hpb, bind_lift.
    unfold bind at 1.
    pose proof (calcul_mic_read_only ieee header (Some c) (cb ++ pb)
                  (payload_length + 1) self) as Hro.
    destruct (calcul_mic ieee header (Some c) (cb ++ pb) (payload_length + 1)
                self) as [r s'].
    simpl in Hro, Hcalc. subst s' r.
    destruct Hmic as [-> | ->]; [exact Hgo|].
    rewrite Z.eqb_refl. exact Hgo.
  - intros frames. split; [apply Hkeep|].
    intros C C' HC HC'. rewrite Hkeep, HC in HC'.
    injection HC' as <-. lia.
  - intros e c header command_id payload payload_length mic pb parsed
           Hnone Hcmd Hmic Hpb Hparsed.
    split.
    + apply (handle_notification_update_raises _ _ cl e _ _ _ _ _ _ pb parsed);
        try assumption.
      unfold fresh_counter. now rewrite Hnone.
    + unfold stored_counter. now rewrite Hsec.
Qed.

Lemma replay_counter_behaviour_witness :
  snd (handle_notification sample_ieee 0x308c (Some 10) 0x21 0 0 0 keyed)
  = keyed /\
  stored_counter
    (handle_messages
       [([[0x8c; 0x30; 1; 2; 3; 4; 11; 0; 0; 0; 0x21; 0x55; 0x08; 0x79; 0x2c]],
         inject_Z 5);
        ([[0x8c; 0x30; 1; 2; 3; 4; 9; 0; 0; 0; 0x21; 0; 0; 0; 0]],
         inject_Z 6)] keyed) sample_ieee
  = stored_counter keyed sample_ieee /\
  handle_notification sample_ieee 0x308c (Some 5) 0x21 0 0 0 commissioned
  = (Raise AttributeError, commissioned).
Proof.
  split; [|split].
  - apply (proj1 (replay_counter_behaviour keyed sample_ieee
             (default new_cluster (security_cluster keyed sample_ieee))
             ltac:(vm_compute; reflexivity)) 10 10);
      [vm_compute; reflexivity | lia].
  - apply (proj1 (proj2 (replay_counter_behaviour keyed sample_ieee
             (default new_cluster (security_cluster keyed sample_ieee))
             ltac:(vm_compute; reflexivity)))).
  - apply (proj2 (proj2 (replay_counter_behaviour commissioned sample_ieee
             new_cluster ltac:(vm_compute; reflexivity)))
             (entry "On" cc [] (Some 0x0006) (Some 0x0001) [])
             5 0x308c 0x21 0 0%nat 0 [] ([], [])).
    + reflexivity.
    + reflexivity.
    + exists [0x21], [], None.
      split; [reflexivity|]. split; [reflexivity|].
      split; [vm_compute; reflexivity | now left].
    + reflexivity.
    + reflexivity.
Defined.

(** ** calcul_mic: what the MIC depends on *)






(** ** create_device: what a passed gate builds *)

Lemma succeeds_bind {S A B} (P : S -> Prop) (Q : A -> S -> Prop)
    (R : B -> S -> Prop) (m : M S A) (k : A -> M S B) :
  succeeds P m Q -> (forall a, succeeds (Q a) (k a) R) ->
  succeeds P (bind m k) R.
Proof.
  intros Hm Hk s Hs. destruct (Hm s Hs) as (a & s' & Hrun & Hq).
  unfold bind. rewrite Hrun. now apply (Hk a).
Qed.

Section Building.

Variable ieee : bytes.

Lemma add_device_succeeds (P : GreenPowerProxy -> Prop) nwk0 :
  succeeds P (add_device ieee nwk0) (fun _ => device_is ieee (fun _ => True)).
Proof.
  intros s _. eexists tt, _. split; [reflexivity|].
  eexists. split; [apply lookup_insert_eq | exact I].
Qed.

Lemma modify_device_succeeds (R R' : Device -> Prop) f :
  (forall d, R d -> R' (f d)) ->
  succeeds (device_is ieee R) (modify_device ieee f)
           (fun _ => device_is ieee R').
Proof.
  intros Hf s (dev & Hdev & HR).
  unfold modify_device, bind, get, lift, getitem. rewrite Hdev.
  eexists tt, _. split; [reflexivity|].
  exists (f dev). split; [apply lookup_insert_eq | now apply Hf].
Qed.

Lemma modify_endpoint_succeeds (R R' : Device -> Prop) id f :
  (forall d, R d -> exists ep, endpoints d !! id = Some ep /\
                               R' (set_endpoint id (f ep) d)) ->
  succeeds (device_is ieee R) (modify_endpoint ieee id f)
           (fun _ => device_is ieee R').
Proof.
  intros Hf s (dev & Hdev & HR). destruct (Hf dev HR) as (ep & Hep & HR').
  unfold modify_endpoint, bind, get, lift, getitem. rewrite Hdev, Hep.
  eexists tt, _. split; [reflexivity|].
  eexists. split; [apply lookup_insert_eq | exact HR'].
Qed.

Lemma modify_in_cluster_succeeds (R R' : Device -> Prop) id cid f :
  (forall d, R d ->
     exists ep cl, endpoints d !! id = Some ep /\
                   in_clusters ep !! cid = Some cl /\
                   R' (set_endpoint id (set_in_cluster cid (f cl) ep) d)) ->
  succeeds (device_is ieee R) (modify_in_cluster ieee id cid f)
           (fun _ => device_is ieee R').
Proof.
  intros Hf s (dev & Hdev & HR).
  destruct (Hf dev HR) as (ep & cl & Hep & Hcl & HR').
  unfold modify_in_cluster, bind, get, lift, getitem. rewrite Hdev, Hep, Hcl.
  eexists tt, _. split; [reflexivity|].
  eexists. split; [apply lookup_insert_eq | exact HR'].
Qed.

Lemma for_each_succeeds {A} (P : GreenPowerProxy -> Prop) (l : list A) body :
  (forall x, succeeds P (body x) (fun _ => P)) ->
  succeeds P (for_each l body) (fun _ => P).
Proof.
  intros Hbody. induction l as [|x l IH]; simpl.
  - intros s Hs. eexists tt, s. split; [reflexivity | exact Hs].
  - eapply succeeds_bind; [apply Hbody | intros ?; exact IH].
Qed.

Lemma labelled_add_input cid :
  succeeds (device_is ieee labelled)
           (modify_endpoint ieee 1 (add_input_cluster cid))
           (fun _ => device_is ieee labelled).
Proof.
  apply modify_endpoint_succeeds. intros d (ep & Hep & Hbasic).
  exists ep. split; [exact Hep|].
  exists (add_input_cluster cid ep). split; [apply lookup_insert_eq|].
  unfold add_input_cluster.
  destruct (in_clusters ep !! cid) eqn:Hc; [exact Hbasic|]. simpl.
  destruct (decide (cid = Basic_cluster_id)) as [->|Hne].
  - rewrite lookup_insert_eq. eauto.
  - now rewrite lookup_insert_ne.
Qed.

Lemma labelled_add_output cid :
  succeeds (device_is ieee labelled)
           (modify_endpoint ieee 1 (add_output_cluster cid))
           (fun _ => device_is ieee labelled).
Proof.
  apply modify_endpoint_succeeds. intros d (ep & Hep & Hbasic).
  exists ep. split; [exact Hep|].
  exists (add_output_cluster cid ep). split; [apply lookup_insert_eq|].
  unfold add_output_cluster.
  destruct (out_clusters ep !! cid); exact Hbasic.
Qed.

Lemma labelled_update attrid v :
  succeeds (device_is ieee labelled)
           (modify_in_cluster ieee 1 Basic_cluster_id
              (_update_attribute attrid v))
           (fun _ => device_is ieee labelled).
Proof.
  apply modify_in_cluster_succeeds. intros d (ep & Hep & [cl Hcl]).
  exists ep, cl. split; [exact Hep|]. split; [exact Hcl|].
  eexists. split; [apply lookup_insert_eq|].
  simpl. rewrite lookup_insert_eq. eauto.
Qed.

(** Once the gate is passed the creation runs to its end: the returned
    device is the one registered under the identity, and its proxy
    endpoint carries a green power cluster with an empty cache, so the
    device starts with no key and no counter. *)
Lemma create_device_builds self type remoteCommissioning now :
  devices (application self) !! ieee = None ->
  joining_refused self remoteCommissioning now = Ok false ->
  exists dev self',
    create_device ieee type remoteCommissioning now self
    = (Ok (Some dev), self') /\
    devices (application self') !! ieee = Some dev /\
    security_cluster self' ieee = Some new_cluster.
Proof.
  intros Hnew Hgate. unfold create_device.
  unfold bind at 1. unfold get at 1. rewrite Hnew, Hgate, bind_lift.
  set (ready := device_is ieee (proxy_endpoint {[ cluster_id := new_cluster ]})).
  set (built := fun (r : option Device) (s : GreenPowerProxy) =>
                  exists dev, r = Some dev /\
                              devices (application s) !! ieee = Some dev /\
                              security_cluster s ieee = Some new_cluster).
  match goal with
  | |- exists dev self', ?m self = _ /\ _ =>
      assert (Hbuild : succeeds (fun s => s = self) m built)
  end.
  { eapply succeeds_bind; [apply add_device_succeeds | intros ?].
    eapply succeeds_bind;
      [apply (modify_device_succeeds _ (fun _ => True)); auto | intros ?].
    eapply succeeds_bind;
      [apply (modify_device_succeeds _ (fun d => is_Some (endpoints d !! 1)))
      | intros ?].
    { intros d _. simpl. rewrite lookup_insert_eq. eauto. }
    eapply succeeds_bind;
      [apply (modify_endpoint_succeeds _
                (fun d => is_Some (endpoints d !! 1))) | intros ?].
    { intros d [ep Hep]. exists ep. split; [exact Hep|].
      simpl. rewrite lookup_insert_eq. eauto. }
    eapply succeeds_bind;
      [apply (modify_endpoint_succeeds _ labelled) | intros ?].
    { intros d [ep Hep]. exists ep. split; [exact Hep|].
      eexists. split; [apply lookup_insert_eq|].
      unfold add_input_cluster.
      destruct (in_clusters ep !! Basic_cluster_id) eqn:Hb; [eauto|].
      simpl. rewrite lookup_insert_eq. eauto. }
    eapply succeeds_bind; [apply labelled_update | intros ?].
    eapply succeeds_bind with (Q := fun _ => device_is ieee labelled).
    { destruct (type ≫= device) as [[[name ins] outs]|].
      - eapply succeeds_bind; [apply labelled_update | intros ?].
        eapply succeeds_bind;
          [apply for_each_succeeds; intros cid; apply labelled_add_input
          | intros ?].
        apply for_each_succeeds; intros cid; apply labelled_add_output.
      - apply labelled_update. }
    intros ?.
    eapply succeeds_bind;
      [apply (modify_device_succeeds _ (proxy_endpoint ∅)) | intros ?].
    { intros d _. exists new_endpoint. split; [apply lookup_insert_eq|].
      reflexivity. }
    eapply succeeds_bind;
      [apply (modify_endpoint_succeeds _ (proxy_endpoint ∅)) | intros ?].
    { intros d (ep & Hep & Hins). exists ep. split; [exact Hep|].
      eexists. split; [apply lookup_insert_eq | exact Hins]. }
    eapply succeeds_bind;
      [apply (modify_endpoint_succeeds _
                (proxy_endpoint {[ cluster_id := new_cluster ]})) | intros ?].
    { intros d (ep & Hep & Hins). exists ep. split; [exact Hep|].
      eexists. split; [apply lookup_insert_eq|].
      unfold add_input_cluster. rewrite Hins, lookup_empty. reflexivity. }
    eapply succeeds_bind with (Q := fun _ => ready).
    { intros s Hs. eexists tt, _. split; [reflexivity | exact Hs]. }
    intros ? s (dev & Hdev & ep & Hep & Hins).
    exists (Some dev), s. split.
    - unfold bind, get, lift, getitem, ret. rewrite Hdev. reflexivity.
    - exists dev. split; [reflexivity|]. split; [exact Hdev|].
      unfold security_cluster. rewrite Hdev. simpl. rewrite Hep. simpl.
      rewrite Hins. apply lookup_singleton_eq. }
  destruct (Hbuild self eq_refl) as (r & s' & Hrun & dev & -> & Hdev & Hsec).
  exists dev, s'. auto.
Qed.

End Building.

Lemma joining_refused_open self remoteCommissioning now :
  remoteCommissioning = true \/ window_open self now ->
  joining_refused self remoteCommissioning now = Ok false.
Proof.
  unfold joining_refused. intros [-> | (e & He & Hle)]; [reflexivity|].
  destruct remoteCommissioning; [reflexivity|].
  rewrite He. simpl. f_equal. now apply Qltb_false_iff.
Qed.

(** The gate is exact: with the override or an open window, a commissioning
    for a new identity does register a device. *)
Lemma create_device_accepted self ieee type remoteCommissioning now :
  devices (application self) !! ieee = None ->
  remoteCommissioning = true \/ window_open self now ->
  exists dev self',
    create_device ieee type remoteCommissioning now self
    = (Ok (Some dev), self') /\
    devices (application self') !! ieee = Some dev /\
    security_cluster self' ieee = Some new_cluster.
Proof.
  intros Hnew Hgate. apply create_device_builds; [exact Hnew|].
  now apply joining_refused_open.
Qed.

(** ** Worked frames *)

(** The scenario frame as it arrives on the wire: header 8c 30, identity
    01 02 03 04, counter 11, command 0x21 and the MIC of the frame. *)
Example on_frame_from_the_wire :
  handle_message
    [[0x8c; 0x30; 1; 2; 3; 4; 11; 0; 0; 0; 0x21; 0x55; 0x08; 0x79; 0x2c]]
    (inject_Z 5) keyed
  = (Raise AttributeError, keyed).
Proof. vm_compute. reflexivity. Qed.

(** The same frame with one MIC byte changed is dropped silently. *)
Example on_frame_wrong_mic :
  handle_message
    [[0x8c; 0x30; 1; 2; 3; 4; 11; 0; 0; 0; 0x21; 0x54; 0x08; 0x79; 0x2c]]
    (inject_Z 5) keyed
  = (Ok tt, keyed).
Proof. vm_compute. reflexivity. Qed.

(** Called without a counter (which [handle_message] never does) the
    handler skips the replay guard and redispatches: "On" reaches the
    OnOff output cluster of endpoint 1. *)
Example notification_without_counter_dispatches :
  let after := handle_notification sample_ieee 0x308c None 0x21 0 0 0
                                   commissioned in
  fst after = Ok tt /\
  events (application (snd after))
  = events (application commissioned)
    ++ [cluster_handle_message sample_ieee 1 0x0006
          (mkZCLHeader 1 (Some 0x0001) false) []].
Proof. vm_compute. split; reflexivity. Qed.

(** With a key, a payload of more than three bytes makes the block [B1]
    longer than 16 bytes, which [AES.new] refuses as an IV. *)
Example long_payload_cannot_be_authenticated :
  fst (calcul_mic sample_ieee 0x308c (Some 11) [0x4A; 1; 0; 2; 0] 5 keyed)
  = Raise ValueError.
Proof. vm_compute. reflexivity. Qed.

(** A commissioning frame in an open window registers the device. *)
Example commissioning_in_open_window :
  is_Some (devices (application
             (snd (handle_message [[12; 1; 2; 3; 4; 224; 2]]
                     (inject_Z 1700000059) (window_until 1700000060))))
           !! sample_ieee).
Proof. vm_compute. eauto. Qed.

(** * Further properties *)

(** ** Integers and bytes *)

Lemma le_digits_length (len : nat) (n : Z) : length (Py.le_digits len n) = len.
Proof. revert n. induction len as [|len IH]; intros n; simpl; auto. Qed.

Lemma le_digits_all_bytes (len : nat) (n : Z) :
  all_bytes (Py.le_digits len n).
Proof.
  revert n. induction len as [|len IH]; intros n; simpl; constructor.
  - apply Z.mod_pos_bound. lia.
  - apply IH.
Qed.

Lemma from_bytes_le_digits (len : nat) (n : Z) :
  0 <= n < 256 ^ Z.of_nat len ->
  Py.from_bytes_little (Py.le_digits len n) = n.
Proof.
  revert n. induction len as [|len IH]; intros n Hn; simpl.
  - simpl in Hn. lia.
  - rewrite IH.
    + pose proof (Z.div_mod n 256). lia.
    + rewrite Nat2Z.inj_succ, Z.pow_succ_r in Hn by lia.
      split; [apply Z.div_pos; lia | apply Z.div_lt_upper_bound; lia].
Qed.

Lemma from_bytes_little_bound (b : bytes) :
  all_bytes b -> 0 <= Py.from_bytes_little b < 256 ^ Z.of_nat (length b).
Proof.
  induction 1 as [|x b Hx Hb IH]; simpl length; simpl Py.from_bytes_little.
  - simpl. lia.
  - rewrite Nat2Z.inj_succ, Z.pow_succ_r by lia. lia.
Qed.

Lemma le_digits_from_bytes (b : bytes) :
  all_bytes b -> Py.le_digits (length b) (Py.from_bytes_little b) = b.
Proof.
  induction 1 as [|x b Hx Hb IH]; simpl; [reflexivity|].
  f_equal.
  - rewrite (Z.mul_comm 256), Z.mod_add by lia. apply Z.mod_small. lia.
  - rewrite (Z.mul_comm 256), Z.div_add by lia.
    rewrite Z.div_small by lia. simpl. exact IH.
Qed.

Lemma to_bytes_from_bytes (b : bytes) :
  all_bytes b ->
  Py.to_bytes_little (Py.from_bytes_little b) (length b) = Ok b.
Proof.
  intros Hb. unfold Py.to_bytes_little.
  pose proof (from_bytes_little_bound b Hb) as [H0 H1].
  replace (Py.from_bytes_little b <? 0) with false
    by (symmetry; apply Z.ltb_ge; lia).
  replace (256 ^ Z.of_nat (length b) <=? Py.from_bytes_little b) with false
    by (symmetry; apply Z.leb_gt; lia).
  simpl. now rewrite le_digits_from_bytes.
Qed.

Lemma to_bytes_little_Ok (n : Z) (len : nat) :
  0 <= n < 256 ^ Z.of_nat len ->
  Py.to_bytes_little n len = Ok (Py.le_digits len n).
Proof.
  intros Hn. unfold Py.to_bytes_little.
  replace (n <? 0) with false by (symmetry; apply Z.ltb_ge; lia).
  replace (256 ^ Z.of_nat len <=? n) with false
    by (symmetry; apply Z.leb_gt; lia).
  reflexivity.
Qed.

Lemma to_bytes_little_overflow (n : Z) (len : nat) :
  ~ 0 <= n < 256 ^ Z.of_nat len ->
  Py.to_bytes_little n len = Raise OverflowError.
Proof.
  intros Hn. unfold Py.to_bytes_little.
  destruct (n <? 0) eqn:H0; [reflexivity|].
  destruct (256 ^ Z.of_nat len <=? n) eqn:H1; [reflexivity|].
  apply Z.ltb_ge in H0. apply Z.leb_gt in H1. lia.
Qed.

(** ** handle_message: reading frames *)

Ltac fixed_length l :=
  repeat (destruct l as [|? l]; simpl in *; try discriminate; try lia).

Lemma slice_payload (payload mic : bytes) :
  length mic = 4%nat ->
  take (length (payload ++ mic) - 4) (payload ++ mic) = payload /\
  drop (length (payload ++ mic) - 4) (payload ++ mic) = mic.
Proof.
  intros Hm. rewrite length_app, Hm.
  replace (length payload + 4 - 4)%nat with (length payload) by lia.
  split; [apply take_app_length | apply drop_app_length].
Qed.

Lemma frame_tail (pre payload mic : bytes) :
  length pre = 11%nat -> length mic = 4%nat ->
  Py.slice_to_end_minus (pre ++ payload ++ mic) 11 4 = payload /\
  Py.last_n (pre ++ payload ++ mic) 4 = mic.
Proof.
  intros Hpre Hmic. unfold Py.slice_to_end_minus, Py.last_n, Py.slice.
  rewrite !length_app, Hpre, Hmic. split.
  - rewrite drop_app_length' by (symmetry; exact Hpre).
    replace (11 + (length payload + 4) - 4 - 11)%nat with (length payload)
      by lia.
    apply take_app_length.
  - replace (11 + (length payload + 4) - 4)%nat with (11 + length payload)%nat
      by lia.
    rewrite drop_app_add' by (symmetry; exact Hpre).
    apply drop_app_length.
Qed.

(** A frame that is not of the commissioning shape and has a command byte
    goes to [handle_notification] with the fields cut out of it. *)
Lemma handle_message_data (self : GreenPowerProxy) (now : Q) (data : bytes)
    (command_id : Z) :
  is_commissioning_frame data self = (Ok false, self) ->
  data !! 10%nat = Some command_id ->
  handle_message [data] now self
  = handle_notification (Py.slice data 2 6 ++ Py.slice data 2 6)
      (Py.from_bytes_little (Py.slice data 0 2))
      (Some (Py.from_bytes_little (Py.slice data 6 10))) command_id
      (Py.from_bytes_little (Py.slice_to_end_minus data 11 4))
      (length (Py.slice_to_end_minus data 11 4))
      (Py.from_bytes_little (Py.last_n data 4)) self.
Proof.
  intros Hshape Hcmd. unfold handle_message. cbn [lookup list_lookup].
  rewrite (bind_Ok _ _ self data self eq_refl).
  rewrite (bind_Ok _ _ self false self Hshape).
  unfold Py.index. rewrite Hcmd.
  now rewrite (bind_Ok _ _ self command_id self eq_refl).
Qed.

Lemma not_commissioning_shape (self : GreenPowerProxy) (data : bytes) :
  (6 <= length data)%nat ->
  ~ (data !! 0%nat = Some 12 /\ data !! 5%nat = Some 224) ->
  is_commissioning_frame data self = (Ok false, self).
Proof.
  intros Hlen Hshape.
  destruct (lookup_lt_is_Some_2 data 0) as [d0 H0]; [lia|].
  destruct (lookup_lt_is_Some_2 data 5) as [d5 H5]; [lia|].
  unfold is_commissioning_frame, Py.index, bind, ret. unfold bytes in *.
  rewrite H0.
  destruct (d0 =? 12) eqn:E0; [|reflexivity]. rewrite H5.
  destruct (d5 =? 224) eqn:E5; [|reflexivity].
  apply Z.eqb_eq in E0, E5. subst. exfalso. apply Hshape. now split.
Qed.

(** X1. A frame laid out as header, identity, counter, command id, payload
    and MIC (and not of the commissioning shape) is read back field by
    field: [handle_message] hands [handle_notification] the doubled
    identity, the little-endian header, counter and MIC, the command id
    and the payload as an integer together with its length, from which
    [handle_notification] recovers the payload bytes exactly, leading and
    trailing zero bytes included. *)
Theorem handle_message_reads_data_frame (self : GreenPowerProxy) (now : Q)
    (header src_id counter : bytes) (command_id : Z) (payload mic : bytes) :
  length header = 2%nat -> length src_id = 4%nat ->
  length counter = 4%nat -> length mic = 4%nat ->
  ~ (header !! 0%nat = Some 12 /\ src_id !! 3%nat = Some 224) ->
  handle_message [data_frame header src_id counter command_id payload mic]
                 now self
  = handle_notification (src_id ++ src_id) (Py.from_bytes_little header)
      (Some (Py.from_bytes_little counter)) command_id
      (Py.from_bytes_little payload) (length payload)
      (Py.from_bytes_little mic) self
  /\ (all_bytes payload ->
      Py.to_bytes_little (Py.from_bytes_little payload) (length payload)
      = Ok payload).
Proof.
  intros Hh Hs Hc Hm Hshape. split; [|apply to_bytes_from_bytes].
  destruct header as [|h0 [|h1 [|]]]; try discriminate.
  destruct src_id as [|s0 [|s1 [|s2 [|s3 [|]]]]]; try discriminate.
  destruct counter as [|c0 [|c1 [|c2 [|c3 [|]]]]]; try discriminate.
  destruct (frame_tail [h0; h1; s0; s1; s2; s3; c0; c1; c2; c3; command_id]
              payload mic eq_refl Hm) as [Hpayload Hmic].
  rewrite (handle_message_data self now _ command_id).
  - unfold data_frame. cbn [app] in *. rewrite Hpayload, Hmic. reflexivity.
  - apply not_commissioning_shape.
    + unfold data_frame. cbn [app length]. lia.
    + exact Hshape.
  - reflexivity.
Qed.

Lemma handle_message_reads_data_frame_witness :
  handle_message
    [data_frame [0x8c; 0x30] [1; 2; 3; 4] [11; 0; 0; 0] 0x32 [0x23; 0x4b; 0]
                [0x1b; 0x27; 0x64; 0x37]] (inject_Z 5) keyed
  = handle_notification sample_ieee 0x308c (Some 11) 0x32 0x4b23 3 0x3764271b
                        keyed
  /\ Py.to_bytes_little 0x4b23 3 = Ok [0x23; 0x4b; 0].
Proof.
  destruct (handle_message_reads_data_frame keyed (inject_Z 5) [0x8c; 0x30]
              [1; 2; 3; 4] [11; 0; 0; 0] 0x32 [0x23; 0x4b; 0]
              [0x1b; 0x27; 0x64; 0x37]) as [Hread Hback];
    try reflexivity.
  - intros [H0 _]. discriminate H0.
  - split; [exact Hread|]. apply Hback. repeat constructor; lia.
Defined.

Lemma handle_message_short (self : GreenPowerProxy) (now : Q) (data : bytes) :
  (length data < 11)%nat ->
  ~ (data !! 0%nat = Some 12 /\ data !! 5%nat = Some 224 /\
     (7 <= length data)%nat) ->
  handle_message [data] now self = (Raise IndexError, self).
Proof.
  intros Hlen Hshape.
  assert (H10 : data !! 10%nat = None) by (apply lookup_ge_None; lia).
  unfold handle_message. cbn [lookup list_lookup].
  rewrite (bind_Ok _ _ self data self eq_refl).
  unfold is_commissioning_frame, Py.index, bind, ret, raise.
  destruct (data !! 0%nat) as [d0|] eqn:H0; [|reflexivity].
  destruct (d0 =? 12) eqn:E0; [|now rewrite H10].
  destruct (data !! 5%nat) as [d5|] eqn:H5; [|reflexivity].
  destruct (d5 =? 224) eqn:E5; [|now rewrite H10].
  destruct (data !! 6%nat) as [d6|] eqn:H6; [|reflexivity].
  exfalso. apply Hshape. apply Z.eqb_eq in E0, E5. subst.
  split; [reflexivity|]. split; [reflexivity|].
  apply lookup_lt_Some in H6. lia.
Qed.

Lemma handle_message_first (self : GreenPowerProxy) (now : Q)
    (args : list bytes) :
  match args with
  | [] => handle_message args now self = (Raise IndexError, self)
  | data :: _ => handle_message args now self = handle_message [data] now self
  end.
Proof. destruct args; reflexivity. Qed.

(** X2. A truncated frame is refused before anything is looked up: with no
    frame at all, or with fewer than 11 bytes and not a complete
    commissioning frame (first byte 12, sixth byte 224, at least 7 bytes),
    [handle_message] raises [IndexError] and the store is left as it
    was. *)
Theorem handle_message_truncated (self : GreenPowerProxy) (now : Q) :
  handle_message [] now self = (Raise IndexError, self) /\
  forall data : bytes,
    (length data < 11)%nat ->
    ~ (data !! 0%nat = Some 12 /\ data !! 5%nat = Some 224 /\
       (7 <= length data)%nat) ->
    handle_message [data] now self = (Raise IndexError, self).
Proof.
  split; [reflexivity|]. intros data. apply handle_message_short.
Qed.

Lemma handle_message_truncated_witness :
  handle_message [[0x8c; 0x30; 1; 2; 3; 4; 11; 0; 0; 0]] (inject_Z 5) keyed
  = (Raise IndexError, keyed).
Proof.
  apply (proj2 (handle_message_truncated keyed (inject_Z 5))).
  - simpl. lia.
  - intros [H0 _]. discriminate H0.
Defined.

(** A frame of the commissioning shape is handed to [create_device]. *)
Lemma handle_message_commissioning (self : GreenPowerProxy) (now : Q)
    (data : bytes) (type : Z) :
  data !! 0%nat = Some 12 -> data !! 5%nat = Some 224 ->
  data !! 6%nat = Some type ->
  handle_message [data] now self
  = bind (create_device (Py.slice data 1 5 ++ Py.slice data 1 5) (Some type)
                        false now) (fun _ => ret tt) self.
Proof.
  intros Hd0 Hd5 Hd6. unfold handle_message. cbn [lookup list_lookup].
  rewrite (bind_Ok _ _ self data self eq_refl).
  rewrite (bind_Ok _ _ self true self).
  - unfold Py.index. rewrite Hd6.
    now rewrite (bind_Ok _ _ self type self eq_refl).
  - unfold is_commissioning_frame, Py.index, bind, ret.
    rewrite Hd0. simpl. rewrite Hd5. reflexivity.
Qed.

(** X3. A frame whose first byte is 12 and whose sixth byte is 224 is
    always taken as a commissioning frame: its outcome is that of
    [create_device] for the identity in bytes 1-4 and the type in byte 6,
    without the override; no MIC and no counter is looked at, and every
    byte after the seventh is ignored. *)
Theorem handle_message_commissioning_shape (self : GreenPowerProxy) (now : Q)
    (data : bytes) (type : Z) :
  data !! 0%nat = Some 12 -> data !! 5%nat = Some 224 ->
  data !! 6%nat = Some type ->
  handle_message [data] now self
  = bind (create_device (Py.slice data 1 5 ++ Py.slice data 1 5) (Some type)
                        false now) (fun _ => ret tt) self
  /\ handle_message [data] now self = handle_message [take 7 data] now self.
Proof.
  intros H0 H5 H6.
  split; [now apply handle_message_commissioning|].
  rewrite (handle_message_commissioning _ _ data type H0 H5 H6). symmetry.
  etransitivity;
    [apply (handle_message_commissioning _ _ _ type); unfold bytes in *;
     rewrite lookup_take_lt by lia; assumption|].
  assert (Hslice : Py.slice (take 7 data) 1 5 = Py.slice data 1 5).
  { unfold Py.slice. rewrite !take_drop_commute, take_take. reflexivity. }
  now rewrite Hslice.
Qed.

Lemma handle_message_commissioning_shape_witness :
  handle_message [[12; 1; 2; 3; 4; 224; 2; 0xff; 0xff; 0xff; 0xff; 0xff]]
                 (inject_Z 5) keyed
  = handle_message [[12; 1; 2; 3; 4; 224; 2]] (inject_Z 5) keyed.
Proof.
  apply (proj2 (handle_message_commissioning_shape keyed (inject_Z 5)
                  [12; 1; 2; 3; 4; 224; 2; 0xff; 0xff; 0xff; 0xff; 0xff] 2
                  eq_refl eq_refl eq_refl)).
Defined.

(** ** create_device: the device it builds *)

Section Exact.
Variables (self : GreenPowerProxy) (ieee : bytes).

Lemma with_device_again d d' :
  with_device (with_device self ieee d) ieee d' = with_device self ieee d'.
Proof. unfold with_device. simpl. now rewrite insert_insert_eq. Qed.

Lemma modify_device_exact d f :
  modify_device ieee f (with_device self ieee d)
  = (Ok tt, with_device self ieee (f d)).
Proof.
  unfold modify_device, bind, get, lift, getitem. simpl.
  rewrite lookup_insert_eq. unfold set_device. simpl.
  now rewrite insert_insert_eq.
Qed.

Lemma modify_endpoint_exact d id ep f :
  endpoints d !! id = Some ep ->
  modify_endpoint ieee id f (with_device self ieee d)
  = (Ok tt, with_device self ieee (set_endpoint id (f ep) d)).
Proof.
  intros Hep. unfold modify_endpoint, bind, get, lift, getitem. simpl.
  rewrite lookup_insert_eq, Hep. unfold set_device. simpl.
  now rewrite insert_insert_eq.
Qed.

Lemma modify_in_cluster_exact d id cid ep cl f :
  endpoints d !! id = Some ep -> in_clusters ep !! cid = Some cl ->
  modify_in_cluster ieee id cid f (with_device self ieee d)
  = (Ok tt, with_device self ieee
              (set_endpoint id (set_in_cluster cid (f cl) ep) d)).
Proof.
  intros Hep Hcl. unfold modify_in_cluster, bind, get, lift, getitem. simpl.
  rewrite lookup_insert_eq, Hep, Hcl. unfold set_device. simpl.
  now rewrite insert_insert_eq.
Qed.

Lemma set_endpoint_again id ep ep' d :
  set_endpoint id ep' (set_endpoint id ep d) = set_endpoint id ep' d.
Proof. unfold set_endpoint. simpl. now rewrite insert_insert_eq. Qed.

Lemma set_endpoint_same id ep d :
  endpoints d !! id = Some ep -> set_endpoint id ep d = d.
Proof.
  intros Hep. destruct d as [n st sk eps]. unfold set_endpoint. simpl in *.
  now rewrite insert_id.
Qed.

Lemma for_each_endpoint_exact (g : Z -> Endpoint -> Endpoint) id cids :
  forall d ep,
    endpoints d !! id = Some ep ->
    for_each cids (fun cid => modify_endpoint ieee id (g cid))
             (with_device self ieee d)
    = (Ok tt, with_device self ieee
                (set_endpoint id (foldl (fun e c => g c e) ep cids) d)).
Proof.
  induction cids as [|c cids IH]; intros d ep Hep; simpl.
  - now rewrite set_endpoint_same.
  - rewrite (bind_Ok _ _ _ tt _ (modify_endpoint_exact d id ep (g c) Hep)).
    rewrite (IH _ (g c ep)) by (simpl; apply lookup_insert_eq).
    now rewrite set_endpoint_again.
Qed.

End Exact.

Lemma create_device_exact self ieee type remoteCommissioning now :
  devices (application self) !! ieee = None ->
  joining_refused self remoteCommissioning now = Ok false ->
  create_device ieee type remoteCommissioning now self
  = (Ok (Some (proxy_device type)), commissioned_with self ieee type).
Proof.
  intros Hnew Hgate. unfold create_device.
  unfold bind at 1. unfold get at 1. rewrite Hnew, Hgate, bind_lift.
  assert (Hadd : add_device ieee 32766 self
                 = (Ok tt, with_device self ieee
                             (mkDevice 32766 Device_NEW false ∅)))
    by reflexivity.
  rewrite (bind_Ok _ _ _ tt _ Hadd).
  rewrite (bind_Ok _ _ _ tt _ (modify_device_exact self ieee _ _)).
  rewrite (bind_Ok _ _ _ tt _ (modify_device_exact self ieee _ _)).
  cbn [nwk endpoints set_endpoint].
  rewrite (bind_Ok _ _ _ tt _ (modify_endpoint_exact self ieee _ 1 _ _
             (lookup_insert_eq _ _ _))).
  rewrite set_endpoint_again.
  rewrite (bind_Ok _ _ _ tt _ (modify_endpoint_exact self ieee _ 1 _ _
             (lookup_insert_eq _ _ _))).
  rewrite set_endpoint_again.
  change (add_input_cluster Basic_cluster_id
            (green_power_endpoint new_endpoint))
    with (mkEndpoint Endpoint_ZDO_INIT (Some zha_PROFILE_ID) (Some GREEN_POWER)
                     (<[Basic_cluster_id := new_cluster]> ∅) ∅).
  rewrite (bind_Ok _ _ _ tt _ (modify_in_cluster_exact self ieee _ 1 _ _ _ _
             (lookup_insert_eq _ _ _) (lookup_insert_eq _ _ _))).
  rewrite set_endpoint_again.
  unfold set_in_cluster at 1. cbn [in_clusters out_clusters ep_status
                                   profile_id device_type].
  rewrite insert_insert_eq.
  assert (Hlabel : forall name,
            modify_in_cluster ieee 1 Basic_cluster_id
              (_update_attribute 5 (VStr name))
              (with_device self ieee
                 (set_endpoint 1
                    (mkEndpoint Endpoint_ZDO_INIT (Some zha_PROFILE_ID)
                       (Some GREEN_POWER)
                       (<[Basic_cluster_id :=
                            _update_attribute 4 (VStr "GreenPower") new_cluster]> ∅)
                       ∅)
                    (mkDevice 32766 Device_ENDPOINTS_INIT true ∅)))
            = (Ok tt,
               with_device self ieee
                 (set_endpoint 1
                    (mkEndpoint Endpoint_ZDO_INIT (Some zha_PROFILE_ID)
                       (Some GREEN_POWER)
                       {[ Basic_cluster_id := basic_labelled name ]} ∅)
                    (mkDevice 32766 Device_ENDPOINTS_INIT true ∅)))).
  { intros name.
    rewrite (modify_in_cluster_exact self ieee _ 1 _ _ _ _
               (lookup_insert_eq _ _ _) (lookup_insert_eq _ _ _)).
    rewrite set_endpoint_again. unfold set_in_cluster.
    cbn [in_clusters out_clusters ep_status profile_id device_type].
    rewrite insert_insert_eq, insert_empty. reflexivity. }
  assert (Hbranch :
            match type ≫= device with
            | Some (name, ins, outs) =>
                run modify_in_cluster ieee 1 Basic_cluster_id
                      (_update_attribute 5 (VStr name));
                run for_each ins
                      (fun cid => modify_endpoint ieee 1 (add_input_cluster cid));
                for_each outs
                  (fun cid => modify_endpoint ieee 1 (add_output_cluster cid))
            | None =>
                modify_in_cluster ieee 1 Basic_cluster_id
                  (_update_attribute 5 (VStr "GreenPowerDevice"))
            end
              (with_device self ieee
                 (set_endpoint 1
                    (mkEndpoint Endpoint_ZDO_INIT (Some zha_PROFILE_ID)
                       (Some GREEN_POWER)
                       (<[Basic_cluster_id :=
                            _update_attribute 4 (VStr "GreenPower") new_cluster]> ∅)
                       ∅)
                    (mkDevice 32766 Device_ENDPOINTS_INIT true ∅)))
            = (Ok tt,
               with_device self ieee
                 (set_endpoint 1 (primary_endpoint type)
                    (mkDevice 32766 Device_ENDPOINTS_INIT true ∅)))).
  { unfold primary_endpoint, device_profile.
    destruct (type ≫= device) as [[[name ins] outs]|]; cbn [default].
    - rewrite (bind_Ok _ _ _ tt _ (Hlabel name)).
      rewrite (bind_Ok _ _ _ tt _
                 (for_each_endpoint_exact self ieee add_input_cluster 1 ins
                    _ _ (lookup_insert_eq _ _ _))).
      rewrite set_endpoint_again.
      rewrite (for_each_endpoint_exact self ieee add_output_cluster 1 outs
                 _ _ (lookup_insert_eq _ _ _)).
      now rewrite set_endpoint_again.
    - apply Hlabel. }
  rewrite (bind_Ok _ _ _ tt _ Hbranch).
  rewrite (bind_Ok _ _ _ tt _ (modify_device_exact self ieee _ _)).
  rewrite (bind_Ok _ _ _ tt _ (modify_endpoint_exact self ieee _ endpoint_id
             _ _ (lookup_insert_eq _ _ _))).
  rewrite set_endpoint_again.
  rewrite (bind_Ok _ _ _ tt _ (modify_endpoint_exact self ieee _ endpoint_id
             _ _ (lookup_insert_eq _ _ _))).
  rewrite set_endpoint_again.
  change (add_input_cluster cluster_id (green_power_endpoint new_endpoint))
    with proxy_side_endpoint.
  unfold bind, emit, get, lift, getitem, ret. cbn [application devices with_device].
  rewrite lookup_insert_eq. reflexivity.
Qed.

Lemma add_input_clusters_spec (ins : list Z) (ep : Endpoint) :
  let ep' := foldl (fun e c => add_input_cluster c e) ep ins in
  dom (in_clusters ep') = dom (in_clusters ep) ∪ list_to_set ins /\
  out_clusters ep' = out_clusters ep /\
  forall c cl, in_clusters ep !! c = Some cl -> in_clusters ep' !! c = Some cl.
Proof.
  revert ep. induction ins as [|i ins IH]; intros ep; simpl.
  - split; [set_solver|]. split; [reflexivity | auto].
  - destruct (IH (add_input_cluster i ep)) as (Hdom & Hout & Hkeep).
    unfold add_input_cluster in *.
    destruct (in_clusters ep !! i) as [x|] eqn:Hi.
    + split; [|split; [exact Hout | exact Hkeep]].
      rewrite Hdom. apply elem_of_dom_2 in Hi. set_solver.
    + simpl in *. split; [|split; [exact Hout|]].
      * rewrite Hdom, dom_insert_L. set_solver.
      * intros c cl Hc. apply Hkeep. rewrite lookup_insert_ne; [exact Hc|].
        intros ->. congruence.
Qed.

Lemma add_output_clusters_spec (outs : list Z) (ep : Endpoint) :
  let ep' := foldl (fun e c => add_output_cluster c e) ep outs in
  dom (out_clusters ep') = dom (out_clusters ep) ∪ list_to_set outs /\
  in_clusters ep' = in_clusters ep.
Proof.
  revert ep. induction outs as [|o outs IH]; intros ep; simpl.
  - split; [set_solver | reflexivity].
  - destruct (IH (add_output_cluster o ep)) as (Hdom & Hin).
    unfold add_output_cluster in *.
    destruct (out_clusters ep !! o) as [x|] eqn:Ho.
    + split; [|exact Hin]. rewrite Hdom. apply elem_of_dom_2 in Ho. set_solver.
    + simpl in *. split; [|exact Hin]. rewrite Hdom, dom_insert_L. set_solver.
Qed.

(** X4. When the gate lets a new identity through, [create_device] returns
    the device it has registered under the identity and changes nothing
    else but the event log, which gets exactly one [device_initialized].
    The device is marked ENDPOINTS_INIT and to be skipped by the
    configuration. Its endpoint 242 has the green power cluster, with an
    empty cache, as its only cluster. Its endpoint 1 has the Basic cluster
    labelled "GreenPower" (0x0004) and with the name of the type (0x0005),
    next to the input and output clusters of the type; a type that is
    absent or not in the table gives the name "GreenPowerDevice" and no
    further cluster. *)
Theorem create_device_result (self : GreenPowerProxy) (ieee : bytes)
    (type : option Z) (remoteCommissioning : bool) (now : Q) :
  devices (application self) !! ieee = None ->
  joining_refused self remoteCommissioning now = Ok false ->
  let after := snd (create_device ieee type remoteCommissioning now self) in
  exists dev,
    create_device ieee type remoteCommissioning now self
    = (Ok (Some dev), after)
    /\ devices (application after)
       = <[ieee := dev]> (devices (application self))
    /\ self_cluster after = self_cluster self
    /\ _send_sequence (application after) = _send_sequence (application self)
    /\ events (application after)
       = events (application self) ++ [device_initialized ieee]
    /\ status dev = Device_ENDPOINTS_INIT
    /\ _skip_configuration dev = true
    /\ endpoints dev !! endpoint_id = Some proxy_side_endpoint
    /\ exists ep1 name ins outs,
         device_profile type = (name, ins, outs) /\
         endpoints dev !! 1 = Some ep1 /\
         in_clusters ep1 !! Basic_cluster_id = Some (basic_labelled name) /\
         dom (in_clusters ep1) = {[ Basic_cluster_id ]} ∪ list_to_set ins /\
         dom (out_clusters ep1) = list_to_set outs.
Proof.
  intros Hnew Hgate after. unfold after.
  rewrite (create_device_exact _ _ _ _ _ Hnew Hgate). cbn [snd].
  exists (proxy_device type).
  split; [reflexivity|]. split; [reflexivity|]. split; [reflexivity|].
  split; [reflexivity|]. split; [reflexivity|]. split; [reflexivity|].
  split; [reflexivity|]. split.
  - unfold proxy_device. cbn [endpoints]. apply lookup_insert_eq.
  - destruct (device_profile type) as [[name ins] outs] eqn:Hprofile.
    exists (primary_endpoint type), name, ins, outs.
    split; [reflexivity|]. split.
    { unfold proxy_device. cbn [endpoints].
      rewrite lookup_insert_ne by discriminate. apply lookup_insert_eq. }
    unfold primary_endpoint. rewrite Hprofile.
    set (base := mkEndpoint Endpoint_ZDO_INIT (Some zha_PROFILE_ID)
                   (Some GREEN_POWER)
                   {[ Basic_cluster_id := basic_labelled name ]} ∅).
    destruct (add_input_clusters_spec ins base) as (Hdi & Hoi & Hkeep).
    destruct (add_output_clusters_spec outs
                (foldl (fun e c => add_input_cluster c e) base ins))
      as (Hdo & Hio).
    cbv zeta in *. rewrite Hio, Hdo, Hoi, Hdi.
    split; [apply Hkeep; apply lookup_singleton_eq|].
    split.
    + subst base. cbn [in_clusters]. now rewrite dom_singleton_L.
    + subst base. cbn [out_clusters]. rewrite dom_empty_L. set_solver.
Qed.

Lemma create_device_result_witness :
  exists dev,
    create_device sample_ieee (Some 0x99) true (inject_Z 5) empty_proxy
    = (Ok (Some dev),
       snd (create_device sample_ieee (Some 0x99) true (inject_Z 5)
              empty_proxy)) /\
    status dev = Device_ENDPOINTS_INIT /\
    endpoints dev !! endpoint_id = Some proxy_side_endpoint.
Proof.
  destruct (create_device_result empty_proxy sample_ieee (Some 0x99) true
              (inject_Z 5) eq_refl eq_refl)
    as (dev & Hrun & _ & _ & _ & _ & Hstatus & _ & H242 & _).
  exists dev. split; [exact Hrun|]. split; [exact Hstatus|exact H242].
Defined.

Lemma create_device_known self ieee dev type remoteCommissioning now :
  devices (application self) !! ieee = Some dev ->
  create_device ieee type remoteCommissioning now self = (Ok (Some dev), self).
Proof. intros Hdev. unfold create_device, bind, get. now rewrite Hdev. Qed.

(** X5. A commissioning frame that arrives twice is handled once: when the
    first delivery has created the device, a second delivery of the same
    frame, at any later clock reading and whatever has become of the
    window, leaves the store exactly as the first delivery left it. *)
Theorem commissioning_frame_twice (self : GreenPowerProxy) (data : bytes)
    (type : Z) (now1 now2 : Q) :
  data !! 0%nat = Some 12 -> data !! 5%nat = Some 224 ->
  data !! 6%nat = Some type ->
  devices (application self) !! (Py.slice data 1 5 ++ Py.slice data 1 5)
  = None ->
  window_open self now1 ->
  handle_messages [([data], now1); ([data], now2)] self
  = handle_messages [([data], now1)] self
  /\ handle_messages [([data], now1)] self
     = commissioned_with self (Py.slice data 1 5 ++ Py.slice data 1 5)
                         (Some type).
Proof.
  intros H0 H5 H6 Hnew Hopen.
  set (ieee := Py.slice data 1 5 ++ Py.slice data 1 5) in *.
  assert (Hfirst : snd (handle_message [data] now1 self)
                   = commissioned_with self ieee (Some type)).
  { rewrite (handle_message_commissioning _ _ data type H0 H5 H6).
    fold ieee. unfold bind.
    rewrite (create_device_exact _ _ _ _ _ Hnew
               (joining_refused_open _ _ _ (or_intror Hopen))).
    reflexivity. }
  cbn [handle_messages]. rewrite Hfirst. split; [|reflexivity].
  rewrite (handle_message_commissioning _ _ data type H0 H5 H6).
  fold ieee.
  assert (Hknown : devices (application
                     (commissioned_with self ieee (Some type))) !! ieee
                   = Some (proxy_device (Some type)))
    by apply lookup_insert_eq.
  rewrite (bind_Ok _ _ _ _ _
             (create_device_known _ _ _ (Some type) false now2 Hknown)).
  reflexivity.
Qed.

Lemma commissioning_frame_twice_witness :
  handle_messages [([[12; 1; 2; 3; 4; 224; 2]], inject_Z 1700000059);
                   ([[12; 1; 2; 3; 4; 224; 2]], inject_Z 1700000099)]
                  (window_until 1700000060)
  = handle_messages [([[12; 1; 2; 3; 4; 224; 2]], inject_Z 1700000059)]
                    (window_until 1700000060).
Proof.
  apply (commissioning_frame_twice (window_until 1700000060)
           [12; 1; 2; 3; 4; 224; 2] 2 (inject_Z 1700000059)
           (inject_Z 1700000099)); try reflexivity.
  exists 1700000060. split; [reflexivity|]. vm_compute. discriminate.
Defined.

(** ** permit and create_device together *)

(** X6. After [permit(d)] at the clock reading t0, whether or not the
    announcement could be delivered, a commissioning for a new identity at
    time t1 is accepted exactly when t1 <= int(t0 + d), the sum being the
    double sum: it creates the device when t1 is not after that whole
    second and is refused, leaving the store alone, when t1 is after it.
    Where the double sum is exact and the clock is not negative, the
    window therefore stays open for more than d - 1 and for at most d
    seconds. *)
Theorem permit_then_create_device (self : GreenPowerProxy) (time_s : Z)
    (t0 : spec_float) (deliver : BroadcastRequest -> result Z)
    (ieee : bytes) (type : option Z) (t1 : Q) (expiry : Z) :
  0 <= time_s <= 254 ->
  float_int (float_add t0 (float_of_int time_s)) = Ok expiry ->
  devices (application self) !! ieee = None ->
  let opened := snd (permit time_s t0 deliver self) in
  (Qle t1 (inject_Z expiry) ->
   create_device ieee type false t1 opened
   = (Ok (Some (proxy_device type)), commissioned_with opened ieee type)) /\
  (Qlt (inject_Z expiry) t1 ->
   create_device ieee type false t1 opened = (Ok None, opened)) /\
  (Qeq (float_value (float_add t0 (float_of_int time_s)))
       (Qplus (float_value t0) (inject_Z time_s)) ->
   Qle (inject_Z 0) (float_value t0) ->
   Qlt (Qplus (float_value t0) (inject_Z (time_s - 1))) (inject_Z expiry) /\
   Qle (inject_Z expiry) (Qplus (float_value t0) (inject_Z time_s))).
Proof.
  intros Hin Hsum Hnew opened.
  assert (Hopened : opened = permitted self time_s expiry).
  { unfold opened. now rewrite (permit_accepted _ _ _ deliver _ Hin Hsum). }
  assert (Hexp : _attr_cache (self_cluster opened) !! 0x9997
                 = Some (VInt expiry)).
  { rewrite Hopened. simpl. apply lookup_insert_eq. }
  assert (Hnew' : devices (application opened) !! ieee = None)
    by (rewrite Hopened; exact Hnew).
  split; [|split].
  - intros Hle. apply create_device_exact; [exact Hnew'|].
    apply joining_refused_open. right. exists expiry. split; assumption.
  - intros Hlt. unfold create_device, bind, get. rewrite Hnew'.
    unfold lift, joining_refused. rewrite Hexp. simpl.
    replace (Qltb (inject_Z expiry) t1) with true; [reflexivity|].
    symmetry. unfold Qltb. apply negb_true_iff.
    destruct (Qle_bool t1 (inject_Z expiry)) eqn:E; [|reflexivity].
    apply Qle_bool_iff in E. exfalso. exact (Qlt_not_le _ _ Hlt E).
  - intros Hexact Ht0.
    pose proof (exact_sum_expiry _ _ _ Hsum Hexact) as Hvalue.
    assert (Hnonneg : Qle (inject_Z 0)
                          (Qplus (float_value t0) (inject_Z time_s))).
    { apply Qle_trans with (y := float_value t0); [exact Ht0|].
      rewrite <- (Qplus_0_r (float_value t0)) at 1.
      apply Qplus_le_r. change 0%Q with (inject_Z 0).
      rewrite <- Zle_Qle. lia. }
    destruct (py_int_nonneg _ Hnonneg) as [Hfloor Hceil].
    rewrite <- Hvalue in Hfloor, Hceil.
    split; [|exact Hfloor].
    apply (Qplus_lt_l _ _ (inject_Z 1)).
    rewrite <- Qplus_assoc, <- !inject_Z_plus.
    replace (time_s - 1 + 1) with time_s by lia. exact Hceil.
Qed.

Lemma permit_then_create_device_witness :
  create_device sample_ieee (Some 2) false (inject_Z 1700000060)
    (snd (permit 60 half_past deliver_fails empty_proxy))
  = (Ok (Some (proxy_device (Some 2))),
     commissioned_with (snd (permit 60 half_past deliver_fails empty_proxy))
                       sample_ieee (Some 2)) /\
  create_device sample_ieee (Some 2) false (Qmake 3400000121 2)
    (snd (permit 60 half_past deliver_fails empty_proxy))
  = (Ok None, snd (permit 60 half_past deliver_fails empty_proxy)) /\
  create_device sample_ieee (Some 2) false (inject_Z 2147483708)
    (snd (permit 60 before_2038 deliver_fails empty_proxy))
  = (Ok (Some (proxy_device (Some 2))),
     commissioned_with (snd (permit 60 before_2038 deliver_fails empty_proxy))
                       sample_ieee (Some 2)).
Proof.
  split; [|split].
  - apply (permit_then_create_device empty_proxy 60 half_past deliver_fails
             sample_ieee (Some 2) (inject_Z 1700000060) 1700000060);
      [lia | reflexivity | reflexivity | vm_compute; discriminate].
  - apply (permit_then_create_device empty_proxy 60 half_past deliver_fails
             sample_ieee (Some 2) (Qmake 3400000121 2) 1700000060);
      [lia | reflexivity | reflexivity | vm_compute; reflexivity].
  - apply (permit_then_create_device empty_proxy 60 before_2038 deliver_fails
             sample_ieee (Some 2) (inject_Z 2147483708) 2147483708);
      [lia | reflexivity | reflexivity | vm_compute; discriminate].
Defined.

(** ** handle_message: all a frame can do *)

(** What a commissioning frame leaves behind. *)
Lemma commissioning_outcome (self : GreenPowerProxy) (now : Q) (data : bytes)
    (type : Z) :
  data !! 0%nat = Some 12 -> data !! 5%nat = Some 224 ->
  data !! 6%nat = Some type ->
  let ieee := Py.slice data 1 5 ++ Py.slice data 1 5 in
  snd (handle_message [data] now self) = self \/
  snd (handle_message [data] now self)
  = commissioned_with self ieee (Some type).
Proof.
  intros H0 H5 H6 ieee.
  rewrite (handle_message_commissioning _ _ data type H0 H5 H6).
  fold ieee. unfold bind.
  destruct (devices (application self) !! ieee) as [dev|] eqn:Hdev.
  - left. now rewrite (create_device_known _ _ _ _ _ _ Hdev).
  - destruct (joining_refused self false now) as [[|]|e] eqn:Hgate.
    + left.
      destruct (create_device_refused self ieee (Some type) false now
                  _ Hdev Hgate) as [Hsame _]; [discriminate|].
      destruct (create_device ieee (Some type) false now self)
        as [[r|e] s']; exact Hsame.
    + right. now rewrite (create_device_exact _ _ _ _ _ Hdev Hgate).
    + left.
      destruct (create_device_refused self ieee (Some type) false now
                  _ Hdev Hgate) as [Hsame _]; [discriminate|].
      destruct (create_device ieee (Some type) false now self)
        as [[r|e'] s']; exact Hsame.
Qed.

Lemma handle_message_outcome (data : bytes) (now : Q) (self : GreenPowerProxy) :
  snd (handle_message [data] now self) = self \/
  exists type,
    data !! 0%nat = Some 12 /\ data !! 5%nat = Some 224 /\
    data !! 6%nat = Some type /\
    snd (handle_message [data] now self)
    = commissioned_with self (Py.slice data 1 5 ++ Py.slice data 1 5)
                        (Some type).
Proof.
  destruct (decide (data !! 0%nat = Some 12 /\ data !! 5%nat = Some 224
                    /\ is_Some (data !! 6%nat)))
    as [(H0 & H5 & [type H6])|Hno].
  - destruct (commissioning_outcome self now data type H0 H5 H6) as [H|H];
      [now left | right; eauto].
  - left. destruct (data !! 10%nat) as [command_id|] eqn:H10.
    + rewrite (handle_message_data _ _ _ command_id);
        [apply handle_notification_counter_read_only | | exact H10].
      apply not_commissioning_shape.
      * apply lookup_lt_Some in H10. lia.
      * intros [H0 H5]. apply Hno. split; [exact H0|]. split; [exact H5|].
        unfold bytes in *. apply lookup_lt_is_Some_2.
        apply lookup_lt_Some in H10. lia.
    + rewrite handle_message_short; [reflexivity | |].
      * unfold bytes in *. apply lookup_ge_None in H10. lia.
      * intros (H0 & H5 & Hlen). apply Hno.
        split; [exact H0|]. split; [exact H5|].
        unfold bytes in *. apply lookup_lt_is_Some_2. lia.
Qed.

(** X7. Whatever the frame, [handle_message] does at most one thing to the
    store: it registers the device of a commissioning frame. It never
    changes the handling cluster's own cache or the sequence number, and
    apart from that registration (with its one [device_initialized]) it
    leaves every device, cluster, cached counter and the event log as they
    were: in particular no frame received this way is ever redispatched as
    a cluster command. *)
Theorem handle_message_effects (args : list bytes) (now : Q)
    (self : GreenPowerProxy) :
  let after := snd (handle_message args now self) in
  self_cluster after = self_cluster self /\
  _send_sequence (application after) = _send_sequence (application self) /\
  (after = self \/
   exists data rest type,
     args = data :: rest /\
     data !! 0%nat = Some 12 /\ data !! 5%nat = Some 224 /\
     data !! 6%nat = Some type /\
     after = commissioned_with self
               (Py.slice data 1 5 ++ Py.slice data 1 5) (Some type)).
Proof.
  intros after. unfold after.
  pose proof (handle_message_first self now args) as Hfirst.
  destruct args as [|data rest].
  - rewrite Hfirst. split; [reflexivity|]. split; [reflexivity|]. now left.
  - rewrite Hfirst.
    destruct (handle_message_outcome data now self)
      as [-> | (type & H0 & H5 & H6 & ->)].
    + split; [reflexivity|]. split; [reflexivity|]. now left.
    + split; [reflexivity|]. split; [reflexivity|]. right.
      exists data, rest, type. auto.
Qed.

Lemma handle_message_keeps_handler (args : list bytes) (now : Q)
    (self : GreenPowerProxy) :
  self_cluster (snd (handle_message args now self)) = self_cluster self /\
  _send_sequence (application (snd (handle_message args now self)))
  = _send_sequence (application self).
Proof.
  pose proof (handle_message_first self now args) as Hfirst.
  destruct args as [|data rest]; rewrite Hfirst; [now split|].
  destruct (handle_message_outcome data now self)
    as [-> | (type & _ & _ & _ & ->)]; now split.
Qed.

(** X8. Through any sequence of frames, every device that is registered
    stays registered exactly as it is (endpoints, clusters, cached key and
    counter), and the handling cluster's own cache, which holds the
    commissioning window, and the sequence number stay what they were:
    frames can only add devices. *)
Theorem frames_only_add_devices (frames : list (list bytes * Q))
    (self : GreenPowerProxy) :
  let after := handle_messages frames self in
  (forall ieee dev,
     devices (application self) !! ieee = Some dev ->
     devices (application after) !! ieee = Some dev /\
     stored_key after ieee = stored_key self ieee /\
     stored_counter after ieee = stored_counter self ieee) /\
  self_cluster after = self_cluster self /\
  _send_sequence (application after) = _send_sequence (application self).
Proof.
  cbv zeta. split.
  - intros ieee dev Hdev.
    pose proof (handle_messages_keep_device frames _ _ _ Hdev) as Hkept.
    split; [exact Hkept|].
    unfold stored_key, stored_counter, security_cluster.
    now rewrite Hkept, Hdev.
  - revert self. induction frames as [|[args now] frames IH]; intros self.
    + now split.
    + cbn [handle_messages].
      destruct (IH (snd (handle_message args now self))) as [-> ->].
      apply handle_message_keeps_handler.
Qed.

Lemma frames_only_add_devices_witness :
  devices (application
     (handle_messages
        [([[12; 9; 9; 9; 9; 224; 2]], inject_Z 5);
         ([[0x8c; 0x30; 1; 2; 3; 4; 11; 0; 0; 0; 0x21; 0x55; 0x08; 0x79; 0x2c]],
          inject_Z 6)] keyed)) !! sample_ieee
  = devices (application keyed) !! sample_ieee.
Proof.
  destruct (devices (application keyed) !! sample_ieee) as [dev|] eqn:Hdev;
    [|vm_compute in Hdev; discriminate Hdev].
  apply (proj1 (frames_only_add_devices _ keyed) sample_ieee dev Hdev).
Defined.

(** ** setKey: integer keys, composition, no validation *)

(** X9. [setKey] with an integer key stores its 16-byte big-endian
    representation, which reads back as the integer and has a length AES
    accepts; an integer that is negative or does not fit 128 bits raises
    [OverflowError] and leaves the cache as it was. *)
Theorem setKey_integer (self : Cluster) (z : Z) :
  (0 <= z < 2 ^ 128 ->
   exists key : bytes,
     setKey (Some (KeyInt z)) self
     = (Ok tt, mkCluster (<[0x9998 := VBytes key]> (_attr_cache self))) /\
     length key = 16%nat /\ all_bytes key /\
     Py.from_bytes_big key = z /\ AES.valid_key_length key = true) /\
  (~ 0 <= z < 2 ^ 128 ->
   setKey (Some (KeyInt z)) self = (Raise OverflowError, self)).
Proof.
  split.
  - intros Hz. exists (rev (Py.le_digits 16 z)).
    assert (Hconv : Py.to_bytes_big z 16 = Ok (rev (Py.le_digits 16 z))).
    { unfold Py.to_bytes_big. now rewrite to_bytes_little_Ok. }
    split; [|split; [|split; [|split]]].
    + unfold setKey. rewrite Hconv, bind_lift. reflexivity.
    + now rewrite length_rev, le_digits_length.
    + unfold all_bytes. apply Forall_rev. apply le_digits_all_bytes.
    + unfold Py.from_bytes_big. rewrite rev_involutive.
      now apply from_bytes_le_digits.
    + unfold AES.valid_key_length.
      now rewrite length_rev, le_digits_length.
  - intros Hz. unfold setKey, Py.to_bytes_big.
    rewrite to_bytes_little_overflow by exact Hz. reflexivity.
Qed.

Lemma setKey_integer_witness :
  (exists key : bytes,
     setKey (Some (KeyInt 0x000102030405060708090a0b0c0d0e0f)) new_cluster
     = (Ok tt, mkCluster (<[0x9998 := VBytes key]> (_attr_cache new_cluster)))
     /\ length key = 16%nat /\ all_bytes key /\
     Py.from_bytes_big key = 0x000102030405060708090a0b0c0d0e0f /\
     AES.valid_key_length key = true) /\
  setKey (Some (KeyInt (2 ^ 128))) new_cluster
  = (Raise OverflowError, new_cluster).
Proof.
  split.
  - apply (proj1 (setKey_integer new_cluster
                    0x000102030405060708090a0b0c0d0e0f)). lia.
  - apply (proj2 (setKey_integer new_cluster (2 ^ 128))). lia.
Defined.

(** X10. [setKey] calls compose as dict updates do: a second key replaces
    the first, so that only the last call counts; and on a cluster without
    a key, provisioning a key and clearing it again gives back the cache
    the cluster started with. *)
Theorem setKey_composes (self : Cluster) (k1 k2 : bytes) :
  bind (setKey (Some (KeyBytes k1))) (fun _ => setKey (Some (KeyBytes k2)))
       self
  = setKey (Some (KeyBytes k2)) self /\
  (_attr_cache self !! 0x9998 = None ->
   bind (setKey (Some (KeyBytes k1))) (fun _ => setKey None) self
   = (Ok tt, self)).
Proof.
  split.
  - cbv beta iota delta [bind setKey ret _update_attribute _attr_cache].
    now rewrite insert_insert_eq.
  - intros Hnone. destruct self as [cache]. cbn [_attr_cache] in Hnone.
    cbv beta iota delta [bind setKey ret _update_attribute _attr_cache
                         delitem].
    rewrite lookup_insert_eq, delete_insert_eq.
    now rewrite delete_id.
Qed.

Lemma setKey_composes_witness :
  bind (setKey (Some (KeyBytes (hexkey 16)))) (fun _ => setKey None)
       new_cluster
  = (Ok tt, new_cluster).
Proof.
  apply (proj2 (setKey_composes new_cluster (hexkey 16) [])). reflexivity.
Defined.

(** ** calcul_mic with a key *)

Lemma calcul_mic_keyed self ieee cl key header c payload payload_length :
  security_cluster self ieee = Some cl ->
  _attr_cache cl !! 0x9998 = Some key ->
  0 <= header < 65536 -> 0 <= c < 2 ^ 32 ->
  calcul_mic ieee header (Some c) payload payload_length self
  = (match ccm_mic key (take 4 ieee) (Py.le_digits 2 header)
                   (Py.le_digits 4 c) payload with
     | Ok m => Ok (Some m)
     | Raise e => Raise e
     end, self).
Proof.
  intros Hsec Hkey Hh Hc.
  destruct (security_cluster_Some _ _ _ Hsec) as (dev & ep & Hdev & Hep & Hcl).
  unfold calcul_mic. unfold bind at 1. unfold get at 1. rewrite Hdev.
  unfold getitem. rewrite Hep, bind_lift, Hcl, bind_lift, Hkey.
  rewrite (to_bytes_little_Ok header 2) by (simpl; lia).
  rewrite bind_lift.
  rewrite (to_bytes_little_Ok c 4) by (simpl; lia).
  rewrite bind_lift, bind_lift.
  destruct (ccm_mic _ _ _ _ _); reflexivity.
Qed.

Lemma block_B1_Ok (header src_id counter payload : bytes) :
  Z.of_nat (length header + length src_id + length counter + length payload)
  < 65536 ->
  exists b, block_B1 header src_id counter payload = Ok b /\
            (14 <= length header + length src_id + length counter
                   + length payload ->
             length b = 2 + (length header + length src_id + length counter
                             + length payload))%nat.
Proof.
  intros Hlen. unfold block_B1, Py.to_bytes_big.
  rewrite to_bytes_little_Ok.
  - eexists. split; [reflexivity|]. intros Hlong.
    rewrite !length_app, length_rev, le_digits_length.
    unfold Py.zeros. rewrite length_replicate.
    rewrite ?length_app, ?length_rev, ?le_digits_length. lia.
  - change (256 ^ Z.of_nat 2) with 65536. rewrite !length_app. lia.
Qed.

(** X11. [setKey] does not look at the length of a [bytes] key. A key
    whose length is not 16, 24 or 32 is stored like any other, and from
    then on no MIC can be computed for the device: [calcul_mic] raises
    [ValueError] for every frame, so every data frame with a recognized
    command id is lost with that error and the store is not touched. *)
Theorem key_of_wrong_length (self : GreenPowerProxy) (ieee : bytes)
    (cl : Cluster) (key : bytes) :
  AES.valid_key_length key = false ->
  setKey (Some (KeyBytes key)) cl
  = (Ok tt, mkCluster (<[0x9998 := VBytes key]> (_attr_cache cl))) /\
  (security_cluster self ieee = Some cl ->
   _attr_cache cl !! 0x9998 = Some (VBytes key) ->
   forall header c command_id payload payload_length mic e,
     0 <= header < 65536 -> 0 <= c < 2 ^ 32 ->
     command command_id = Some e ->
     0 <= payload < 256 ^ Z.of_nat payload_length ->
     Z.of_nat payload_length < 65000 ->
     handle_notification ieee header (Some c) command_id payload
                         payload_length mic self
     = (Raise ValueError, self)).
Proof.
  intros Hbad. split; [reflexivity|].
  intros Hsec Hkey header c command_id payload payload_length mic e
         Hh Hc Hcmd Hp Hlen.
  destruct (security_cluster_Some _ _ _ Hsec) as (dev & ep & Hdev & _).
  destruct (command_id_to_bytes _ _ Hcmd) as [cb Hcb].
  assert (Hcbl : length cb = 1%nat).
  { unfold Py.to_bytes_little in Hcb.
    destruct (_ || _); [discriminate|]. injection Hcb as <-. reflexivity. }
  unfold handle_notification. unfold bind at 1. unfold get at 1.
  rewrite Hdev, Hcmd, Hcb, bind_lift.
  rewrite (to_bytes_little_Ok payload payload_length Hp), bind_lift.
  unfold bind at 1.
  rewrite (calcul_mic_keyed _ _ _ _ _ _ _ _ Hsec Hkey Hh Hc).
  unfold ccm_mic.
  destruct (block_B1_Ok (Py.le_digits 2 header) (take 4 ieee)
              (Py.le_digits 4 c) (cb ++ Py.le_digits payload_length payload))
    as (b & -> & _).
  { rewrite !le_digits_length, length_app, le_digits_length, Hcbl,
      length_take. lia. }
  unfold AES.cbc_encrypt_block. rewrite Hbad. reflexivity.
Qed.

Lemma key_of_wrong_length_witness :
  handle_notification sample_ieee 0x308c (Some 11) 0x21 0 0 0
    (on_security_cluster sample_ieee
       (fun cl => snd (setKey (Some (KeyBytes [1; 2; 3])) cl)) commissioned)
  = (Raise ValueError,
     on_security_cluster sample_ieee
       (fun cl => snd (setKey (Some (KeyBytes [1; 2; 3])) cl)) commissioned).
Proof.
  apply (proj2 (key_of_wrong_length _ sample_ieee
                  (mkCluster (<[0x9998 := VBytes [1; 2; 3]]> ∅)) [1; 2; 3]
                  eq_refl))
    with (e := entry "On" cc [] (Some 0x0006) (Some 0x0001) []);
    try reflexivity; try lia.
Defined.

(** X12. With a key of a valid length, a frame that carries four or more
    payload bytes can never be authenticated: the block [B1] built from it
    is longer than the 16 bytes [AES.new] accepts as an IV, [calcul_mic]
    raises [ValueError], and the frame is lost whatever its MIC. *)
Theorem long_payload_not_authenticated (self : GreenPowerProxy)
    (ieee : bytes) (cl : Cluster) (key : bytes) (e : TranslationEntry)
    (header c command_id payload : Z) (payload_length : nat) (mic : Z) :
  security_cluster self ieee = Some cl ->
  _attr_cache cl !! 0x9998 = Some (VBytes key) ->
  AES.valid_key_length key = true ->
  (4 <= length ieee)%nat ->
  command command_id = Some e ->
  0 <= header < 65536 -> 0 <= c < 2 ^ 32 ->
  0 <= payload < 256 ^ Z.of_nat payload_length ->
  4 <= Z.of_nat payload_length < 65000 ->
  handle_notification ieee header (Some c) command_id payload payload_length
                      mic self
  = (Raise ValueError, self).
Proof.
  intros Hsec Hkey Hvalid Hieee Hcmd Hh Hc Hp Hlen.
  destruct (security_cluster_Some _ _ _ Hsec) as (dev & ep & Hdev & _).
  destruct (command_id_to_bytes _ _ Hcmd) as [cb Hcb].
  assert (Hcbl : length cb = 1%nat).
  { unfold Py.to_bytes_little in Hcb.
    destruct (_ || _); [discriminate|]. injection Hcb as <-. reflexivity. }
  assert (Hsrc : length (take 4 ieee) = 4%nat)
    by (rewrite length_take; lia).
  unfold handle_notification. unfold bind at 1. unfold get at 1.
  rewrite Hdev, Hcmd, Hcb, bind_lift.
  rewrite (to_bytes_little_Ok payload payload_length Hp), bind_lift.
  unfold bind at 1.
  rewrite (calcul_mic_keyed _ _ _ _ _ _ _ _ Hsec Hkey Hh Hc).
  unfold ccm_mic.
  destruct (block_B1_Ok (Py.le_digits 2 header) (take 4 ieee)
              (Py.le_digits 4 c) (cb ++ Py.le_digits payload_length payload))
    as (b & -> & Hb).
  { rewrite !le_digits_length, length_app, le_digits_length, Hcbl, Hsrc. lia. }
  rewrite !le_digits_length, length_app, le_digits_length, Hcbl, Hsrc in Hb.
  unfold AES.cbc_encrypt_block. rewrite Hvalid. cbn [negb].
  assert (HB0 : length (block_B0 (take 4 ieee) (Py.le_digits 4 c)) = 16%nat).
  { unfold block_B0, nonce, Py.zeros.
    repeat rewrite ?length_app, ?length_replicate, ?Hsrc, ?le_digits_length.
    cbn [length]. lia. }
  rewrite HB0. cbn [Nat.eqb negb].
  replace (length (Py.zeros 16) =? 16)%nat with true by reflexivity.
  cbn [negb].
  replace (length b =? 16)%nat with false; [reflexivity|].
  symmetry. apply Nat.eqb_neq. lia.
Qed.

Lemma long_payload_not_authenticated_witness :
  handle_notification sample_ieee 0x308c (Some 11) 0x4A 0x00020001 4 0 keyed
  = (Raise ValueError, keyed).
Proof.
  apply (long_payload_not_authenticated keyed sample_ieee
           (default new_cluster (security_cluster keyed sample_ieee))
           (hexkey 16)
           (entry "Move Color" cc [uint16_t; uint16_t] (Some 0x0300)
                  (Some 0x0008) []));
    try (vm_compute; reflexivity); try lia.
  simpl. lia.
Defined.

(** X13. For a known device with the green power cluster, the MIC check
    is skipped exactly when no key is cached: [calcul_mic] returns [None]
    if and only if the cluster holds nothing under 0x9998. With a key and
    no counter in the call it raises [AttributeError]. *)
Theorem calcul_mic_None_iff (self : GreenPowerProxy) (ieee : bytes)
    (cl : Cluster) (header : Z) (counter : option Z) (payload : bytes)
    (payload_length : nat) :
  security_cluster self ieee = Some cl ->
  (fst (calcul_mic ieee header counter payload payload_length self) = Ok None
   <-> _attr_cache cl !! 0x9998 = None) /\
  (is_Some (_attr_cache cl !! 0x9998) -> 0 <= header < 65536 ->
   calcul_mic ieee header None payload payload_length self
   = (Raise AttributeError, self)).
Proof.
  intros Hsec.
  destruct (security_cluster_Some _ _ _ Hsec) as (dev & ep & Hdev & Hep & Hcl).
  split; [split|].
  - destruct (_attr_cache cl !! 0x9998) as [key|] eqn:Hkey; [|reflexivity].
    unfold calcul_mic. unfold bind at 1. unfold get at 1. rewrite Hdev.
    unfold getitem. rewrite Hep, bind_lift, Hcl, bind_lift, Hkey.
    unfold bind, lift, ret, raise.
    destruct (Py.to_bytes_little header 2); [|discriminate].
    destruct counter as [c|]; [|discriminate].
    destruct (Py.to_bytes_little c 4); [|discriminate].
    destruct (ccm_mic _ _ _ _ _); discriminate.
  - intros Hkey. now rewrite (calcul_mic_no_key _ _ _ _ _ _ _ Hsec Hkey).
  - intros [key Hkey] Hh.
    unfold calcul_mic. unfold bind at 1. unfold get at 1. rewrite Hdev.
    unfold getitem. rewrite Hep, bind_lift, Hcl, bind_lift, Hkey.
    rewrite (to_bytes_little_Ok header 2) by (simpl; lia).
    rewrite bind_lift. reflexivity.
Qed.

Lemma calcul_mic_None_iff_witness :
  calcul_mic sample_ieee 0x308c None [0x21] 1 keyed
  = (Raise AttributeError, keyed).
Proof.
  apply (proj2 (calcul_mic_None_iff keyed sample_ieee
                  (default new_cluster (security_cluster keyed sample_ieee))
                  0x308c None [0x21] 1 ltac:(vm_compute; reflexivity))).
  - vm_compute. eauto.
  - lia.
Defined.

(** ** handle_notification without a counter: the redispatch *)

Lemma assoc_Some_In_pair {V} (k : Z) (l : list (Z * V)) (v : V) :
  assoc k l = Some v -> In (k, v) l.
Proof.
  induction l as [|[k' v'] l IH]; simpl; [discriminate|].
  destruct (k =? k') eqn:Hk.
  - intros [= ->]. left. f_equal. symmetry. now apply Z.eqb_eq.
  - intros H. right. now apply IH.
Qed.

(** Every entry of the translation table is a "CLUSTER_COMMAND" and names
    a target command exactly when it names a target cluster. *)
Lemma command_entry_shape (command_id : Z) (e : TranslationEntry) :
  command command_id = Some e ->
  String.eqb (entry_type e) "CLUSTER_COMMAND" = true /\
  (is_Some (entry_cluster_id e) <-> is_Some (entry_zcl_command_id e)).
Proof.
  intros H. apply assoc_Some_In_pair in H.
  assert (Hall : forallb
            (fun p : Z * TranslationEntry =>
               String.eqb (entry_type (snd p)) "CLUSTER_COMMAND"
               && Bool.eqb
                    (match entry_cluster_id (snd p) with
                     | Some _ => true | None => false end)
                    (match entry_zcl_command_id (snd p) with
                     | Some _ => true | None => false end))
            command_table = true) by reflexivity.
  rewrite forallb_forall in Hall. specialize (Hall _ H). simpl in Hall.
  apply andb_true_iff in Hall as [Htype Hboth]. split; [exact Htype|].
  apply Bool.eqb_prop in Hboth.
  destruct (entry_cluster_id e), (entry_zcl_command_id e);
    try discriminate; split; intros [x Hx]; try discriminate; eauto.
Qed.

(** X14. Called without a counter, for a known device without a key,
    [handle_notification] translates the frame in one step: for a command
    with a target cluster it takes the next sequence number and hands
    endpoint 1 one cluster command, addressed to the target cluster and
    command of the entry, whose arguments are the fixed values of the
    entry followed by the parsed payload; when endpoint 1 does not have
    the output cluster yet, the cluster is added and the device announced
    first, and when it has it nothing else changes. A command without a
    target cluster changes nothing. *)
Theorem notification_without_counter (self : GreenPowerProxy) (ieee : bytes)
    (cl : Cluster) (dev : Device) (ep1 : Endpoint) (e : TranslationEntry)
    (header command_id payload : Z) (payload_length : nat) (mic : Z)
    (pb : bytes) (parsed : list (option Z) * bytes) :
  security_cluster self ieee = Some cl ->
  _attr_cache cl !! 0x9998 = None ->
  devices (application self) !! ieee = Some dev ->
  endpoints dev !! 1 = Some ep1 ->
  command command_id = Some e ->
  Py.to_bytes_little payload payload_length = Ok pb ->
  deserialize pb (entry_schema e) = Ok parsed ->
  let outcome := handle_notification ieee header None command_id payload
                                     payload_length mic self in
  (entry_cluster_id e = None -> outcome = (Ok tt, self)) /\
  (forall cid,
     entry_cluster_id e = Some cid ->
     is_Some (entry_zcl_command_id e) /\
     (is_Some (out_clusters ep1 !! cid) ->
      outcome
      = (Ok tt, after_dispatch self (devices (application self))
                  [dispatched_message self ieee e cid (fst parsed)])) /\
     (out_clusters ep1 !! cid = None ->
      outcome
      = (Ok tt, after_dispatch self
                  (<[ieee := set_endpoint 1 (add_output_cluster cid ep1) dev]>
                     (devices (application self)))
                  [device_initialized ieee;
                   dispatched_message self ieee e cid (fst parsed)]))).
Proof.
  intros Hsec Hkey Hdev Hep1 Hcmd Hpb Hparsed outcome.
  destruct (command_entry_shape _ _ Hcmd) as [Htype Hboth].
  destruct (command_id_to_bytes _ _ Hcmd) as [cb Hcb].
  assert (Hrun : outcome
                 = match entry_cluster_id e with
                   | Some cid =>
                       dispatch ieee dev cid (entry_zcl_command_id e)
                                (map Some (entry_value e) ++ fst parsed) self
                   | None => (Ok tt, self)
                   end).
  { unfold outcome, handle_notification.
    unfold bind at 1. unfold get at 1. rewrite Hdev, Hcmd.
    rewrite Hcb, bind_lift, Hpb, bind_lift.
    unfold bind at 1.
    rewrite (calcul_mic_no_key _ _ _ _ _ _ _ Hsec Hkey).
    unfold translate_and_dispatch.
    rewrite Hcmd, bind_lift, Hpb, bind_lift, Hparsed, bind_lift.
    unfold bind at 1. unfold get at 1. unfold getitem. rewrite Hdev.
    rewrite bind_lift. unfold bind at 1. unfold replay_guard, ret at 1.
    destruct (entry_cluster_id e); [|reflexivity].
    now rewrite Htype. }
  rewrite Hrun. split; [now intros ->|].
  intros cid Hcid. rewrite Hcid.
  split; [apply Hboth; rewrite Hcid; eauto|].
  unfold dispatch, getitem. rewrite Hep1, bind_lift.
  split.
  - intros [x Hx]. rewrite Hx. reflexivity.
  - intros Hnone. rewrite Hnone.
    unfold bind, set_device, emit, get_sequence, after_dispatch,
      dispatched_message.
    cbn [application devices events _send_sequence self_cluster].
    now rewrite <- app_assoc.
Qed.

Lemma notification_without_counter_witness :
  handle_notification sample_ieee 0x308c None 0x32 0x4b23 3 0 commissioned
  = (Ok tt,
     after_dispatch commissioned
       (<[sample_ieee :=
            set_endpoint 1
              (add_output_cluster 0x0008 (primary_endpoint (Some 2)))
              sample_device]> (devices (application commissioned)))
       [device_initialized sample_ieee;
        cluster_handle_message sample_ieee 1 0x0008
          (mkZCLHeader 1 (Some 0x0002) false)
          [Some 1; Some 0x23; Some 0x4b]]).
Proof.
  apply (notification_without_counter commissioned sample_ieee new_cluster
           sample_device (primary_endpoint (Some 2))
           (entry "Step Up" cc [uint8_t; Optional uint16_t]
                  (Some 0x0008) (Some 0x0002) [1])
           0x308c 0x32 0x4b23 3 0 [0x23; 0x4b; 0]
           ([Some 0x23; Some 0x4b], []));
    try (vm_compute; reflexivity).
Defined.

(** ** handle_notification without a key *)

(** C3. For a known device whose green power cluster holds no key, no MIC
    is computed: a frame with a recognized command id counts as verified
    whatever MIC it carries, and goes on to the replay comparison. A frame
    whose counter is not above the cached one is dropped there. A frame
    whose counter passes the comparison does not reach the command
    translation's dispatch: [attributes._update_attribute(0x9999, counter)]
    is called on the cache dict and raises [AttributeError], leaving the
    store, cached counter and event log included, as it was. Only a call
    without a counter, which [handle_message] never makes, gets past that
    line and is dispatched to endpoint 1, again whatever the MIC. *)
Theorem handle_notification_without_key (self : GreenPowerProxy)
    (ieee : bytes) (cl : Cluster) (e : TranslationEntry)
    (header command_id payload : Z) (payload_length : nat)
    (pb : bytes) (parsed : list (option Z) * bytes) :
  security_cluster self ieee = Some cl ->
  _attr_cache cl !! 0x9998 = None ->
  command command_id = Some e ->
  Py.to_bytes_little payload payload_length = Ok pb ->
  deserialize pb (entry_schema e) = Ok parsed ->
  (forall counter mic,
     mic_verified self ieee header counter command_id payload payload_length
                  mic) /\
  (forall c mic,
     fresh_counter cl c ->
     handle_notification ieee header (Some c) command_id payload
                         payload_length mic self
     = (Raise AttributeError, self)) /\
  (forall c C mic,
     _attr_cache cl !! 0x9999 = Some (VInt C) ->
     c <= C ->
     handle_notification ieee header (Some c) command_id payload
                         payload_length mic self
     = (Ok tt, self)) /\
  (forall dev ep1 cid mic,
     devices (application self) !! ieee = Some dev ->
     endpoints dev !! 1 = Some ep1 ->
     entry_cluster_id e = Some cid ->
     is_Some (out_clusters ep1 !! cid) ->
     handle_notification ieee header None command_id payload payload_length
                         mic self
     = (Ok tt, after_dispatch self (devices (application self))
                 [dispatched_message self ieee e cid (fst parsed)])).
Proof.
  intros Hsec Hkey Hcmd Hpb Hparsed.
  split; [|split; [|split]].
  - intros counter mic.
    destruct (command_id_to_bytes _ _ Hcmd) as [cb Hcb].
    exists cb, pb, None. split; [exact Hcb|]. split; [exact Hpb|].
    split; [|now left].
    now rewrite (calcul_mic_no_key _ _ _ _ _ _ _ Hsec Hkey).
  - intros c mic Hfresh.
    rewrite (handle_notification_no_key _ _ _ _ _ _ _ _ _ _ Hsec Hkey Hcmd).
    exact (translate_and_dispatch_update_raises _ _ _ _ _ _ _ _ _ _
             Hsec Hcmd Hpb Hparsed Hfresh).
  - intros c C mic Hstored Hle.
    rewrite (handle_notification_no_key _ _ _ _ _ _ _ _ _ _ Hsec Hkey Hcmd).
    exact (translate_and_dispatch_replayed _ _ _ _ _ _ _ _ _ _ _
             Hsec Hcmd Hpb Hparsed Hstored Hle).
  - intros dev ep1 cid mic Hdev Hep1 Hcid [x Hx].
    destruct (command_entry_shape _ _ Hcmd) as [Htype _].
    rewrite (handle_notification_no_key _ _ _ _ _ _ _ _ _ _ Hsec Hkey Hcmd).
    unfold translate_and_dispatch.
    rewrite Hcmd, bind_lift, Hpb, bind_lift, Hparsed, bind_lift.
    unfold bind at 1. unfold get at 1. unfold getitem. rewrite Hdev.
    rewrite bind_lift. unfold bind at 1. unfold replay_guard, ret at 1.
    rewrite Hcid, Htype.
    unfold dispatch, getitem. rewrite Hep1, bind_lift, Hx. reflexivity.
Qed.

(** A device commissioned without a key: an "On" frame with counter 11 and
    an arbitrary MIC stops at line 1646, and nothing is dispatched. *)
Lemma handle_notification_without_key_witness :
  handle_notification sample_ieee 0x308c (Some 11) 0x21 0 0 0xdeadbeef
                      commissioned
  = (Raise AttributeError, commissioned).
Proof.
  destruct (handle_notification_without_key commissioned sample_ieee
              new_cluster (entry "On" cc [] (Some 0x0006) (Some 0x0001) [])
              0x308c 0x21 0 0 [] ([], [])) as (_ & Hfresh & _).
  - vm_compute. reflexivity.
  - reflexivity.
  - reflexivity.
  - reflexivity.
  - reflexivity.
  - apply Hfresh. vm_compute. exact I.
Defined.

(** ** The Time cluster's answer to Read_Attributes *)

Lemma od_set_keys {V} (k : Z) (v : V) (d : list (Z * V)) :
  map fst (od_set k v d)
  = if decide (k ∈ map fst d) then map fst d else map fst d ++ [k].
Proof.
  induction d as [|[k' v'] d IH]; [reflexivity|].
  cbn [od_set map fst]. destruct (Z.eqb_spec k k') as [->|Hne].
  - cbn [map fst]. rewrite decide_True by apply list_elem_of_here.
    reflexivity.
  - cbn [map fst]. rewrite IH. destruct (decide (k ∈ map fst d)) as [Hin|Hin].
    + rewrite decide_True by now apply list_elem_of_further. reflexivity.
    + rewrite decide_False; [reflexivity|].
      intros [?|?]%elem_of_cons; contradiction.
Qed.

Lemma od_set_NoDup {V} (k : Z) (v : V) (d : list (Z * V)) :
  NoDup (map fst d) -> NoDup (map fst (od_set k v d)).
Proof.
  intros Hd. rewrite od_set_keys. destruct (decide (k ∈ map fst d)); [done|].
  apply NoDup_app. split; [done|]. split.
  - intros x Hx ->%list_elem_of_singleton. contradiction.
  - apply NoDup_singleton.
Qed.

Lemma od_set_elem {V} (k : Z) (w : V) (d : list (Z * V)) (a : Z) (v : V) :
  NoDup (map fst d) ->
  (a, v) ∈ od_set k w d ->
  (a = k /\ v = w) \/ (a <> k /\ (a, v) ∈ d).
Proof.
  induction d as [|[k' v'] d IH]; intros Hd Hin.
  - apply list_elem_of_singleton in Hin. left. now inversion Hin.
  - cbn [map fst] in Hd. apply NoDup_cons in Hd as [Hk' Hd].
    cbn [od_set] in Hin. destruct (Z.eqb_spec k k') as [->|Hne].
    + apply elem_of_cons in Hin as [Heq|Hin].
      * left. now inversion Heq.
      * right. split; [|now apply list_elem_of_further].
        intros ->. apply Hk'.
        apply (list_elem_of_fmap_2 fst) in Hin. exact Hin.
    + apply elem_of_cons in Hin as [Heq|Hin].
      * right. inversion Heq; subst. split; [congruence|].
        apply list_elem_of_here.
      * destruct (IH Hd Hin) as [?|[? ?]]; [now left|].
        right. split; [done|]. now apply list_elem_of_further.
Qed.

Section TimeFacts.

Variables utc_seconds local_seconds zone_seconds : nat -> Q.

Let attribute := time_attribute utc_seconds local_seconds zone_seconds.
Let read := read_time_attributes utc_seconds local_seconds zone_seconds.

Lemma read_time_attributes_keys (attrs : list Z) :
  forall (i : nat) (data : list (Z * option time_value)),
    map fst (read i attrs data)
    = map fst data
      ++ filter (fun y => y ∉ map fst data) (first_occurrences attrs).
Proof.
  induction attrs as [|a rest IH]; intros i data.
  - cbn. now rewrite app_nil_r.
  - unfold read in *. cbn [read_time_attributes first_occurrences].
    rewrite IH, od_set_keys.
    destruct (decide (a ∈ map fst data)) as [Hin|Hin].
    + rewrite filter_cons_False by (intros Hn; now apply Hn).
      rewrite list_filter_filter. f_equal. apply list_filter_iff.
      intros x. split; [|tauto]. intros Hx. split; [done|].
      intros ->. contradiction.
    + rewrite filter_cons_True by done.
      rewrite <- app_assoc. cbn [app]. do 2 f_equal.
      rewrite list_filter_filter. apply list_filter_iff.
      intros x. rewrite elem_of_app, list_elem_of_singleton. tauto.
Qed.

Lemma read_time_attributes_NoDup (attrs : list Z) :
  forall (i : nat) (data : list (Z * option time_value)),
    NoDup (map fst data) -> NoDup (map fst (read i attrs data)).
Proof.
  induction attrs as [|a rest IH]; intros i data Hd; [exact Hd|].
  unfold read in *. cbn [read_time_attributes]. apply IH.
  now apply od_set_NoDup.
Qed.

Lemma first_occurrences_elem (attrs : list Z) (a : Z) :
  a ∈ first_occurrences attrs <-> a ∈ attrs.
Proof.
  induction attrs as [|x rest IH]; [reflexivity|].
  cbn [first_occurrences].
  rewrite !elem_of_cons, list_elem_of_filter, IH.
  destruct (decide (a = x)); tauto.
Qed.

Lemma read_time_attributes_values (attrs : list Z) :
  forall (i : nat) (data : list (Z * option time_value)) (a : Z)
         (v : option time_value),
    NoDup (map fst data) ->
    (a, v) ∈ read i attrs data ->
    ((a, v) ∈ data /\ a ∉ attrs) \/
    exists k : nat,
      attrs !! k = Some a /\
      (forall j : nat, (k < j)%nat -> attrs !! j <> Some a) /\
      v = attribute (i + k)%nat a.
Proof.
  induction attrs as [|x rest IH]; intros i data a v Hd Hin.
  - left. split; [exact Hin|]. apply not_elem_of_nil.
  - unfold read in *. cbn [read_time_attributes] in Hin.
    apply IH in Hin; [|now apply od_set_NoDup].
    destruct Hin as [[Hin Hrest]|(k & Hk & Hlast & Hv)].
    + apply od_set_elem in Hin; [|exact Hd].
      destruct Hin as [[-> ->]|[Hne Hin]].
      * right. exists 0%nat. split; [reflexivity|]. split.
        -- intros [|j] Hj; [lia|]. cbn [lookup list_lookup]. intros Hj'.
           apply Hrest. eapply list_elem_of_lookup_2. exact Hj'.
        -- now rewrite Nat.add_0_r.
      * left. split; [exact Hin|].
        intros [?|?]%elem_of_cons; contradiction.
    + right. exists (S k). split; [exact Hk|]. split.
      * intros [|j] Hj; [lia|]. cbn [lookup list_lookup].
        apply Hlast. lia.
      * rewrite Hv. unfold attribute. f_equal. lia.
Qed.

Lemma handle_cluster_general_request_read (Read_Attributes : Z)
    (hdr : ZCLHeader) (attrs : list Z) (more : list (list Z)) (others : list (list (list Z)))
    (self : TimeCluster) :
  hdr_command_id hdr = Some Read_Attributes ->
  handle_cluster_general_request Read_Attributes utc_seconds local_seconds
    zone_seconds hdr ((attrs :: more) :: others) self
  = (Ok tt, mkTime (time_rsp self ++ [(read 0%nat attrs [], hdr_tsn hdr)])).
Proof.
  intros Hcmd. unfold handle_cluster_general_request.
  rewrite decide_True by exact Hcmd. reflexivity.
Qed.

End TimeFacts.

(** X15. A Read_Attributes request is answered once, with the sequence
    number of the request, and the answer lists every requested attribute
    id exactly once, in the order in which the ids first occur in the
    request: an id asked for twice gets one entry, at the place of its
    first occurrence. Earlier answers are kept as they are. *)
Theorem time_response_order (Read_Attributes : Z)
    (utc_seconds local_seconds zone_seconds : nat -> Q) (hdr : ZCLHeader)
    (attrs : list Z) (more : list (list Z)) (others : list (list (list Z)))
    (self : TimeCluster) :
  hdr_command_id hdr = Some Read_Attributes ->
  exists data,
    handle_cluster_general_request Read_Attributes utc_seconds local_seconds
      zone_seconds hdr ((attrs :: more) :: others) self
    = (Ok tt, mkTime (time_rsp self ++ [(data, hdr_tsn hdr)])) /\
    map fst data = first_occurrences attrs /\
    NoDup (map fst data) /\
    (forall a, a ∈ map fst data <-> a ∈ attrs).
Proof.
  intros Hcmd. eexists. split.
  - now apply handle_cluster_general_request_read.
  - pose proof (read_time_attributes_keys utc_seconds local_seconds
                  zone_seconds attrs 0 []) as Hkeys.
    cbn [map app] in Hkeys.
    assert (Hfo : filter (fun y : Z => y ∉ @nil Z) (first_occurrences attrs)
                  = first_occurrences attrs).
    { clear. induction (first_occurrences attrs) as [|x l IH]; [done|].
      rewrite filter_cons_True by apply not_elem_of_nil. now rewrite IH. }
    rewrite Hfo in Hkeys. split; [exact Hkeys|]. split.
    + apply read_time_attributes_NoDup. apply NoDup_nil_2.
    + intros a. rewrite Hkeys. apply first_occurrences_elem.
Qed.

Lemma time_response_order_witness :
  exists data,
    handle_cluster_general_request 0 sample_utc sample_local sample_zone
      (mkZCLHeader 5 (Some 0) false) [[[7; 0; 7; 1]]] (mkTime [])
    = (Ok tt, mkTime ([] ++ [(data, 5)])) /\
    map fst data = [7; 0; 1].
Proof.
  destruct (time_response_order 0 sample_utc sample_local sample_zone
              (mkZCLHeader 5 (Some 0) false) [7; 0; 7; 1] [] [] (mkTime [])
              eq_refl) as (data & Hrun & Hkeys & _).
  exists data. split; [exact Hrun|]. rewrite Hkeys. reflexivity.
Defined.

(** X16. In the answer to Read_Attributes every entry belongs to a
    requested id and carries what the last occurrence of that id in the
    request produced: for an id asked for more than once the clock reading
    of the last asking stands at the place of the first. Attribute 1 (the
    time status) is always answered 7, and any id other than 0, 1, 2 and 7
    is answered [None] rather than left out or refused. *)
Theorem time_response_values (Read_Attributes : Z)
    (utc_seconds local_seconds zone_seconds : nat -> Q) (hdr : ZCLHeader)
    (attrs : list Z) (more : list (list Z)) (others : list (list (list Z)))
    (self : TimeCluster) :
  hdr_command_id hdr = Some Read_Attributes ->
  exists data,
    handle_cluster_general_request Read_Attributes utc_seconds local_seconds
      zone_seconds hdr ((attrs :: more) :: others) self
    = (Ok tt, mkTime (time_rsp self ++ [(data, hdr_tsn hdr)])) /\
    forall (a : Z) (v : option time_value),
      (a, v) ∈ data ->
      (exists k : nat,
         attrs !! k = Some a /\
         (forall j : nat, (k < j)%nat -> attrs !! j <> Some a) /\
         v = time_attribute utc_seconds local_seconds zone_seconds k a) /\
      (a = 1 -> v = Some (Int 7)) /\
      (a <> 0 -> a <> 1 -> a <> 2 -> a <> 7 -> v = None).
Proof.
  intros Hcmd. eexists. split.
  - now apply handle_cluster_general_request_read.
  - intros a v Hin.
    apply read_time_attributes_values in Hin; [|apply NoDup_nil_2].
    destruct Hin as [[Hnil _]|(k & Hk & Hlast & Hv)].
    + now apply elem_of_nil in Hnil.
    + cbn [Nat.add] in Hv. split; [now exists k|]. split.
      * intros ->. exact Hv.
      * intros H0 H1 H2 H7. rewrite Hv. unfold time_attribute.
        destruct (Z.eqb_spec a 0); [contradiction|].
        destruct (Z.eqb_spec a 1); [contradiction|].
        destruct (Z.eqb_spec a 2); [contradiction|].
        destruct (Z.eqb_spec a 7); [contradiction|]. reflexivity.
Qed.

Lemma time_response_values_witness :
  exists data,
    handle_cluster_general_request 0 sample_utc sample_local sample_zone
      (mkZCLHeader 5 (Some 0) false) [[[0; 9; 0; 1]]] (mkTime [])
    = (Ok tt, mkTime ([] ++ [(data, 5)])) /\
    forall v, (0, v) ∈ data -> v = Some (Seconds (sample_utc 2)).
Proof.
  destruct (time_response_values 0 sample_utc sample_local sample_zone
              (mkZCLHeader 5 (Some 0) false) [0; 9; 0; 1] [] [] (mkTime [])
              eq_refl) as (data & Hrun & Hvalues).
  exists data. split; [exact Hrun|]. intros v Hin.
  destruct (Hvalues 0 v Hin) as ((k & Hk & Hlast & ->) & _).
  destruct k as [|[|[|[|k]]]]; try discriminate Hk.
  - exfalso. now apply (Hlast 2%nat); [lia|].
  - reflexivity.
Defined.

(** X17. The Time cluster answers a general request exactly when it is a
    Read_Attributes request that carries a list of attribute ids: then one
    answer is added and the call returns. Any other general command is
    ignored without an answer, and a Read_Attributes request without its
    argument raises [IndexError]; in both cases the cluster is left as it
    was. No call changes or removes an earlier answer. *)
Theorem time_answers_read_attributes_only (Read_Attributes : Z)
    (utc_seconds local_seconds zone_seconds : nat -> Q) (hdr : ZCLHeader)
    (args : list (list (list Z))) (self : TimeCluster) :
  let outcome := handle_cluster_general_request Read_Attributes utc_seconds
                   local_seconds zone_seconds hdr args self in
  let requested := exists attrs more others,
                     args = (attrs :: more) :: others in
  (hdr_command_id hdr = Some Read_Attributes /\ requested ->
   fst outcome = Ok tt /\
   exists data,
     time_rsp (snd outcome) = time_rsp self ++ [(data, hdr_tsn hdr)]) /\
  (hdr_command_id hdr <> Some Read_Attributes -> outcome = (Ok tt, self)) /\
  (hdr_command_id hdr = Some Read_Attributes /\ ~ requested ->
   outcome = (Raise IndexError, self)).
Proof.
  intros outcome requested. unfold outcome, requested.
  split; [|split].
  - intros (Hcmd & attrs & more & others & ->).
    rewrite (handle_cluster_general_request_read utc_seconds local_seconds
               zone_seconds Read_Attributes hdr attrs more others self Hcmd).
    split; [reflexivity|]. eexists. reflexivity.
  - intros Hcmd. unfold handle_cluster_general_request.
    now rewrite decide_False by exact Hcmd.
  - intros [Hcmd Hno]. unfold handle_cluster_general_request.
    rewrite decide_True by exact Hcmd.
    destruct args as [|[|attrs more] others]; [reflexivity|reflexivity|].
    exfalso. apply Hno. now exists attrs, more, others.
Qed.

Lemma time_answers_read_attributes_only_witness :
  handle_cluster_general_request 0 sample_utc sample_local sample_zone
    (mkZCLHeader 5 (Some 0) false) [[]] (mkTime [([(1, Some (Int 7))], 4)])
  = (Raise IndexError, mkTime [([(1, Some (Int 7))], 4)]).
Proof.
  apply (time_answers_read_attributes_only 0 sample_utc sample_local
           sample_zone (mkZCLHeader 5 (Some 0) false) [[]]
           (mkTime [([(1, Some (Int 7))], 4)])).
  split; [reflexivity|]. intros (attrs & more & others & Habs).
  discriminate Habs.
Defined.

(** X18. A data frame from an identity that is not registered, or with a
    command id that is not in the translation table, is dropped without an
    error: [handle_message] returns normally and the store is exactly as
    before, whatever the header, counter, payload and MIC of the frame and
    whatever keys the proxy holds. *)
Theorem handle_message_drops_unknown (self : GreenPowerProxy) (now : Q)
    (data : bytes) (rest : list bytes) (command_id : Z) :
  (11 <= length data)%nat ->
  ~ (data !! 0%nat = Some 12 /\ data !! 5%nat = Some 224) ->
  data !! 10%nat = Some command_id ->
  devices (application self) !! (Py.slice data 2 6 ++ Py.slice data 2 6)
    = None \/ command command_id = None ->
  handle_message (data :: rest) now self = (Ok tt, self).
Proof.
  intros Hlen Hshape Hcmd Hunknown.
  pose proof (handle_message_first self now (data :: rest)) as Hfirst.
  cbn beta iota in Hfirst. rewrite Hfirst.
  rewrite (handle_message_data self now data command_id);
    [|apply not_commissioning_shape; [lia|exact Hshape]|exact Hcmd].
  unfold handle_notification. unfold bind at 1. unfold get at 1.
  destruct (devices (application self) !! _) as [dev|]; [|reflexivity].
  destruct Hunknown as [Habs| ->]; [discriminate Habs|reflexivity].
Qed.

Lemma handle_message_drops_unknown_witness :
  handle_message
    [data_frame [0x8c; 0x30] [1; 2; 3; 4] [11; 0; 0; 0] 0x7f [0x23; 0x4b; 0]
                [0x1b; 0x27; 0x64; 0x37]] (inject_Z 5) keyed
  = (Ok tt, keyed).
Proof.
  apply (handle_message_drops_unknown keyed (inject_Z 5) _ [] 0x7f).
  - vm_compute. lia.
  - intros [H0 _]. discriminate H0.
  - reflexivity.
  - right. reflexivity.
Defined.

(** ** Ota: what [image_block] does besides answering *)

(** X19. [_handle_image_block] either sends exactly one
    [image_block_response] with the request's sequence number and returns,
    or raises and sends nothing; the cluster's cache and its earlier
    responses are kept either way. A [ValueError] of the block extraction
    never escapes the handler. For an image of the requested version whose
    header gives the size 0 the handler raises [ZeroDivisionError] from
    its progress figure before any block is read, so such a request gets
    no answer at all. *)
Theorem handle_image_block_exceptions
    (get_ota_image : Z -> Z -> option OTAImage) (self : Ota)
    (field_ctr manufacturer_id image_type file_version file_offset
     max_data_size : Z)
    (request_node_addr block_request_delay tsn : option Z) :
  let outcome := _handle_image_block get_ota_image field_ctr manufacturer_id
               image_type file_version file_offset max_data_size
               request_node_addr block_request_delay tsn self in
  ((exists status block,
      outcome = (Ok tt, replied self (image_block_response status block tsn)))
   \/ (exists e, e <> ValueError /\ outcome = (Raise e, self))) /\
  (forall img,
     get_ota_image manufacturer_id image_type = Some img ->
     version img = file_version ->
     header_image_size img = 0 ->
     outcome = (Raise ZeroDivisionError, self)).
Proof.
  unfold _handle_image_block. cbv zeta. split.
  - destruct (get_ota_image manufacturer_id image_type) as [img|];
      [|left; eexists _, _; reflexivity].
    destruct (negb (version img =? file_version));
      [left; eexists _, _; reflexivity|].
    destruct (header_image_size img =? 0);
      [right; exists ZeroDivisionError; split; [discriminate|reflexivity]|].
    destruct (get_image_block img file_offset max_data_size) as [data|e];
      [left; eexists _, _; reflexivity|].
    destruct e; try (right; eexists; split; [|reflexivity]; discriminate).
    left. eexists _, _. reflexivity.
  - intros img -> <- ->. rewrite Z.eqb_refl. reflexivity.
Qed.

Lemma handle_image_block_exceptions_witness :
  _handle_image_block empty_provider 0 0x1234 1 5 0 64 None None (Some 7)
    new_ota
  = (Raise ZeroDivisionError, new_ota).
Proof.
  apply (proj2 (handle_image_block_exceptions empty_provider new_ota 0 0x1234
                  1 5 0 64 None None (Some 7)) empty_image); reflexivity.
Defined.
